(** * OrgQ_HN: nuclei counts and marker colocalization per organoid image

    A shallow embedding of the Python (Jython) macro [OrgQ_HN.py]: the pixel
    calibration read from the XML metadata, the resolution of the lower-bound
    thresholds, the construction of the per-image [summary] dictionary with
    its [fieldnames], the loop over the particles of the nuclei channel and
    the row appended to the batch CSV file; then the names of the image
    files ([rreplace]), the threshold table ([getThresholds]) and the loops
    of the main script over the sub-folders and their files.

    Python floats are IEEE binary64 numbers and are embedded as Rocq's
    primitive floats; Python ints are [Z]; a [dict] with string keys is a
    [gmap string _]; a list used as an array is a [list] with stdpp's lookup;
    an uncaught exception is the [Raise] case of [result]. What ImageJ
    measures on the images is an input of the model ([imagej]). *)

From Stdlib Require Import ZArith Floats Ascii.
From stdpp Require Import gmap strings list fin_maps pretty sorting.

Set Warnings "-inexact-float".

(** ** Python values, exceptions and the exception monad *)

Inductive pyval : Type :=
  | PyNone
  | PyInt (n : Z)
  | PyFloat (f : float)
  | PyStr (s : string).

Inductive exn : Type :=
  | KeyError
  | IndexError
  | TypeError
  | NameError
  | ValueError
  | ZeroDivisionError
  | OverflowError
  | ParseError.

Inductive result (A : Type) : Type :=
  | Ok (a : A)
  | Raise (e : exn).
Arguments Ok {A} a.
Arguments Raise {A} e.

#[export] Instance result_ret : MRet result := fun A a => Ok a.
#[export] Instance result_bind : MBind result := fun A B f r =>
  match r with
  | Ok a => f a
  | Raise e => Raise e
  end.

(** [d[k]] on a dict and [l[i]] on a list, with the exception Python raises. *)
Definition dict_get {V : Type} (d : gmap string V) (k : string) : result V :=
  match d !! k with
  | Some v => Ok v
  | None => Raise KeyError
  end.

Definition list_get {V : Type} (l : list V) (i : nat) : result V :=
  match l !! i with
  | Some v => Ok v
  | None => Raise IndexError
  end.

(** [l[i] = v]: an index out of range raises, where stdpp's insert would
    leave the list as it is. *)
Definition list_set {V : Type} (l : list V) (i : nat) (v : V) : result (list V) :=
  if decide (i < length l) then Ok (<[i := v]> l) else Raise IndexError.

(** The float a Python int is converted to when it meets a float in a
    comparison or a division (exact below 2^53, which covers the thresholds
    and the counts of this program). *)
Definition float_of_Z (z : Z) : float :=
  if (z <? 0)%Z then (- of_uint63 (Uint63.of_Z (- z)))%float
  else of_uint63 (Uint63.of_Z z).

(** The conversion of a Python int of any size to a float, as the division
    of a float by an int performs it: the float nearest to the int, ties to
    even, and [OverflowError] for an int beyond the range of the floats. *)
Definition float_of_int (n : Z) : result float :=
  let f := SF2Prim (binary_normalize prec emax n 0 false) in
  if PrimFloat.is_infinity f then Raise OverflowError else Ok f.

(** ** [int(s)] on a string

    Surrounding whitespace is dropped, one sign is allowed, and what is left
    must be a non-empty run of decimal digits; anything else is a
    [ValueError]. *)

Fixpoint lstrip (s : string) : string :=
  match s with
  | String c r => if Ascii.is_space c then lstrip r else s
  | EmptyString => EmptyString
  end.

Definition strip (s : string) : string :=
  String.rev (lstrip (String.rev (lstrip s))).

Fixpoint digits (acc : Z) (s : string) : option Z :=
  match s with
  | EmptyString => Some acc
  | String c r =>
      match Ascii.is_nat c with
      | Some d => digits (10 * acc + Z.of_nat d) r
      | None => None
      end
  end.

Definition unsigned_digits (s : string) : option Z :=
  match s with
  | EmptyString => None
  | _ => digits 0 s
  end.

Definition py_int (s : string) : result Z :=
  let parsed :=
    match strip s with
    | String c r =>
        if Ascii.eqb c "-"%char then Z.opp <$> unsigned_digits r
        else if Ascii.eqb c "+"%char then unsigned_digits r
        else unsigned_digits (String c r)
    | EmptyString => None
    end in
  match parsed with
  | Some n => Ok n
  | None => Raise ValueError
  end.

(** ** Loops

    [for a in l: body] over a state that the body updates; the first
    exception ends the loop. [for_enumerate] is the same loop over
    [enumerate(l)], with the running index. *)
Fixpoint for_each {A St : Type} (body : A -> St -> result St) (l : list A)
    (s : St) : result St :=
  match l with
  | [] => Ok s
  | a :: rest => s' ← body a s; for_each body rest s'
  end.

Fixpoint for_enumerate {A St : Type} (body : nat -> A -> St -> result St)
    (z : nat) (l : list A) (s : St) : result St :=
  match l with
  | [] => Ok s
  | a :: rest => s' ← body z a s; for_enumerate body (S z) rest s'
  end.

(** ** Calibration: the pixel length in microns (lines 113-129) *)

Module Calibration.

(** A file of the directory whose name ends in [.xml]: either
    [ET.parse] rejects it, or it yields the attribute dictionaries of its
    [DimensionDescription] elements in document order. *)
Inductive xml_file : Type :=
  | NotXml
  | Xml (dimensions : list (gmap string string)).

Definition default_pixel_length : float := 0.877017%float.

Section Resolver.
(** [float(s)] on a string, a builtin taken as given. *)
Variable py_float : string -> result float.

(** The body of [for dimensions in root.iter('DimensionDescription')]:
    it assigns [num_pixels] and [length], both unbound before the first
    iteration. *)
Definition read_dimension (attrib : gmap string string)
    : result (Z * float) :=
  n ← dict_get attrib "NumberOfElements";
  num_pixels ← py_int n;
  unit ← dict_get attrib "Unit";
  l ← dict_get attrib "Length";
  len ← py_float l;
  if String.eqb unit "m"
  then Ok (num_pixels, (len * 1000000)%float)
  else Ok (num_pixels, len).

Fixpoint read_dimensions (dims : list (gmap string string))
    (bound : option (Z * float)) : result (option (Z * float)) :=
  match dims with
  | [] => Ok bound
  | attrib :: rest =>
      b ← read_dimension attrib;
      read_dimensions rest (Some b)
  end.

Definition pixel_length (file_list : list xml_file) : result float :=
  match file_list with
  | [] => Ok default_pixel_length
  | NotXml :: _ => Raise ParseError
  | Xml dims :: _ =>
      bound ← read_dimensions dims None;
      match bound with
      | None => Raise NameError
      | Some (num_pixels, len) =>
          if (num_pixels =? 0)%Z then Raise ZeroDivisionError
          else
            divisor ← float_of_int num_pixels;
            Ok (len / divisor)%float
      end
  end.
End Resolver.

End Calibration.

(** ** The channels of a directory (getChannels, lines 42-76) *)

(** The four names typed in the dialog; a channel with an empty name is
    left out. (A cancelled dialog, which returns [None], is left out of the
    model.) *)
Definition getChannels (ch00 ch01 ch02 ch03 : string) : list (string * nat) :=
  filter (fun v => v.1 ≠ EmptyString)
         [(ch00, 0); (ch01, 1); (ch02, 2); (ch03, 3)].

(** ** Lower-bound thresholds (lines 512-516) *)

Definition resolve_lowerBounds (thresholds : gmap string string)
    (channels : list (string * nat)) : result (list Z) :=
  for_each (fun '(v, x) lowerBounds =>
      match thresholds !! v with
      | Some s => n ← py_int s; list_set lowerBounds x n
      | None => Ok lowerBounds
      end)
    channels [40; 20; 35; 50; 40]%Z.

(** ** Configuration (lines 468-471) *)

Record config : Type := {
  areaFractionThreshold : list float;
  tooSmallThreshold : Z;
  tooBigThreshold : Z
}.

Definition default_config : config := {|
  areaFractionThreshold := [0.1; 0.1; 0.1; 0.1; 0.1]%float;
  tooSmallThreshold := 50;
  tooBigThreshold := 500
|}.

(** ** What ImageJ measures on one image

    [areas] is [table.getColumn(0)] after the particle analysis of the nuclei
    channel, one area per particle, in the order of the ROIs the same
    analysis adds to the ROI manager [roim]; [areaFraction x z] is
    [stats.areaFraction] of the thresholded image of channel [x] inside the
    ROI of particle [z]; [organoid x] lists [(stats.mean, stats.area)] of
    channel [x] over the ROIs of the manager [rm]; [blobs x] lists the areas
    of the particles of the thresholded image of channel [x]. The column of
    areas is taken as the list Python iterates over. *)
Record imagej : Type := {
  areas : list float;
  areaFraction : nat -> nat -> float;
  organoid : nat -> list (float * float);
  blobs : nat -> list float
}.

(** [sum(l)] starts from the int [0]. *)
Definition py_sum (l : list float) : pyval :=
  match l with
  | [] => PyInt 0
  | _ => PyFloat (foldl PrimFloat.add 0%float l)
  end.

(** [summary[k] += 1] *)
Definition incr (k : string) (summary : gmap string pyval)
    : result (gmap string pyval) :=
  v ← dict_get summary k;
  match v with
  | PyInt n => Ok (<[k := PyInt (n + 1)]> summary)
  | PyFloat f => Ok (<[k := PyFloat (f + 1)]> summary)
  | _ => Raise TypeError
  end.

(** [a + '-' + b + '-positive'] and [a + '-' + b + '-' + c + '-positive'] *)
Definition pair_key (a b : string) : string :=
  ((a +:+ "-") +:+ b) +:+ "-positive".

Definition triple_key (a b c : string) : string :=
  ((((a +:+ "-") +:+ b) +:+ "-") +:+ c) +:+ "-positive".

(** [DictWriter.writerow] with [extrasaction='ignore'] and the default
    [restval=''] for a field the row has no key for. *)
Definition writerow (fieldnames : list string) (row : gmap string pyval)
    : list pyval :=
  (fun f => default (PyStr "") (row !! f)) <$> fieldnames.

(** ** process (lines 179-430) *)

Section Process.

(** [round(x, ndigits)], a builtin taken as given. *)
Variable py_round : float -> Z -> float.
Variable cfg : config.
Variable ij : imagej.
Variable channels : list (string * nat).
Variables subFolder filename : string.

Definition too_big_key : string :=
  ("too-big-(>" +:+ pretty (tooBigThreshold cfg)) +:+ ")".

Definition too_small_key : string :=
  ("too-small-(<" +:+ pretty (tooSmallThreshold cfg)) +:+ ")".

(** Lines 179-206: the channel images are opened and the mean intensity
    and area of the organoid measured; the state is
    [(images, intensities, bigAreas)], all [[None] * 5]. *)
Definition measure_channels
    : result (list (option nat) * list pyval * list pyval) :=
  for_each (fun '(v, x) '(images, intensities, bigAreas) =>
      images ← list_set images x (Some x);
      '(intensities, bigAreas) ←
        for_each (fun '(mean, area) '(intensities, bigAreas) =>
            intensities ← list_set intensities x (PyFloat mean);
            bigAreas ← list_set bigAreas x (PyFloat area);
            Ok (intensities, bigAreas))
          (organoid ij x) (intensities, bigAreas);
      Ok (images, intensities, bigAreas))
    channels (replicate 5 None, replicate 5 PyNone, replicate 5 PyNone).

(** Lines 255-285: the area fraction of every nucleus ROI in every
    configured channel. *)
Definition measure_areaFractions : result (list (option (list float))) :=
  for_each (fun '(v, x) areaFractionsArray =>
      let areaFractions :=
        areaFraction ij x <$> seq 0 (length (areas ij)) in
      list_set areaFractionsArray x (Some areaFractions))
    channels (replicate 5 None).

(** Lines 289-315: the blobs of every configured channel. *)
Definition measure_blobs : result (list pyval * list pyval) :=
  for_each (fun '(v, x) '(blobsarea, blobsnuclei) =>
      blobsarea ← list_set blobsarea x (py_sum (blobs ij x));
      blobsnuclei ←
        list_set blobsnuclei x (PyInt (Z.of_nat (length (blobs ij x))));
      Ok (blobsarea, blobsnuclei))
    channels (replicate 5 PyNone, replicate 5 PyNone).

(** Lines 343-355: the body of the loop that adds the columns of a
    channel; the state is [(summary, fieldnames)]. *)
Definition add_marker_columns (intensities blobsarea blobsnuclei : list pyval)
    (chan : string * nat) (st : gmap string pyval * list string)
    : result (gmap string pyval * list string) :=
  let '(v, x) := chan in
  let '(summary, fieldnames) := st in
  let summary := <[v +:+ "-positive" := PyInt 0]> summary in
  let fieldnames := fieldnames ++ [v +:+ "-positive"] in
  i ← list_get intensities x;
  let summary := <[v +:+ "-intensity" := i]> summary in
  let fieldnames := fieldnames ++ [v +:+ "-intensity"] in
  a ← list_get blobsarea x;
  let summary := <[v +:+ "-blobsarea" := a]> summary in
  let fieldnames := fieldnames ++ [v +:+ "-blobsarea"] in
  n ← list_get blobsnuclei x;
  let summary := <[v +:+ "-blobsnuclei" := n]> summary in
  let fieldnames := fieldnames ++ [v +:+ "-blobsnuclei"] in
  Ok (summary, fieldnames).

(** Lines 357-372: the colocalization columns, under
    [len(channels) > 2] and [len(channels) > 3]. *)
Definition add_colocalization_columns
    (st : gmap string pyval * list string)
    : gmap string pyval * list string :=
  let '(summary, fieldnames) := st in
  let '(summary, fieldnames) :=
    match channels with
    | _ :: (c1, _) :: (c2, _) :: _ =>
        (<[pair_key c1 c2 := PyInt 0]> summary,
         fieldnames ++ [pair_key c1 c2])
    | _ => (summary, fieldnames)
    end in
  match channels with
  | _ :: (c1, _) :: (c2, _) :: (c3, _) :: _ =>
      (<[triple_key c1 c2 c3 := PyInt 0]>
         (<[pair_key c2 c3 := PyInt 0]>
            (<[pair_key c1 c3 := PyInt 0]> summary)),
       fieldnames
         ++ [pair_key c1 c3; pair_key c2 c3; triple_key c1 c2 c3])
  | _ => (summary, fieldnames)
  end.

(** Lines 319-336: the entries and field names every row has. *)
Definition base_summary : gmap string pyval :=
  let summary : gmap string pyval := ∅ in
  let summary := <["Image" := PyStr filename]> summary in
  let summary := <["Directory" := PyStr subFolder]> summary in
  let summary := <["size-average" := PyInt 0]> summary in
  let summary := <["#nuclei" := PyInt 0]> summary in
  let summary := <["all-negative" := PyInt 0]> summary in
  let summary := <[too_big_key := PyInt 0]> summary in
  <[too_small_key := PyInt 0]> summary.

Definition base_fieldnames : list string :=
  ["Name"; "Directory"; "Image"; "size-average"; too_big_key;
   too_small_key; "#nuclei"; "all-negative"].

(** Lines 319-372: the summary dictionary and the field names. [x] in
    [bigAreas[x]] is the variable the channel loops left bound, the index
    of the last channel. *)
Definition init_summary (intensities bigAreas blobsarea blobsnuclei : list pyval)
    : result (gmap string pyval * list string) :=
  let summary := base_summary in
  let fieldnames := base_fieldnames in
  x ← match last channels with
      | Some (_, x) => Ok x
      | None => Raise NameError
      end;
  organoid_area ← list_get bigAreas x;
  let summary := <["organoid-area" := organoid_area]> summary in
  let fieldnames := fieldnames ++ ["organoid-area"] in
  st ← for_each (add_marker_columns intensities blobsarea blobsnuclei)
         channels (summary, fieldnames);
  Ok (add_colocalization_columns st).

(** [areaFractionsArray[x][z] > areaFractionThreshold[i]] *)
Definition exceeds (areaFractionsArray : list (option (list float)))
    (x z i : nat) : result bool :=
  col ← list_get areaFractionsArray x;
  match col with
  | None => Raise TypeError
  | Some areaFractions =>
      a ← list_get areaFractions z;
      t ← list_get (areaFractionThreshold cfg) i;
      Ok (t <? a)%float
  end.

(** Lines 392-398: the loop over the channels for particle [z], and its
    body; the state is [(summary, temp)]. *)
Definition count_marker (areaFractionsArray : list (option (list float)))
    (z : nat) (chan : string * nat) (st : gmap string pyval * Z)
    : result (gmap string pyval * Z) :=
  let '(v, x) := chan in
  let '(summary, temp) := st in
  b ← exceeds areaFractionsArray x z 0;
  if b : bool then
    summary ← incr (v +:+ "-positive") summary;
    Ok (summary, if decide (x ≠ 0) then (temp + 1)%Z else temp)
  else Ok (summary, temp).

Definition count_markers (areaFractionsArray : list (option (list float)))
    (z : nat) (st : gmap string pyval * Z) : result (gmap string pyval * Z) :=
  for_each (count_marker areaFractionsArray z) channels st.

(** Lines 403-406, under [len(channels) > 2]. *)
Definition count_pair (areaFractionsArray : list (option (list float)))
    (z : nat) (summary : gmap string pyval) : result (gmap string pyval) :=
  match channels with
  | _ :: (c1, _) :: (c2, _) :: _ =>
      b1 ← exceeds areaFractionsArray 1 z 1;
      if b1 : bool then
        b2 ← exceeds areaFractionsArray 2 z 2;
        if b2 : bool then incr (pair_key c1 c2) summary else Ok summary
      else Ok summary
  | _ => Ok summary
  end.

(** Lines 408-416, under [len(channels) > 3]. *)
Definition count_extended (areaFractionsArray : list (option (list float)))
    (z : nat) (summary : gmap string pyval) : result (gmap string pyval) :=
  match channels with
  | _ :: (c1, _) :: (c2, _) :: (c3, _) :: _ =>
      summary ←
        (b1 ← exceeds areaFractionsArray 1 z 1;
         if b1 : bool then
           b3 ← exceeds areaFractionsArray 3 z 3;
           if b3 : bool then incr (pair_key c1 c3) summary else Ok summary
         else Ok summary);
      b2 ← exceeds areaFractionsArray 2 z 2;
      if b2 : bool then
        b3 ← exceeds areaFractionsArray 3 z 3;
        if b3 : bool then
          summary ← incr (pair_key c2 c3) summary;
          b1 ← exceeds areaFractionsArray 1 z 1;
          if b1 : bool then incr (triple_key c1 c2 c3) summary
          else Ok summary
        else Ok summary
      else Ok summary
  | _ => Ok summary
  end.

(** Lines 377-416: the body of [for z, area in enumerate(areas)]; the
    state is [(summary, areaCounter)]. [areaCounter] starts as the int [0]
    and is a float from its first [+=] on; it is read only after
    [summary['#nuclei']] was incremented, that is after a [+=], so it is
    kept as the float [0 + ...] throughout. *)
Definition candidate (areaFractionsArray : list (option (list float)))
    (z : nat) (area : float) (st : gmap string pyval * float)
    : result (gmap string pyval * float) :=
  let '(summary, areaCounter) := st in
  if (float_of_Z (tooBigThreshold cfg) <? area)%float then
    summary ← incr too_big_key summary;
    Ok (summary, areaCounter)
  else if (area <? float_of_Z (tooSmallThreshold cfg))%float then
    summary ← incr too_small_key summary;
    Ok (summary, areaCounter)
  else
    summary ← incr "#nuclei" summary;
    let areaCounter := (areaCounter + area)%float in
    '(summary, temp) ← count_markers areaFractionsArray z (summary, 0%Z);
    summary ←
      (if (temp =? 0)%Z then incr "all-negative" summary else Ok summary);
    summary ← count_pair areaFractionsArray z summary;
    summary ← count_extended areaFractionsArray z summary;
    Ok (summary, areaCounter).

(** Lines 420-421. [summary['#nuclei']] holds an int. *)
Definition size_average (st : gmap string pyval * float)
    : result (gmap string pyval) :=
  let '(summary, areaCounter) := st in
  n ← dict_get summary "#nuclei";
  match n with
  | PyInt n =>
      if (0 <? n)%Z
      then Ok (<["size-average" :=
                   PyFloat (py_round (areaCounter / float_of_Z n) 2)]> summary)
      else Ok summary
  | _ => Raise TypeError
  end.

(** The summary of one image and its field names. *)
Definition summarise : result (gmap string pyval * list string) :=
  '(images, intensities, bigAreas) ← measure_channels;
  areaFractionsArray ← measure_areaFractions;
  '(blobsarea, blobsnuclei) ← measure_blobs;
  '(summary, fieldnames) ←
    init_summary intensities bigAreas blobsarea blobsnuclei;
  st ← for_enumerate (candidate areaFractionsArray) 0 (areas ij)
         (summary, 0%float);
  summary ← size_average st;
  Ok (summary, fieldnames).

(** Lines 425-430: the header is written when the file is still empty,
    then the row. The file is the list of its rows. *)
Definition process (csvfile : list (list pyval)) : result (list (list pyval)) :=
  '(summary, fieldnames) ← summarise;
  let csvfile :=
    match csvfile with
    | [] => [PyStr <$> fieldnames]
    | _ => csvfile
    end in
  Ok (csvfile ++ [writerow fieldnames summary]).

End Process.

(** ** Notions used to state what the loop computes *)

(** The size class the tests of lines 382-386 put a particle in. *)
Inductive size_class : Type := Valid | TooSmall | TooBig.

#[export] Instance size_class_eq_dec : EqDecision size_class.
Proof. solve_decision. Defined.

Definition classify (cfg : config) (area : float) : size_class :=
  if (float_of_Z (tooBigThreshold cfg) <? area)%float then TooBig
  else if (area <? float_of_Z (tooSmallThreshold cfg))%float then TooSmall
  else Valid.

Definition is_valid (cfg : config) (area : float) : bool :=
  bool_decide (classify cfg area = Valid).

(** [areaFractionThreshold[i]], for [i] within the list. *)
Definition threshold (cfg : config) (i : nat) : float :=
  default 0%float (areaFractionThreshold cfg !! i).

(** The test [areaFractionsArray[x][z] > areaFractionThreshold[i]]. *)
Definition positive (cfg : config) (ij : imagej) (i x z : nat) : bool :=
  (threshold cfg i <? areaFraction ij x z)%float.

(** The number of particles [z], of area [a], with [P z a], counted from
    index [z] on. *)
Fixpoint count_from (P : nat -> float -> bool) (z : nat) (l : list float)
    : nat :=
  match l with
  | [] => 0
  | a :: rest => (if P z a then 1 else 0) + count_from P (S z) rest
  end.

Definition count_particles (P : nat -> float -> bool) (ij : imagej) : nat :=
  count_from P 0 (areas ij).

(** The areas of the valid particles, in order, and the float sum the loop
    accumulates over them. *)
Definition valid_areas (cfg : config) (ij : imagej) : list float :=
  filter (fun a => classify cfg a = Valid) (areas ij).

(** The channel lists on which every subscript of [process] is in range:
    at least one channel, channel indexes below 5, and the channels 1, 2
    (and 3) the colocalization tests read are configured when there are more
    than 2 (3) channels. *)
Definition channels_ok (channels : list (string * nat)) : Prop :=
  channels ≠ [] ∧
  Forall (fun c => c.2 < 5) channels ∧
  (2 < length channels -> 1 ∈ channels.*2 ∧ 2 ∈ channels.*2) ∧
  (3 < length channels -> 3 ∈ channels.*2).

#[export] Instance channels_ok_dec channels : Decision (channels_ok channels).
Proof. unfold channels_ok. apply _. Defined.

(** The keys that hold a measurement or a name, not a counter. *)
Definition value_key (k : string) : Prop :=
  k = "Image" \/ k = "Directory" \/ k = "organoid-area" \/
  exists v, k = v +:+ "-intensity" \/ k = v +:+ "-blobsarea"
            \/ k = v +:+ "-blobsnuclei".

(** The four columns of a channel. *)
Definition marker_columns (c : string * nat) : list string :=
  [c.1 +:+ "-positive"; c.1 +:+ "-intensity"; c.1 +:+ "-blobsarea";
   c.1 +:+ "-blobsnuclei"].

(** The colocalization columns. *)
Definition colocalization_columns (channels : list (string * nat))
    : list string :=
  match channels with
  | _ :: (c1, _) :: (c2, _) :: rest =>
      pair_key c1 c2 ::
      match rest with
      | (c3, _) :: _ =>
          [pair_key c1 c3; pair_key c2 c3; triple_key c1 c2 c3]
      | [] => []
      end
  | _ => []
  end.

(** The counters every summary has. *)
Definition base_counters (cfg : config) : list string :=
  ["size-average"; "#nuclei"; "all-negative"; too_big_key cfg;
   too_small_key cfg].

(** The keys of the summary that end in [-positive], in the order of the
    field names: a counter per channel, then the colocalization counters. *)
Definition positive_keys (channels : list (string * nat)) : list string :=
  ((fun c => c.1 +:+ "-positive") <$> channels)
  ++ colocalization_columns channels.

(** The summary after a [summary[k] += 1] that went through. *)
Definition bump (k : string) (summary : gmap string pyval)
    : gmap string pyval :=
  alter (fun v => match v with
                  | PyInt n => PyInt (n + 1)
                  | PyFloat f => PyFloat (f + 1)
                  | _ => v
                  end) k summary.

Definition bump_all (ks : list string) (summary : gmap string pyval)
    : gmap string pyval :=
  foldl (fun s k => bump k s) summary ks.

(** Entry [x] of [areaFractionsArray] holds the area fractions of channel
    [x], one per particle. *)
Definition measured (ij : imagej) (areaFractionsArray : list (option (list float)))
    (x : nat) : Prop :=
  areaFractionsArray !! x
  = Some (Some (areaFraction ij x <$> seq 0 (length (areas ij)))).

(** Every list in [areaFractionsArray] is the list of area fractions of its
    channel. *)
Definition faithful (ij : imagej) (areaFractionsArray : list (option (list float)))
    : Prop :=
  forall x col,
    areaFractionsArray !! x = Some (Some col) ->
    col = areaFraction ij x <$> seq 0 (length (areas ij)).

Definition is_int (summary : gmap string pyval) (k : string) : Prop :=
  exists n, summary !! k = Some (PyInt n).

(** Every counter of the summary holds an int. *)
Definition ready (cfg : config) (channels : list (string * nat))
    (summary : gmap string pyval) : Prop :=
  forall k, k ∈ base_counters cfg ++ positive_keys channels -> is_int summary k.

Definition occurrences (k : string) (ks : list string) : nat :=
  length (filter (fun k' => k' = k) ks).

(** The keys particle [z] increments, in the order of the increments. *)
Section Hits.
Variable cfg : config.
Variable ij : imagej.
Variable channels : list (string * nat).

Definition marker_hits (z : nat) (chans : list (string * nat))
    : list string :=
  flat_map (fun c => if positive cfg ij 0 c.2 z
                     then [c.1 +:+ "-positive"] else []) chans.

Fixpoint temp_of (z : nat) (chans : list (string * nat)) : Z :=
  match chans with
  | [] => 0
  | c :: rest =>
      ((if positive cfg ij 0 c.2 z && negb (Nat.eqb c.2 0) then 1 else 0)
       + temp_of z rest)%Z
  end.

Definition pair_hits (z : nat) : list string :=
  match channels with
  | _ :: (c1, _) :: (c2, _) :: _ =>
      if positive cfg ij 1 1 z && positive cfg ij 2 2 z
      then [pair_key c1 c2] else []
  | _ => []
  end.

Definition extended_hits (z : nat) : list string :=
  match channels with
  | _ :: (c1, _) :: (c2, _) :: (c3, _) :: _ =>
      (if positive cfg ij 1 1 z && positive cfg ij 3 3 z
       then [pair_key c1 c3] else [])
      ++ (if positive cfg ij 2 2 z && positive cfg ij 3 3 z
          then pair_key c2 c3 ::
               (if positive cfg ij 1 1 z
                then [triple_key c1 c2 c3] else [])
          else [])
  | _ => []
  end.

Definition hits (z : nat) (area : float) : list string :=
  match classify cfg area with
  | TooBig => [too_big_key cfg]
  | TooSmall => [too_small_key cfg]
  | Valid =>
      "#nuclei" :: marker_hits z channels
      ++ (if (temp_of z channels =? 0)%Z then ["all-negative"] else [])
      ++ pair_hits z ++ extended_hits z
  end.

Fixpoint hits_from (z : nat) (l : list float) : list string :=
  match l with
  | [] => []
  | a :: rest => hits z a ++ hits_from (S z) rest
  end.

Definition areaCounter_after (areaCounter : float) (area : float) : float :=
  match classify cfg area with
  | Valid => (areaCounter + area)%float
  | _ => areaCounter
  end.
End Hits.

(** The number of particles of a size class. *)
Definition count_class (cfg : config) (c : size_class) (ij : imagej) : nat :=
  length (filter (fun a => classify cfg a = c) (areas ij)).

(** ** File names (rreplace, lines 101-102; its uses at lines 109 and 191) *)

(** [s.replace(old, new, 1)]: the leftmost occurrence of [old] is replaced;
    an empty [old] occurs at the start. *)
Fixpoint string_drop (n : nat) (s : string) : string :=
  match n, s with
  | 0, _ => s
  | S n, String _ r => string_drop n r
  | S _, EmptyString => EmptyString
  end.

Fixpoint replace_first (old new s : string) {struct s} : string :=
  if String.prefix old s then new +:+ string_drop (String.length old) s
  else match s with
       | EmptyString => EmptyString
       | String c r => String c (replace_first old new r)
       end.

(** [(s[::-1].replace(old[::-1], new[::-1], 1))[::-1]] *)
Definition rreplace (s old new : string) : string :=
  String.rev (replace_first (String.rev old) (String.rev new) (String.rev s)).

(** The name of the merged image and of the image of channel [x] that
    [process] opens for the file [filename]. *)
Definition merged_name (filename : string) : string :=
  rreplace filename "_ch00.tif" ".tif".

Definition channel_name (filename : string) (x : nat) : string :=
  rreplace filename "_ch00.tif" (("_ch0" +:+ pretty x) +:+ ".tif").

(** [old] occurs in [s]. *)
Definition occurs (old s : string) : Prop :=
  exists a b, s = a +:+ (old +:+ b).

Fixpoint occursb (old s : string) {struct s} : bool :=
  String.prefix old s
  || match s with
     | EmptyString => false
     | String _ r => occursb old r
     end.

(** [s.endswith(suffix)], the test of line 526 on the file names. *)
Definition endswith (s suffix : string) : bool :=
  String.prefix (String.rev suffix) (String.rev s).

(** ** The threshold table (getThresholds, lines 81-98)

    [choice] is the choice of the dialog and [rows] are the rows
    [csv.DictReader] yields for the chosen file, each a dictionary from the
    column names to the cells of the row, all rows as long as the header. *)
Definition getThresholds (choice : string) (rows : list (gmap string string))
    : gmap string string :=
  let thresholds : gmap string string := ∅ in
  if String.eqb choice "use threshold csv file"
  then foldl (fun _ row => row) thresholds rows
  else thresholds.

(** ** The batch (lines 483-531)

    A sub-folder of the input directory: its name, the four names typed in
    the channel dialog for it, the output name typed there, the file names
    [os.listdir] yields for it, and the files among them whose name ends in
    [.xml]. *)
Record subfolder : Type := {
  subFolder_name : string;
  ch00 : string;
  ch01 : string;
  ch02 : string;
  ch03 : string;
  outputName : string;
  listing : list string;
  xml_files : list Calibration.xml_file
}.

Definition channels_of (d : subfolder) : list (string * nat) :=
  getChannels (ch00 d) (ch01 d) (ch02 d) (ch03 d).

Section Batch.
Variable py_round : float -> Z -> float.
Variable py_float : string -> result float.
Variable cfg : config.
(** What ImageJ measures on the image [filename] of the sub-folder
    [subFolder], calibrated with the pixel length [pixel_length], under the
    lower bounds [lowerBounds]. *)
Variable images : string -> string -> float -> list Z -> imagej.
Variable thresholds : gmap string string.

(** [process(subFolder, outputDirectory, filename)], lines 107-430: the
    pixel length is resolved first, then the image is measured and its row
    written. *)
Definition process_image (lowerBounds : list Z) (d : subfolder)
    (filename : string) (csvfile : list (list pyval))
    : result (list (list pyval)) :=
  pixel_length ← Calibration.pixel_length py_float (xml_files d);
  process py_round cfg
    (images (subFolder_name d) filename pixel_length lowerBounds)
    (channels_of d) (subFolder_name d) filename csvfile.

(** Lines 525-528: the loop over the files of a sub-folder. The state is
    the output directory, a map from the output names to the rows of their
    csv files; an exception ends the run and leaves the files as they
    are. *)
Fixpoint run_images (lowerBounds : list Z) (d : subfolder)
    (filenames : list string) (files : gmap string (list (list pyval)))
    : gmap string (list (list pyval)) * option exn :=
  match filenames with
  | [] => (files, None)
  | filename :: rest =>
      if endswith filename "ch00.tif" then
        match process_image lowerBounds d filename
                (default [] (files !! outputName d)) with
        | Ok csvfile =>
            run_images lowerBounds d rest (<[outputName d := csvfile]> files)
        | Raise e => (files, Some e)
        end
      else run_images lowerBounds d rest files
  end.

(** Lines 499-531, the body of the loop over the sub-folders: the csv file
    is opened with ['w'], which empties it, the lower bounds are resolved
    and the images processed. *)
Definition run_subfolder (d : subfolder)
    (files : gmap string (list (list pyval)))
    : gmap string (list (list pyval)) * option exn :=
  let files := <[outputName d := []]> files in
  match resolve_lowerBounds thresholds (channels_of d) with
  | Ok lowerBounds => run_images lowerBounds d (listing d) files
  | Raise e => (files, Some e)
  end.

Fixpoint run_batch (directories : list subfolder)
    (files : gmap string (list (list pyval)))
    : gmap string (list (list pyval)) * option exn :=
  match directories with
  | [] => (files, None)
  | d :: rest =>
      match run_subfolder d files with
      | (files, None) => run_batch rest files
      | (files, Some e) => (files, Some e)
      end
  end.

End Batch.

(** ** Notions used to state what the measurements and the batch produce *)

(** A statistic of the last ROI of the organoid, which is what the loop of
    lines 202-206 leaves in [intensities[x]] and [bigAreas[x]]; [None]
    without any ROI. *)
Definition last_roi (f : float * float -> float) (rois : list (float * float))
    : pyval :=
  match last rois with
  | Some roi => PyFloat (f roi)
  | None => PyNone
  end.

(** Entry [x] of [intensities] and [bigAreas] holds the statistics of the
    organoid in channel [x]. *)
Definition channel_done (ij : imagej) (x : nat) (i b : list pyval) : Prop :=
  i !! x = Some (last_roi fst (organoid ij x))
  /\ b !! x = Some (last_roi snd (organoid ij x)).

(** The three arrays of the channel loop have the same length, and an
    entry of [intensities] or [bigAreas] is [None] or the statistic of its
    channel. *)
Definition channel_arrays (ij : imagej) (im : list (option nat))
    (i b : list pyval) : Prop :=
  length im = length i /\ length im = length b
  /\ forall x,
       (i !! x = Some PyNone \/ i !! x = Some (last_roi fst (organoid ij x))
        \/ i !! x = None)
       /\ (b !! x = Some PyNone \/ b !! x = Some (last_roi snd (organoid ij x))
           \/ b !! x = None).

(** The files of a listing the main loop processes. *)
Definition matching (filenames : list string) : list string :=
  filter (fun f => endswith f "ch00.tif" = true) filenames.

(** The header of a csv file, and the row of an image whose summary is
    built. *)
Definition header_of (cfg : config) (channels : list (string * nat))
    : list pyval :=
  PyStr <$> ((base_fieldnames cfg ++ ["organoid-area"])
             ++ flat_map marker_columns channels
             ++ colocalization_columns channels).

Definition row_of (py_round : float -> Z -> float) (cfg : config)
    (ij : imagej) (channels : list (string * nat))
    (subFolder filename : string) : list pyval :=
  match summarise py_round cfg ij channels subFolder filename with
  | Ok (summary, fieldnames) => writerow fieldnames summary
  | Raise _ => []
  end.

(** ** Sample inputs

    [round_half_away] is one way to round to [ndigits] decimals (scale,
    round to the nearest integer with ties away from zero, unscale) and
    [py_float_sample] reads integer literals only; they stand for the
    builtins [round] and [float] when a run is evaluated. *)

Definition nearest_Z (x : float) : Z :=
  match Prim2SF x with
  | S754_finite s m e =>
      let twice :=
        if (0 <=? e + 1)%Z then (Z.pos m * 2 ^ (e + 1))%Z
        else (Z.pos m / 2 ^ (- (e + 1)))%Z in
      let n := ((twice + 1) / 2)%Z in
      if s then (- n)%Z else n
  | _ => 0%Z
  end.

Definition round_half_away (x : float) (ndigits : Z) : float :=
  let p := float_of_Z (10 ^ ndigits) in
  (float_of_Z (nearest_Z (x * p)) / p)%float.

Definition py_float_sample (s : string) : result float :=
  n ← py_int s; Ok (float_of_Z n).

Definition four_markers : list (string * nat) :=
  getChannels "Dapi" "pSYN" "MAP2" "SYN".

Definition two_markers : list (string * nat) :=
  getChannels "Dapi" "pSYN" "" "".

(** Three particles of areas 20, 200 and 700, every area fraction 50. *)
Definition three_particles : imagej := {|
  areas := [20; 200; 700]%float;
  areaFraction := fun _ _ => 50%float;
  organoid := fun _ => [(12.5, 90000)%float];
  blobs := fun _ => [30; 45]%float
|}.

(** Two particles whose areas are the too-small and the too-big
    threshold, and one in between. *)
Definition boundary_particles : imagej := {|
  areas := [50; 500; 275.5]%float;
  areaFraction := fun _ _ => 0%float;
  organoid := fun _ => [(12.5, 90000)%float];
  blobs := fun _ => []
|}.

(** A threshold table whose entry for pSYN is not a number. *)
Definition malformed_thresholds : gmap string string :=
  <["pSYN" := "high"]> (<["Dapi" := "45"]> ∅).

(** Metadata of a field 1024 pixels and 898 microns wide, and the same
    with a pixel count that is not a number. *)
Definition good_metadata : list Calibration.xml_file :=
  [Calibration.Xml
     [<["NumberOfElements" := "1024"]>
        (<["Unit" := "um"]> (<["Length" := "898"]> ∅))]].

Definition malformed_metadata : list Calibration.xml_file :=
  [Calibration.Xml
     [<["NumberOfElements" := "1024px"]>
        (<["Unit" := "um"]> (<["Length" := "898"]> ∅))]].

(** A too-big particle with every area fraction 50, and a valid particle
    whose area fractions equal the threshold 0.1. *)
Definition gated_particles : imagej := {|
  areas := [700; 200]%float;
  areaFraction := fun _ z => match z with 0 => 50 | _ => 0.1 end%float;
  organoid := fun _ => [(12.5, 90000)%float];
  blobs := fun _ => []
|}.

(** Two valid particles: the first has marker2 (channel 2) negative and
    the other markers positive, the second has every marker positive. *)
Definition asymmetric_particles : imagej := {|
  areas := [200; 300]%float;
  areaFraction := fun x z =>
    match z, x with
    | 0, 2 => 0
    | _, _ => 50
    end%float;
  organoid := fun _ => [(12.5, 90000)%float];
  blobs := fun _ => []
|}.

(** One too-big particle with every marker positive. *)
Definition too_big_particle : imagej := {|
  areas := [700]%float;
  areaFraction := fun _ _ => 50%float;
  organoid := fun _ => [(12.5, 90000)%float];
  blobs := fun _ => []
|}.

(** A summary that only holds the positive counter of pSYN. *)
Definition pSYN_counter : gmap string pyval :=
  <["pSYN-positive" := PyInt 0]> ∅.

(** A threshold table with an override for Dapi and for MAP2, and an
    entry for a name that is no channel. *)
Definition override_thresholds : gmap string string :=
  <["GFAP" := "n/a"]> (<["MAP2" := " 60 "]> (<["Dapi" := "45"]> ∅)).

(** Thresholds that differ between channel 0 and the markers. *)
Definition graded_config : config := {|
  areaFractionThreshold := [0.1; 0.9; 0.9; 0.9; 0.9]%float;
  tooSmallThreshold := 50;
  tooBigThreshold := 500
|}.

(** One valid particle with every area fraction 0.5; two ROIs of the
    organoid in channel 3 and one elsewhere; no blob in channel 2. *)
Definition layered_image : imagej := {|
  areas := [200]%float;
  areaFraction := fun _ _ => 0.5%float;
  organoid := fun x =>
    match x with
    | 3 => [(1.5, 100); (7.5, 90000)]
    | _ => [(2.5, 80000)]
    end%float;
  blobs := fun x => match x with 2 => [] | _ => [30; 45]%float end
|}.

(** Metadata with a pixel count of 2^64. *)
Definition huge_metadata : list Calibration.xml_file :=
  [Calibration.Xml
     [<["NumberOfElements" := "18446744073709551616"]>
        (<["Unit" := "um"]> (<["Length" := "898"]> ∅))]].

(** Metadata with a pixel count of zero. *)
Definition zero_pixel_metadata : list Calibration.xml_file :=
  [Calibration.Xml
     [<["NumberOfElements" := "0"]>
        (<["Unit" := "um"]> (<["Length" := "898"]> ∅))]].

(** Two sub-folders with the same output name and no metadata file; the
    second has no name for channel 1. A third without any channel name.
    The image [a_ch00.tif] holds one too-big particle, every other image
    the three particles of [three_particles]. *)
Definition plate1 : subfolder := {|
  subFolder_name := "plate1";
  ch00 := "Dapi"; ch01 := "pSYN"; ch02 := "MAP2"; ch03 := "SYN";
  outputName := "results";
  listing := ["notes.txt"; "a_ch00.tif"; "a_ch01.tif"; "b_ch00.tif"];
  xml_files := []
|}.

Definition plate2 : subfolder := {|
  subFolder_name := "plate2";
  ch00 := "Dapi"; ch01 := ""; ch02 := "MAP2"; ch03 := "SYN";
  outputName := "results";
  listing := ["a_ch00.tif"; "b_ch00.tif"; "c_ch00.tif"];
  xml_files := []
|}.

Definition unnamed_plate : subfolder := {|
  subFolder_name := "plate3";
  ch00 := ""; ch01 := ""; ch02 := ""; ch03 := "";
  outputName := "plate3";
  listing := ["a_ch00.tif"];
  xml_files := good_metadata
|}.

Definition sample_images (subFolder filename : string) (pixel_length : float)
    (lowerBounds : list Z) : imagej :=
  if String.eqb filename "a_ch00.tif" then too_big_particle
  else three_particles.

(** * Properties *)

(** ** The exception monad and the loops *)

Lemma bind_Ok {A B : Type} (m : result A) (f : A -> result B) (b : B) :
  m ≫= f = Ok b <-> exists a, m = Ok a /\ f a = Ok b.
Proof.
  destruct m as [a|e]; simpl; split.
  - intros H. exists a. done.
  - intros (a' & [= <-] & H). done.
  - discriminate.
  - intros (a' & [=] & _).
Qed.

Lemma bind_Ok_l {A B : Type} (a : A) (f : A -> result B) : Ok a ≫= f = f a.
Proof. reflexivity. Qed.

(** A property the body keeps whenever it returns is kept by the loop. *)
Lemma for_each_inv {A St : Type} (P : St -> Prop)
    (body : A -> St -> result St) (l : list A) :
  (forall a s s', a ∈ l -> P s -> body a s = Ok s' -> P s') ->
  forall s s', P s -> for_each body l s = Ok s' -> P s'.
Proof.
  induction l as [|a l IH]; intros Hbody s s' Hs; simpl.
  - intros [= <-]. done.
  - intros (s1 & H1 & H2)%bind_Ok.
    apply (IH (fun a' t t' Ha' => Hbody a' t t' (list_elem_of_further _ _ _ Ha'))
              s1 s'); [|done].
    eapply Hbody; [left|done..].
Qed.

(** ** Strings: the end of a key tells the keys apart *)

Lemma string_app_cons (x : ascii) (a b : string) :
  String x a +:+ b = String x (a +:+ b).
Proof. reflexivity. Qed.

Lemma string_app_nil (b : string) : EmptyString +:+ b = b.
Proof. reflexivity. Qed.

Lemma string_app_assoc (a b c : string) : (a +:+ b) +:+ c = a +:+ (b +:+ c).
Proof.
  induction a as [|x a IH]; [done|].
  by rewrite !string_app_cons, IH.
Qed.

Lemma string_rev_app_acc (s acc : string) :
  String.rev_app s acc = String.rev s +:+ acc.
Proof.
  unfold String.rev. revert acc.
  induction s as [|x s IH]; intros acc; simpl; [done|].
  rewrite (IH (String x acc)), (IH (String x EmptyString)).
  by rewrite string_app_assoc.
Qed.

Lemma string_rev_app_app (a b acc : string) :
  String.rev_app (a +:+ b) acc = String.rev_app b (String.rev_app a acc).
Proof.
  revert acc. induction a as [|x a IH]; intros acc; [done|].
  rewrite string_app_cons. simpl. apply IH.
Qed.

Lemma string_rev_app (a b : string) :
  String.rev (a +:+ b) = String.rev b +:+ String.rev a.
Proof.
  unfold String.rev at 1. rewrite string_rev_app_app.
  by rewrite string_rev_app_acc.
Qed.

(** Two keys whose last characters differ somewhere are different: the
    reversed keys are compared from their first character on. *)
Ltac key_neq :=
  let H := fresh "H" in
  intros H; apply (f_equal String.rev) in H;
  rewrite ?string_rev_app in H;
  repeat (rewrite ?string_app_cons, ?string_app_nil in H);
  cbv [String.rev String.rev_app] in H;
  repeat (rewrite ?string_app_cons, ?string_app_nil in H);
  discriminate H.


(** The same comparison from the first character on. *)
Ltac key_neq_front :=
  let H := fresh "H" in
  intros H;
  repeat (rewrite ?string_app_assoc, ?string_app_cons, ?string_app_nil in H);
  discriminate H.

(** ** Counters: [summary[k] += 1] on keys that hold an int *)

Lemma incr_bump (k : string) (s : gmap string pyval) :
  is_int s k -> incr k s = Ok (bump k s).
Proof.
  intros [n Hn]. unfold incr, dict_get, bump. rewrite Hn. simpl.
  f_equal. apply map_eq. intros j.
  rewrite lookup_alter, lookup_insert.
  case_decide; [subst; by rewrite Hn|done].
Qed.

Lemma incr_Ok_bump (k : string) (s s' : gmap string pyval) :
  incr k s = Ok s' -> s' = bump k s.
Proof.
  unfold incr, dict_get, bump. intros H.
  destruct (s !! k) as [v|] eqn:Hk; [|done]. simpl in H.
  destruct v; simplify_eq; apply map_eq; intros j;
    rewrite lookup_alter, lookup_insert;
    (case_decide; [subst; by rewrite Hk|done]).
Qed.

Lemma lookup_bump (k j : string) (s : gmap string pyval) (n : Z) :
  s !! j = Some (PyInt n) ->
  bump k s !! j = Some (PyInt (if decide (j = k) then n + 1 else n)).
Proof.
  intros Hj. unfold bump. rewrite lookup_alter.
  destruct (decide (j = k)) as [->|Hne].
  - rewrite decide_True by done. by rewrite Hj.
  - rewrite decide_False by done. done.
Qed.

Lemma lookup_bump_None (k j : string) (s : gmap string pyval) :
  s !! j = None -> bump k s !! j = None.
Proof.
  intros Hj. unfold bump. rewrite lookup_alter.
  case_decide; [subst; by rewrite Hj|done].
Qed.

Lemma bump_is_int (k j : string) (s : gmap string pyval) :
  is_int s j -> is_int (bump k s) j.
Proof. intros [n Hn]. eexists. by apply lookup_bump. Qed.

Lemma bump_all_app (l1 l2 : list string) (s : gmap string pyval) :
  bump_all (l1 ++ l2) s = bump_all l2 (bump_all l1 s).
Proof. unfold bump_all. by rewrite foldl_app. Qed.

Lemma bump_all_is_int (ks : list string) (j : string) (s : gmap string pyval) :
  is_int s j -> is_int (bump_all ks s) j.
Proof.
  revert s. induction ks as [|k ks IH]; intros s Hj; [done|].
  apply (IH (bump k s)). by apply bump_is_int.
Qed.

Lemma occurrences_nil (k : string) : occurrences k [] = 0.
Proof. done. Qed.

Lemma occurrences_cons (k k' : string) (ks : list string) :
  occurrences k (k' :: ks)
  = (if decide (k' = k) then 1 else 0) + occurrences k ks.
Proof.
  unfold occurrences. rewrite filter_cons.
  destruct (decide (k' = k)); done.
Qed.

Lemma occurrences_app (k : string) (l1 l2 : list string) :
  occurrences k (l1 ++ l2) = occurrences k l1 + occurrences k l2.
Proof. unfold occurrences. by rewrite filter_app, length_app. Qed.

Lemma occurrences_not_in (k : string) (ks : list string) :
  k ∉ ks -> occurrences k ks = 0.
Proof.
  induction ks as [|k' ks IH]; intros Hk; [done|].
  apply not_elem_of_cons in Hk as [Hne Hk].
  rewrite occurrences_cons, IH by done.
  rewrite decide_False by done. done.
Qed.

Lemma lookup_bump_all (ks : list string) (j : string) (s : gmap string pyval)
    (n : Z) :
  s !! j = Some (PyInt n) ->
  bump_all ks s !! j = Some (PyInt (n + Z.of_nat (occurrences j ks))).
Proof.
  revert s n. induction ks as [|k ks IH]; intros s n Hj.
  - simpl. rewrite Hj. do 2 f_equal. rewrite occurrences_nil. lia.
  - change (bump_all (k :: ks) s) with (bump_all ks (bump k s)).
    rewrite (IH _ _ (lookup_bump k j s n Hj)), occurrences_cons.
    do 2 f_equal.
    destruct (decide (j = k)) as [->|Hne].
    + rewrite decide_True by done. lia.
    + rewrite decide_False by done. lia.
Qed.

Lemma lookup_bump_all_None (ks : list string) (j : string)
    (s : gmap string pyval) :
  s !! j = None -> bump_all ks s !! j = None.
Proof.
  revert s. induction ks as [|k ks IH]; intros s Hj; [done|].
  apply (IH (bump k s)). by apply lookup_bump_None.
Qed.

(** ** The arrays indexed by channel *)

Lemma list_set_Ok {V : Type} (l : list V) (i : nat) (v : V) :
  i < length l -> list_set l i v = Ok (<[i := v]> l).
Proof. intros Hi. unfold list_set. by rewrite decide_True. Qed.

Lemma list_get_Ok {V : Type} (l : list V) (i : nat) :
  i < length l -> exists v, list_get l i = Ok v.
Proof.
  intros Hi. unfold list_get.
  destruct (lookup_lt_is_Some_2 l i Hi) as [v ->]. by exists v.
Qed.

Lemma measure_areaFractions_from (ij : imagej) (chans : list (string * nat))
    (A0 : list (option (list float))) :
  length A0 = 5 ->
  Forall (fun c => c.2 < 5) chans ->
  exists A,
    for_each (fun '(v, x) areaFractionsArray =>
        let areaFractions :=
          areaFraction ij x <$> seq 0 (length (areas ij)) in
        list_set areaFractionsArray x (Some areaFractions)) chans A0 = Ok A
    /\ length A = 5
    /\ forall x, x ∈ chans.*2 \/ measured ij A0 x -> measured ij A x.
Proof.
  revert A0. induction chans as [|[v x] chans IH]; intros A0 Hlen Hch.
  - exists A0. split_and!; [done..|]. intros x [Hx|Hx]; [|done].
    by apply elem_of_nil in Hx.
  - apply Forall_cons in Hch as [Hx Hch]. simpl in Hx.
    cbn [for_each]. rewrite list_set_Ok by lia. simpl.
    destruct (IH (<[x := Some (areaFraction ij x <$> seq 0 (length (areas ij)))]> A0))
      as (A & HA & HlenA & Hgood); [by rewrite length_insert|done|].
    exists A. split_and!; [done..|].
    intros y Hy. apply Hgood.
    destruct (decide (y = x)) as [->|Hne].
    + right. unfold measured. apply list_lookup_insert_eq. lia.
    + destruct Hy as [Hy|Hy].
      * left. apply elem_of_cons in Hy as [Hy|Hy]; [done|done].
      * right. unfold measured in *. by rewrite list_lookup_insert_ne.
Qed.

Lemma measure_areaFractions_spec (ij : imagej) (channels : list (string * nat)) :
  Forall (fun c => c.2 < 5) channels ->
  exists A,
    measure_areaFractions ij channels = Ok A
    /\ forall x, x ∈ channels.*2 -> measured ij A x.
Proof.
  intros Hch.
  destruct (measure_areaFractions_from ij channels (replicate 5 None))
    as (A & HA & _ & Hgood); [done..|].
  exists A. split; [done|]. intros x Hx. apply Hgood. by left.
Qed.

Lemma measure_organoid_length (x : nat) (rois : list (float * float))
    (intensities bigAreas : list pyval) :
  x < 5 -> length intensities = 5 -> length bigAreas = 5 ->
  exists i b,
    for_each (fun '(mean, area) '(intensities, bigAreas) =>
        intensities ← list_set intensities x (PyFloat mean);
        bigAreas ← list_set bigAreas x (PyFloat area);
        Ok (intensities, bigAreas)) rois (intensities, bigAreas) = Ok (i, b)
    /\ length i = 5 /\ length b = 5.
Proof.
  intros Hx. revert intensities bigAreas.
  induction rois as [|[mean area] rois IH]; intros i b Hi Hb.
  - by exists i, b.
  - cbn [for_each]. rewrite list_set_Ok by lia. simpl.
    rewrite list_set_Ok by lia. simpl.
    apply IH; by rewrite length_insert.
Qed.

Lemma measure_channels_from (ij : imagej) (chans : list (string * nat))
    (images : list (option nat)) (intensities bigAreas : list pyval) :
  Forall (fun c => c.2 < 5) chans ->
  length images = 5 -> length intensities = 5 -> length bigAreas = 5 ->
  exists im i b,
    for_each (fun '(v, x) '(images, intensities, bigAreas) =>
        images ← list_set images x (Some x);
        '(intensities, bigAreas) ←
          for_each (fun '(mean, area) '(intensities, bigAreas) =>
              intensities ← list_set intensities x (PyFloat mean);
              bigAreas ← list_set bigAreas x (PyFloat area);
              Ok (intensities, bigAreas))
            (organoid ij x) (intensities, bigAreas);
        Ok (images, intensities, bigAreas))
      chans (images, intensities, bigAreas) = Ok (im, i, b)
    /\ length i = 5 /\ length b = 5.
Proof.
  intros Hch. revert images intensities bigAreas.
  induction Hch as [|[v x] chans Hx Hch IH]; intros im i b Him Hi Hb.
  - by exists im, i, b.
  - simpl in Hx. cbn [for_each]. rewrite list_set_Ok by lia. simpl.
    destruct (measure_organoid_length x (organoid ij x) i b)
      as (i' & b' & -> & Hi' & Hb'); [done..|].
    simpl. apply IH; [by rewrite length_insert|done..].
Qed.

Lemma measure_channels_spec (ij : imagej) (channels : list (string * nat)) :
  Forall (fun c => c.2 < 5) channels ->
  exists im i b,
    measure_channels ij channels = Ok (im, i, b)
    /\ length i = 5 /\ length b = 5.
Proof. intros Hch. by apply measure_channels_from. Qed.

Lemma measure_blobs_from (ij : imagej) (chans : list (string * nat))
    (blobsarea blobsnuclei : list pyval) :
  Forall (fun c => c.2 < 5) chans ->
  length blobsarea = 5 -> length blobsnuclei = 5 ->
  exists a n,
    for_each (fun '(v, x) '(blobsarea, blobsnuclei) =>
        blobsarea ← list_set blobsarea x (py_sum (blobs ij x));
        blobsnuclei ←
          list_set blobsnuclei x (PyInt (Z.of_nat (length (blobs ij x))));
        Ok (blobsarea, blobsnuclei))
      chans (blobsarea, blobsnuclei) = Ok (a, n)
    /\ length a = 5 /\ length n = 5.
Proof.
  intros Hch. revert blobsarea blobsnuclei.
  induction Hch as [|[v x] chans Hx Hch IH]; intros a n Ha Hn.
  - by exists a, n.
  - simpl in Hx. cbn [for_each]. rewrite list_set_Ok by lia. simpl.
    rewrite list_set_Ok by lia. simpl.
    apply IH; by rewrite length_insert.
Qed.

Lemma measure_blobs_spec (ij : imagej) (channels : list (string * nat)) :
  Forall (fun c => c.2 < 5) channels ->
  exists a n,
    measure_blobs ij channels = Ok (a, n) /\ length a = 5 /\ length n = 5.
Proof. intros Hch. by apply measure_blobs_from. Qed.

(** ** The keys of the summary *)

Ltac solve_key_neq :=
  unfold too_big_key, too_small_key, pair_key, triple_key;
  first [ done | key_neq_front | key_neq ].

Lemma not_value_key_positive (w : string) : ¬ value_key (w +:+ "-positive").
Proof.
  intros [H|[H|[H|[v [H|[H|H]]]]]]; revert H; solve_key_neq.
Qed.

Lemma not_value_key_base (cfg : config) (k : string) :
  k ∈ base_counters cfg -> ¬ value_key k.
Proof.
  unfold base_counters. intros Hk.
  repeat (apply elem_of_cons in Hk as [->|Hk]);
    [..|by apply elem_of_nil in Hk];
    intros [H|[H|[H|[v [H|[H|H]]]]]]; revert H; solve_key_neq.
Qed.

Lemma not_value_key_Name : ¬ value_key "Name".
Proof.
  intros [H|[H|[H|[v [H|[H|H]]]]]]; revert H; solve_key_neq.
Qed.

Lemma positive_key_not_base (cfg : config) (w : string) :
  w +:+ "-positive" ∉ base_counters cfg.
Proof.
  unfold base_counters. intros Hk.
  repeat (apply elem_of_cons in Hk as [Hk|Hk]);
    [..|by apply elem_of_nil in Hk]; revert Hk; solve_key_neq.
Qed.

Lemma positive_keys_form (channels : list (string * nat)) (k : string) :
  k ∈ positive_keys channels -> exists w, k = w +:+ "-positive".
Proof.
  unfold positive_keys. intros [Hk|Hk]%elem_of_app.
  - apply list_elem_of_fmap in Hk as (c & -> & _). by eexists.
  - unfold colocalization_columns in Hk.
    destruct channels as [|c0 [|[c1 x1] [|[c2 x2] [|[c3 x3] rest]]]];
      try (by apply elem_of_nil in Hk);
      repeat (apply elem_of_cons in Hk as [->|Hk]);
      try (by apply elem_of_nil in Hk);
      unfold pair_key, triple_key; by eexists.
Qed.

Lemma Name_not_counter (cfg : config) (channels : list (string * nat)) :
  "Name" ∉ base_counters cfg ++ positive_keys channels.
Proof.
  intros [Hk|Hk]%elem_of_app.
  - unfold base_counters in Hk.
    repeat (apply elem_of_cons in Hk as [Hk|Hk]);
      [..|by apply elem_of_nil in Hk]; revert Hk; solve_key_neq.
  - apply positive_keys_form in Hk as [w Hw]. revert Hw. solve_key_neq.
Qed.

(** ** The initial summary and the field names *)

Lemma base_summary_lookup (cfg : config) (subFolder filename k : string) :
  ¬ value_key k ->
  base_summary cfg subFolder filename !! k
  = if decide (k ∈ base_counters cfg) then Some (PyInt 0) else None.
Proof.
  intros Hk. unfold base_summary.
  assert (k ≠ "Image") by (intros ->; apply Hk; by left).
  assert (k ≠ "Directory") by (intros ->; apply Hk; right; by left).
  destruct (decide (k ∈ base_counters cfg)) as [Hin|Hnin].
  - unfold base_counters in Hin.
    repeat (apply elem_of_cons in Hin as [->|Hin]);
      [..|by apply elem_of_nil in Hin];
      repeat first [ rewrite lookup_insert_eq; reflexivity
                   | rewrite lookup_insert_ne by solve_key_neq ].
  - unfold base_counters in Hnin.
    rewrite !lookup_insert_ne by set_solver. done.
Qed.

Lemma add_marker_columns_spec (intensities blobsarea blobsnuclei : list pyval)
    (chans : list (string * nat)) (s s' : gmap string pyval)
    (f f' : list string) :
  for_each (add_marker_columns intensities blobsarea blobsnuclei) chans (s, f)
  = Ok (s', f') ->
  f' = f ++ flat_map marker_columns chans
  /\ forall k, ¬ value_key k ->
       s' !! k = if decide (k ∈ (fun c => c.1 +:+ "-positive") <$> chans)
                 then Some (PyInt 0) else s !! k.
Proof.
  revert s f. induction chans as [|[v x] chans IH]; intros s f H.
  - injection H as <- <-. split; [by rewrite app_nil_r|].
    intros k _. rewrite decide_False; [done|]. apply not_elem_of_nil.
  - cbn [for_each] in H. apply bind_Ok in H as ([s1 f1] & Hb & Hrest).
    unfold add_marker_columns in Hb.
    destruct (list_get intensities x) as [i|]; [|done].
    destruct (list_get blobsarea x) as [a|]; [|done].
    destruct (list_get blobsnuclei x) as [n|]; [|done].
    simpl in Hb. injection Hb as <- <-.
    apply IH in Hrest as [-> Hlook]. split.
    + simpl. by rewrite <- !app_assoc.
    + intros k Hk. rewrite (Hlook k Hk), fmap_cons.
      assert (k ≠ v +:+ "-intensity")
        by (intros ->; apply Hk; do 3 right; exists v; by left).
      assert (k ≠ v +:+ "-blobsarea")
        by (intros ->; apply Hk; do 3 right; exists v; right; by left).
      assert (k ≠ v +:+ "-blobsnuclei")
        by (intros ->; apply Hk; do 3 right; exists v; right; by right).
      rewrite !lookup_insert_ne by done. rewrite lookup_insert. simpl.
      destruct (decide (k ∈ (fun c => c.1 +:+ "-positive") <$> chans))
        as [Hin|Hnin].
      * rewrite decide_True; [done|]. by right.
      * destruct (decide (v +:+ "-positive" = k)) as [Heq|Hne].
        -- rewrite decide_True; [done|]. rewrite <- Heq. by left.
        -- rewrite decide_False; [done|].
           intros [?|?]%elem_of_cons; [by apply Hne|done].
Qed.

Lemma add_marker_columns_Ok (intensities blobsarea blobsnuclei : list pyval)
    (chans : list (string * nat)) :
  length intensities = 5 -> length blobsarea = 5 -> length blobsnuclei = 5 ->
  Forall (fun c => c.2 < 5) chans ->
  forall st, exists st',
    for_each (add_marker_columns intensities blobsarea blobsnuclei) chans st
    = Ok st'.
Proof.
  intros Hi Ha Hn Hch.
  induction Hch as [|[v x] chans Hx Hch IH]; intros [s f].
  - by eexists.
  - simpl in Hx. cbn [for_each].
    assert (exists st1, add_marker_columns intensities blobsarea blobsnuclei
                          (v, x) (s, f) = Ok st1) as [st1 ->].
    { unfold add_marker_columns.
      destruct (list_get_Ok intensities x) as [i ->]; [lia|].
      destruct (list_get_Ok blobsarea x) as [a ->]; [lia|].
      destruct (list_get_Ok blobsnuclei x) as [n ->]; [lia|].
      by eexists. }
    simpl. apply IH.
Qed.

Lemma lookup_insert_zeros (keys : list string) (s : gmap string pyval)
    (k : string) :
  foldl (fun s k' => <[k' := PyInt 0]> s) s keys !! k
  = if decide (k ∈ keys) then Some (PyInt 0) else s !! k.
Proof.
  revert s. induction keys as [|k' keys IH]; intros s; cbn [foldl].
  - rewrite decide_False; [done|]. apply not_elem_of_nil.
  - rewrite IH. destruct (decide (k ∈ keys)) as [Hin|Hnin].
    + rewrite decide_True; [done|]. by right.
    + rewrite lookup_insert. destruct (decide (k' = k)) as [Heq|Hne].
      * rewrite decide_True; [done|]. rewrite <- Heq. by left.
      * rewrite decide_False; [done|].
        intros [?|?]%elem_of_cons; [by apply Hne|done].
Qed.

Lemma add_colocalization_columns_eq (channels : list (string * nat))
    (s : gmap string pyval) (f : list string) :
  add_colocalization_columns channels (s, f)
  = (foldl (fun s k' => <[k' := PyInt 0]> s) s (colocalization_columns channels),
     f ++ colocalization_columns channels).
Proof.
  unfold add_colocalization_columns, colocalization_columns.
  destruct channels as [|c0 [|[c1 x1] [|[c2 x2] [|[c3 x3] rest]]]]; simpl;
    rewrite ?app_nil_r, <- ?app_assoc; done.
Qed.

Lemma init_summary_spec (cfg : config) (channels : list (string * nat))
    (subFolder filename : string)
    (intensities bigAreas blobsarea blobsnuclei : list pyval)
    (s0 : gmap string pyval) (fieldnames : list string) :
  init_summary cfg channels subFolder filename
    intensities bigAreas blobsarea blobsnuclei = Ok (s0, fieldnames) ->
  fieldnames
  = (base_fieldnames cfg ++ ["organoid-area"])
    ++ flat_map marker_columns channels ++ colocalization_columns channels
  /\ forall k, ¬ value_key k ->
       s0 !! k = if decide (k ∈ base_counters cfg ++ positive_keys channels)
                 then Some (PyInt 0) else None.
Proof.
  unfold init_summary. intros H.
  apply bind_Ok in H as (x & _ & H).
  apply bind_Ok in H as (area & _ & H).
  apply bind_Ok in H as ([s1 f1] & Hloop & H).
  rewrite add_colocalization_columns_eq in H. injection H as <- <-.
  apply add_marker_columns_spec in Hloop as [-> Hlook]. split.
  - by rewrite <- !app_assoc.
  - intros k Hk. rewrite lookup_insert_zeros, (Hlook k Hk).
    assert (k ≠ "organoid-area") by (intros ->; apply Hk; do 2 right; by left).
    rewrite lookup_insert_ne by done.
    rewrite (base_summary_lookup cfg subFolder filename k Hk).
    unfold positive_keys.
    repeat case_decide; try done; exfalso;
      repeat match goal with
             | H : _ ∈ _ ++ _ |- _ => apply elem_of_app in H as [H|H]
             | H : ¬ (_ ∈ _ ++ _) |- _ =>
                 apply not_elem_of_app in H as [? ?]
             end; done.
Qed.

Lemma init_summary_Ok (cfg : config) (channels : list (string * nat))
    (subFolder filename : string)
    (intensities bigAreas blobsarea blobsnuclei : list pyval) :
  channels_ok channels ->
  length intensities = 5 -> length bigAreas = 5 ->
  length blobsarea = 5 -> length blobsnuclei = 5 ->
  exists st,
    init_summary cfg channels subFolder filename
      intensities bigAreas blobsarea blobsnuclei = Ok st.
Proof.
  intros (Hne & Hlt & _) Hi Hb Ha Hn. unfold init_summary.
  destruct (last channels) as [[v x]|] eqn:Hlast;
    [|by apply last_None in Hlast].
  assert (x < 5) as Hx.
  { apply last_Some in Hlast as [l' Hl'].
    assert ((v, x) ∈ channels) as Hin
      by (rewrite Hl'; apply elem_of_app; right; by left).
    by apply (proj1 (Forall_forall _ _) Hlt) in Hin. }
  rewrite bind_Ok_l.
  destruct (list_get_Ok bigAreas x) as [area ->]; [lia|]. rewrite bind_Ok_l.
  destruct (add_marker_columns_Ok intensities blobsarea blobsnuclei channels
              Hi Ha Hn Hlt
              (<["organoid-area" := area]> (base_summary cfg subFolder filename),
               base_fieldnames cfg ++ ["organoid-area"])) as [st' ->].
  rewrite bind_Ok_l. by eexists.
Qed.

(** ** One particle: the keys it increments *)

Section Candidate.
Variable cfg : config.
Variable ij : imagej.
Variable channels : list (string * nat).
Variable A : list (option (list float)).
Hypothesis HA : forall x, x ∈ channels.*2 -> measured ij A x.
Hypothesis Hthr : length (areaFractionThreshold cfg) = 5.
Hypothesis Hch : channels_ok channels.

Lemma exceeds_positive (x z i : nat) :
  x ∈ channels.*2 -> z < length (areas ij) -> i < 5 ->
  exceeds cfg A x z i = Ok (positive cfg ij i x z).
Proof using HA Hthr.
  intros Hx Hz Hi. unfold exceeds, list_get. rewrite (HA x Hx).
  rewrite bind_Ok_l, list_lookup_fmap, lookup_seq_lt by done.
  simpl. unfold positive, threshold.
  destruct (lookup_lt_is_Some_2 (areaFractionThreshold cfg) i) as [t ->];
    [lia|done].
Qed.

Lemma ready_bump_all (ks : list string) (s : gmap string pyval) :
  ready cfg channels s -> ready cfg channels (bump_all ks s).
Proof using. intros Hs k Hk. apply bump_all_is_int. by apply Hs. Qed.

Lemma ready_marker (s : gmap string pyval) (c : string * nat) :
  ready cfg channels s -> c ∈ channels -> is_int s (c.1 +:+ "-positive").
Proof using.
  intros Hs Hc. apply Hs. apply elem_of_app. right.
  unfold positive_keys. apply elem_of_app. left.
  apply list_elem_of_fmap. by exists c.
Qed.

Lemma ready_colocalization (s : gmap string pyval) (k : string) :
  ready cfg channels s -> k ∈ colocalization_columns channels -> is_int s k.
Proof using.
  intros Hs Hk. apply Hs. apply elem_of_app. right.
  unfold positive_keys. apply elem_of_app. by right.
Qed.

Lemma ready_base (s : gmap string pyval) (k : string) :
  ready cfg channels s -> k ∈ base_counters cfg -> is_int s k.
Proof using. intros Hs Hk. apply Hs. apply elem_of_app. by left. Qed.

Lemma marker_hits_cons (z : nat) (c : string * nat)
    (chans : list (string * nat)) :
  marker_hits cfg ij z (c :: chans)
  = marker_hits cfg ij z [c] ++ marker_hits cfg ij z chans.
Proof using. unfold marker_hits. cbn [flat_map]. by rewrite app_nil_r. Qed.

Lemma count_marker_hits (z : nat) (v : string) (x : nat)
    (s : gmap string pyval) (t : Z) :
  z < length (areas ij) -> x ∈ channels.*2 ->
  is_int s (v +:+ "-positive") ->
  count_marker cfg A z (v, x) (s, t)
  = Ok (bump_all (marker_hits cfg ij z [(v, x)]) s,
        (t + temp_of cfg ij z [(v, x)])%Z).
Proof using HA Hthr.
  intros Hz Hx Hv. unfold count_marker.
  rewrite (exceeds_positive x z 0 Hx Hz) by lia. rewrite bind_Ok_l.
  cbn [marker_hits flat_map temp_of snd fst].
  destruct (positive cfg ij 0 x z).
  - rewrite (incr_bump _ _ Hv), !bind_Ok_l. do 2 f_equal.
    destruct (decide (x ≠ 0)) as [Hx0|Hx0].
    + apply Nat.eqb_neq in Hx0. rewrite Hx0. simpl. lia.
    + assert (x = 0) as -> by lia. simpl. lia.
  - do 2 f_equal. simpl. lia.
Qed.

Lemma count_markers_hits (z : nat) (chans : list (string * nat))
    (s : gmap string pyval) (t : Z) :
  z < length (areas ij) ->
  (forall c, c ∈ chans ->
     c.2 ∈ channels.*2 /\ is_int s (c.1 +:+ "-positive")) ->
  for_each (count_marker cfg A z) chans (s, t)
  = Ok (bump_all (marker_hits cfg ij z chans) s,
        (t + temp_of cfg ij z chans)%Z).
Proof using HA Hthr.
  intros Hz. revert s t.
  induction chans as [|[v x] chans IH]; intros s t Hc.
  - simpl. by rewrite Z.add_0_r.
  - destruct (Hc (v, x)) as [Hx Hv]; [by left|]. simpl in Hx, Hv.
    cbn [for_each].
    rewrite (count_marker_hits z v x s t Hz Hx Hv), bind_Ok_l, IH.
    + rewrite (marker_hits_cons z (v, x) chans), bump_all_app.
      do 2 f_equal.
      cbn [temp_of]. lia.
    + intros c Hin. destruct (Hc c) as [? ?]; [by right|].
      split; [done|]. by apply bump_all_is_int.
Qed.

Lemma count_pair_hits (z : nat) (s : gmap string pyval) :
  z < length (areas ij) -> ready cfg channels s ->
  count_pair cfg channels A z s = Ok (bump_all (pair_hits cfg ij channels z) s).
Proof using HA Hthr Hch.
  intros Hz Hs. unfold count_pair, pair_hits.
  pose proof Hch as (_ & _ & H12 & _).
  pose proof (fun k => ready_colocalization s k Hs) as Hcol.
  pose proof (fun H => exceeds_positive 1 z 1 H Hz ltac:(lia)) as E1.
  pose proof (fun H => exceeds_positive 2 z 2 H Hz ltac:(lia)) as E2.
  unfold colocalization_columns in Hcol. clear HA Hch Hs.
  destruct channels as [|c0 [|[c1 x1] [|[c2 x2] rest]]]; try done.
  destruct H12 as [H1 H2]; [simpl; lia|].
  rewrite (E1 H1), bind_Ok_l.
  destruct (positive cfg ij 1 1 z); [|done].
  rewrite (E2 H2), bind_Ok_l.
  destruct (positive cfg ij 2 2 z); [|done]. simpl.
  apply incr_bump, Hcol. by left.
Qed.

Lemma count_extended_hits (z : nat) (s : gmap string pyval) :
  z < length (areas ij) -> ready cfg channels s ->
  count_extended cfg channels A z s
  = Ok (bump_all (extended_hits cfg ij channels z) s).
Proof using HA Hthr Hch.
  intros Hz Hs. unfold count_extended, extended_hits.
  pose proof Hch as (_ & _ & H12 & H3).
  pose proof (fun ks k => ready_colocalization (bump_all ks s) k
                            (ready_bump_all ks s Hs)) as Hcol.
  pose proof (fun H => exceeds_positive 1 z 1 H Hz ltac:(lia)) as E1.
  pose proof (fun H => exceeds_positive 2 z 2 H Hz ltac:(lia)) as E2.
  pose proof (fun H => exceeds_positive 3 z 3 H Hz ltac:(lia)) as E3.
  unfold colocalization_columns in Hcol. clear HA Hch Hs.
  destruct channels as [|c0 [|[c1 x1] [|[c2 x2] [|[c3 x3] rest]]]]; try done.
  destruct H12 as [H1 H2]; [simpl; lia|].
  specialize (H3 ltac:(simpl; lia)).
  rewrite !(E1 H1), !(E2 H2), !(E3 H3), !bind_Ok_l.
  destruct (positive cfg ij 1 1 z), (positive cfg ij 3 3 z),
    (positive cfg ij 2 2 z); cbn [andb app mbind result_bind]; try done.
  - rewrite (incr_bump (pair_key c1 c3) s)
      by (apply (Hcol []); right; by left).
    cbn [mbind result_bind].
    rewrite (incr_bump (pair_key c2 c3))
      by (apply (Hcol [_]); do 2 right; by left).
    cbn [mbind result_bind].
    rewrite (incr_bump (triple_key c1 c2 c3))
      by (apply (Hcol [_; _]); do 3 right; by left).
    done.
  - rewrite (incr_bump (pair_key c1 c3) s)
      by (apply (Hcol []); right; by left).
    done.
  - rewrite (incr_bump (pair_key c2 c3) s)
      by (apply (Hcol []); do 2 right; by left).
    done.
Qed.

Lemma candidate_hits (z : nat) (area : float) (s : gmap string pyval)
    (areaCounter : float) :
  z < length (areas ij) -> ready cfg channels s ->
  candidate cfg channels A z area (s, areaCounter)
  = Ok (bump_all (hits cfg ij channels z area) s,
        areaCounter_after cfg areaCounter area).
Proof using HA Hthr Hch.
  intros Hz Hs. unfold candidate, hits, areaCounter_after, classify.
  destruct (float_of_Z (tooBigThreshold cfg) <? area)%float.
  { rewrite incr_bump; [done|]. apply (ready_base s); [done|].
    unfold base_counters. do 3 right. by left. }
  destruct (area <? float_of_Z (tooSmallThreshold cfg))%float.
  { rewrite incr_bump; [done|]. apply (ready_base s); [done|].
    unfold base_counters. do 4 right. by left. }
  rewrite incr_bump, bind_Ok_l
    by (apply (ready_base s); [done|]; unfold base_counters; right; by left).
  unfold count_markers. rewrite count_markers_hits; [|done|].
  2:{ intros c Hc. split.
      - apply list_elem_of_fmap. by exists c.
      - apply bump_is_int. by apply ready_marker. }
  rewrite bind_Ok_l, Z.add_0_l.
  set (s1 := bump_all (marker_hits cfg ij z channels) (bump "#nuclei" s)).
  assert (ready cfg channels s1) as Hs1.
  { apply ready_bump_all. by apply (ready_bump_all ["#nuclei"]). }
  set (neg := if (temp_of cfg ij z channels =? 0)%Z
              then ["all-negative"] else []).
  assert ((if (temp_of cfg ij z channels =? 0)%Z
           then incr "all-negative" s1 else Ok s1)
          = Ok (bump_all neg s1)) as ->.
  { subst neg. destruct (temp_of cfg ij z channels =? 0)%Z; [|done].
    apply incr_bump. apply (ready_base s1); [done|].
    unfold base_counters. do 2 right. by left. }
  assert (ready cfg channels (bump_all neg s1)) as Hs2
    by (by apply ready_bump_all).
  rewrite bind_Ok_l, count_pair_hits, bind_Ok_l, count_extended_hits,
    bind_Ok_l; [|done|by apply ready_bump_all|done..].
  f_equal. f_equal.
  change ("#nuclei" :: ?l) with (["#nuclei"] ++ l).
  by rewrite !bump_all_app.
Qed.

Lemma loop_hits (l : list float) (z : nat) (s : gmap string pyval)
    (areaCounter : float) :
  z + length l <= length (areas ij) -> ready cfg channels s ->
  for_enumerate (candidate cfg channels A) z l (s, areaCounter)
  = Ok (bump_all (hits_from cfg ij channels z l) s,
        foldl (areaCounter_after cfg) areaCounter l).
Proof using HA Hthr Hch.
  revert z s areaCounter.
  induction l as [|a l IH]; intros z s ac Hz Hs; [done|].
  simpl in Hz. cbn [for_enumerate hits_from foldl].
  rewrite candidate_hits, bind_Ok_l, IH, bump_all_app;
    [done|lia|by apply ready_bump_all|lia|done].
Qed.
End Candidate.

(** ** Which keys a particle increments *)

Section HitsFacts.
Variable cfg : config.
Variable ij : imagej.
Variable channels : list (string * nat).

Lemma marker_hits_subset (z : nat) (chans : list (string * nat)) (k : string) :
  k ∈ marker_hits cfg ij z chans ->
  k ∈ (fun c => c.1 +:+ "-positive") <$> chans.
Proof.
  induction chans as [|c chans IH]; [done|].
  rewrite marker_hits_cons, fmap_cons. intros [Hk|Hk]%elem_of_app.
  - unfold marker_hits in Hk. cbn [flat_map] in Hk.
    destruct (positive cfg ij 0 c.2 z); rewrite app_nil_r in Hk.
    + apply list_elem_of_singleton in Hk as ->. by left.
    + by apply elem_of_nil in Hk.
  - right. by apply IH.
Qed.

Lemma pair_hits_subset (z : nat) (k : string) :
  k ∈ pair_hits cfg ij channels z -> k ∈ colocalization_columns channels.
Proof.
  unfold pair_hits, colocalization_columns.
  destruct channels as [|c0 [|[c1 x1] [|[c2 x2] rest]]];
    try (by intros ?%elem_of_nil).
  destruct (_ && _); [|by intros ?%elem_of_nil].
  intros ->%list_elem_of_singleton. by left.
Qed.

Lemma extended_hits_subset (z : nat) (k : string) :
  k ∈ extended_hits cfg ij channels z -> k ∈ colocalization_columns channels.
Proof.
  unfold extended_hits, colocalization_columns.
  destruct channels as [|c0 [|[c1 x1] [|[c2 x2] [|[c3 x3] rest]]]];
    try (by intros ?%elem_of_nil).
  intros Hk. right.
  destruct (positive cfg ij 1 1 z), (positive cfg ij 3 3 z),
    (positive cfg ij 2 2 z); cbn [andb app] in Hk;
    repeat (apply elem_of_cons in Hk as [->|Hk]);
    try (by apply elem_of_nil in Hk);
    repeat first [ by left | right ].
Qed.

(** The keys the marker loop and the colocalization tests increment all
    end in [-positive]. *)
Lemma positive_part_form (z : nat) (k : string) :
  k ∈ marker_hits cfg ij z channels ++ pair_hits cfg ij channels z
      ++ extended_hits cfg ij channels z ->
  k ∈ positive_keys channels.
Proof.
  unfold positive_keys. rewrite !elem_of_app.
  intros [Hk|[Hk|Hk]].
  - left. by apply marker_hits_subset in Hk.
  - right. by apply pair_hits_subset in Hk.
  - right. by apply extended_hits_subset in Hk.
Qed.

Lemma occurrences_positive_part (z : nat) (k : string) :
  k ∈ base_counters cfg ->
  occurrences k (marker_hits cfg ij z channels) = 0
  /\ occurrences k (pair_hits cfg ij channels z) = 0
  /\ occurrences k (extended_hits cfg ij channels z) = 0.
Proof.
  intros Hk.
  assert (k ∉ positive_keys channels) as Hnot.
  { intros (w & ->)%positive_keys_form. by apply positive_key_not_base in Hk. }
  split_and!; apply occurrences_not_in; intros Hin; apply Hnot,
    (positive_part_form z); rewrite !elem_of_app; auto.
Qed.

Lemma occurrences_hits_from (k : string) (P : nat -> float -> bool) :
  (forall z a, occurrences k (hits cfg ij channels z a)
               = if P z a then 1 else 0) ->
  forall z l, occurrences k (hits_from cfg ij channels z l) = count_from P z l.
Proof.
  intros Hone z l. revert z.
  induction l as [|a l IH]; intros z; [done|].
  cbn [hits_from count_from]. by rewrite occurrences_app, Hone, IH.
Qed.

Lemma occurrences_single (k k' : string) :
  occurrences k [k'] = if decide (k' = k) then 1 else 0.
Proof. rewrite occurrences_cons, occurrences_nil. by case_decide. Qed.

(** [summary['#nuclei']] counts the valid particles. *)
Lemma occurrences_nuclei (z : nat) (a : float) :
  occurrences "#nuclei" (hits cfg ij channels z a)
  = if is_valid cfg a then 1 else 0.
Proof.
  unfold hits, is_valid. destruct (classify cfg a) eqn:Hc.
  - rewrite bool_decide_true by done.
    rewrite occurrences_cons, !occurrences_app, decide_True by done.
    destruct (occurrences_positive_part z "#nuclei") as (-> & -> & ->).
    { unfold base_counters. right. by left. }
    destruct (temp_of cfg ij z channels =? 0)%Z;
      rewrite ?occurrences_single, ?occurrences_nil; done.
  - rewrite bool_decide_false by done. rewrite occurrences_single.
    rewrite decide_False; [done|]. solve_key_neq.
  - rewrite bool_decide_false by done. rewrite occurrences_single.
    rewrite decide_False; [done|]. solve_key_neq.
Qed.

Lemma occurrences_too_big (z : nat) (a : float) :
  occurrences (too_big_key cfg) (hits cfg ij channels z a)
  = if bool_decide (classify cfg a = TooBig) then 1 else 0.
Proof.
  unfold hits. destruct (classify cfg a) eqn:Hc.
  - rewrite bool_decide_false by done.
    rewrite occurrences_cons, !occurrences_app.
    rewrite decide_False by solve_key_neq.
    destruct (occurrences_positive_part z (too_big_key cfg)) as (-> & -> & ->).
    { unfold base_counters. do 3 right. by left. }
    destruct (temp_of cfg ij z channels =? 0)%Z;
      rewrite ?occurrences_single, ?occurrences_nil; [|done].
    rewrite decide_False; [done|]. solve_key_neq.
  - rewrite bool_decide_false by done. rewrite occurrences_single.
    rewrite decide_False; [done|]. solve_key_neq.
  - rewrite bool_decide_true by done. rewrite occurrences_single.
    by rewrite decide_True.
Qed.

Lemma occurrences_too_small (z : nat) (a : float) :
  occurrences (too_small_key cfg) (hits cfg ij channels z a)
  = if bool_decide (classify cfg a = TooSmall) then 1 else 0.
Proof.
  unfold hits. destruct (classify cfg a) eqn:Hc.
  - rewrite bool_decide_false by done.
    rewrite occurrences_cons, !occurrences_app.
    rewrite decide_False by solve_key_neq.
    destruct (occurrences_positive_part z (too_small_key cfg))
      as (-> & -> & ->).
    { unfold base_counters. do 4 right. by left. }
    destruct (temp_of cfg ij z channels =? 0)%Z;
      rewrite ?occurrences_single, ?occurrences_nil; [|done].
    rewrite decide_False; [done|]. solve_key_neq.
  - rewrite bool_decide_true by done. rewrite occurrences_single.
    by rewrite decide_True.
  - rewrite bool_decide_false by done. rewrite occurrences_single.
    rewrite decide_False; [done|]. solve_key_neq.
Qed.

Lemma occurrences_size_average (z : nat) (l : list float) :
  occurrences "size-average" (hits_from cfg ij channels z l) = 0.
Proof.
  rewrite (occurrences_hits_from _ (fun _ _ => false)).
  - revert z. induction l as [|a l IH]; intros z; [done|]. apply IH.
  - clear z l. intros z a. unfold hits. destruct (classify cfg a).
    + rewrite occurrences_cons, !occurrences_app.
      rewrite decide_False by solve_key_neq.
      destruct (occurrences_positive_part z "size-average")
        as (-> & -> & ->).
      { unfold base_counters. by left. }
      destruct (temp_of cfg ij z channels =? 0)%Z;
        rewrite ?occurrences_single, ?occurrences_nil; [|done].
      rewrite decide_False; [done|]. solve_key_neq.
    + rewrite occurrences_single.
      rewrite decide_False; [done|]. solve_key_neq.
    + rewrite occurrences_single.
      rewrite decide_False; [done|]. solve_key_neq.
Qed.
End HitsFacts.

(** ** The whole image *)

Lemma foldl_areaCounter_after (cfg : config) (l : list float) (ac : float) :
  foldl (areaCounter_after cfg) ac l
  = foldl PrimFloat.add ac (filter (fun a => classify cfg a = Valid) l).
Proof.
  revert ac. induction l as [|a l IH]; intros ac; [done|].
  cbn [foldl]. rewrite IH, filter_cons. unfold areaCounter_after.
  destruct (classify cfg a) eqn:Hc.
  - by rewrite decide_True.
  - by rewrite decide_False.
  - by rewrite decide_False.
Qed.

Lemma count_from_class (cfg : config) (c : size_class) (z : nat)
    (l : list float) :
  count_from (fun _ a => bool_decide (classify cfg a = c)) z l
  = length (filter (fun a => classify cfg a = c) l).
Proof.
  revert z. induction l as [|a l IH]; intros z; [done|].
  cbn [count_from]. rewrite IH, filter_cons.
  destruct (decide (classify cfg a = c)).
  - by rewrite bool_decide_true.
  - by rewrite bool_decide_false.
Qed.

Lemma init_summary_ready (cfg : config) (channels : list (string * nat))
    (s0 : gmap string pyval) :
  (forall k, ¬ value_key k ->
     s0 !! k = if decide (k ∈ base_counters cfg ++ positive_keys channels)
               then Some (PyInt 0) else None) ->
  forall k, k ∈ base_counters cfg ++ positive_keys channels ->
            s0 !! k = Some (PyInt 0).
Proof.
  intros Hlook k Hk. rewrite Hlook, decide_True; [done..|].
  apply elem_of_app in Hk as [Hk|Hk].
  - by apply (not_value_key_base cfg).
  - apply positive_keys_form in Hk as [w ->]. apply not_value_key_positive.
Qed.

Section Summarise.
Variable py_round : float -> Z -> float.
Variable cfg : config.
Variable ij : imagej.
Variable channels : list (string * nat).
Variables subFolder filename : string.
Hypothesis Hch : channels_ok channels.
Hypothesis Hthr : length (areaFractionThreshold cfg) = 5.

(** On a channel list whose subscripts are in range, and with the five
    thresholds of the source, the summary is built: no subscript or key
    fails. *)
Lemma summarise_Ok :
  exists r, summarise py_round cfg ij channels subFolder filename = Ok r.
Proof using Hch Hthr.
  pose proof Hch as (_ & Hlt & _).
  destruct (measure_channels_spec ij channels Hlt)
    as (im & i & b & Hmc & Hi & Hb).
  destruct (measure_areaFractions_spec ij channels Hlt) as (A & HA & Hgood).
  destruct (measure_blobs_spec ij channels Hlt) as (ba & bn & Hmb & Hba & Hbn).
  destruct (init_summary_Ok cfg channels subFolder filename i b ba bn
              Hch Hi Hb Hba Hbn) as ([s0 f] & Hinit).
  destruct (init_summary_spec _ _ _ _ _ _ _ _ _ _ Hinit) as [_ Hlook].
  pose proof (init_summary_ready cfg channels s0 Hlook) as Hzero.
  assert (ready cfg channels s0) as Hready.
  { intros k Hk. exists 0%Z. by apply Hzero. }
  unfold summarise. rewrite Hmc, bind_Ok_l, HA, bind_Ok_l, Hmb, bind_Ok_l.
  rewrite Hinit, bind_Ok_l.
  rewrite (loop_hits cfg ij channels A Hgood Hthr Hch (areas ij) 0 s0)
    by (simpl; done).
  rewrite bind_Ok_l. unfold size_average, dict_get.
  destruct (ready_bump_all cfg channels
              (hits_from cfg ij channels 0 (areas ij)) s0 Hready "#nuclei")
    as [n ->].
  { apply elem_of_app. left. unfold base_counters. right. by left. }
  rewrite bind_Ok_l. destruct (0 <? n)%Z; by eexists.
Qed.
End Summarise.

(** ** Every run that returns: what the summary holds *)

Lemma measure_areaFractions_faithful (ij : imagej)
    (channels : list (string * nat)) (A : list (option (list float))) :
  measure_areaFractions ij channels = Ok A -> faithful ij A.
Proof.
  unfold measure_areaFractions.
  apply (for_each_inv (faithful ij)).
  - intros [v x] A0 A1 _ HA0 Hset. unfold list_set in Hset.
    case_decide; [|done]. injection Hset as <-.
    intros y col Hy. destruct (decide (x = y)) as [->|Hne].
    + rewrite list_lookup_insert_eq in Hy by done. by simplify_eq.
    + rewrite list_lookup_insert_ne in Hy by done. by apply (HA0 y).
  - intros y col Hy. apply lookup_replicate in Hy as [? _]. done.
Qed.

Section Sound.
Variable cfg : config.
Variable ij : imagej.
Variable A : list (option (list float)).
Hypothesis HA : faithful ij A.

Lemma exceeds_sound (x z i : nat) (b : bool) :
  exceeds cfg A x z i = Ok b -> b = positive cfg ij i x z.
Proof using HA.
  unfold exceeds, list_get.
  destruct (A !! x) as [[col|]|] eqn:Hx; try done.
  rewrite bind_Ok_l, (HA x col Hx), list_lookup_fmap.
  destruct (seq 0 (length (areas ij)) !! z) as [z'|] eqn:Hz; [|done].
  apply lookup_seq in Hz as [-> _]. simpl.
  unfold positive, threshold.
  destruct (areaFractionThreshold cfg !! i) as [t|]; [|done].
  simpl. by intros [= <-].
Qed.

Lemma count_marker_sound (z : nat) (c : string * nat)
    (s s' : gmap string pyval) (t t' : Z) :
  count_marker cfg A z c (s, t) = Ok (s', t') ->
  s' = bump_all (marker_hits cfg ij z [c]) s
  /\ t' = (t + temp_of cfg ij z [c])%Z.
Proof using HA.
  destruct c as [v x]. unfold count_marker.
  intros (b & Hb & H)%bind_Ok. apply exceeds_sound in Hb as ->.
  cbn [marker_hits flat_map temp_of snd fst].
  destruct (positive cfg ij 0 x z).
  - apply bind_Ok in H as (s1 & ->%incr_Ok_bump & [= <- <-]).
    split; [done|].
    destruct (decide (x ≠ 0)) as [Hx0|Hx0].
    + apply Nat.eqb_neq in Hx0. rewrite Hx0. simpl. lia.
    + assert (x = 0) as -> by lia. simpl. lia.
  - injection H as <- <-. split; [done|]. simpl. lia.
Qed.

Lemma count_markers_sound (z : nat) (chans : list (string * nat))
    (s s' : gmap string pyval) (t t' : Z) :
  for_each (count_marker cfg A z) chans (s, t) = Ok (s', t') ->
  s' = bump_all (marker_hits cfg ij z chans) s
  /\ t' = (t + temp_of cfg ij z chans)%Z.
Proof using HA.
  revert s t. induction chans as [|c chans IH]; intros s t H.
  - injection H as <- <-. split; [done|]. simpl. lia.
  - cbn [for_each] in H. apply bind_Ok in H as ([s1 t1] & H1 & H).
    apply count_marker_sound in H1 as [-> ->].
    apply IH in H as [-> ->].
    rewrite (marker_hits_cons cfg ij z c chans), bump_all_app.
    split; [done|]. cbn [temp_of]. lia.
Qed.

Lemma count_pair_sound (channels : list (string * nat)) (z : nat)
    (s s' : gmap string pyval) :
  count_pair cfg channels A z s = Ok s' ->
  s' = bump_all (pair_hits cfg ij channels z) s.
Proof using HA.
  unfold count_pair, pair_hits.
  destruct channels as [|c0 [|[c1 x1] [|[c2 x2] rest]]];
    try (by intros [= <-]).
  intros (b1 & ->%exceeds_sound & H)%bind_Ok.
  destruct (positive cfg ij 1 1 z); [|by injection H as <-].
  apply bind_Ok in H as (b2 & ->%exceeds_sound & H).
  destruct (positive cfg ij 2 2 z); [|by injection H as <-].
  by apply incr_Ok_bump in H.
Qed.

Lemma count_extended_sound (channels : list (string * nat)) (z : nat)
    (s s' : gmap string pyval) :
  count_extended cfg channels A z s = Ok s' ->
  s' = bump_all (extended_hits cfg ij channels z) s.
Proof using HA.
  unfold count_extended, extended_hits.
  destruct channels as [|c0 [|[c1 x1] [|[c2 x2] [|[c3 x3] rest]]]];
    try (by intros [= <-]).
  intros (s1 & H13 & H)%bind_Ok.
  assert (s1 = bump_all (if positive cfg ij 1 1 z && positive cfg ij 3 3 z
                         then [pair_key c1 c3] else []) s) as ->.
  { apply bind_Ok in H13 as (b1 & ->%exceeds_sound & H13).
    destruct (positive cfg ij 1 1 z); [|by injection H13 as <-].
    apply bind_Ok in H13 as (b3 & ->%exceeds_sound & H13).
    destruct (positive cfg ij 3 3 z); [|by injection H13 as <-].
    by apply incr_Ok_bump in H13. }
  rewrite bump_all_app.
  apply bind_Ok in H as (b2 & ->%exceeds_sound & H).
  destruct (positive cfg ij 2 2 z); [|by injection H as <-].
  apply bind_Ok in H as (b3 & ->%exceeds_sound & H).
  destruct (positive cfg ij 3 3 z);
    [|injection H as <-; by rewrite ?andb_false_r].
  cbn [andb].
  apply bind_Ok in H as (s2 & ->%incr_Ok_bump & H).
  apply bind_Ok in H as (b1 & ->%exceeds_sound & H).
  destruct (positive cfg ij 1 1 z); [|by injection H as <-].
  by apply incr_Ok_bump in H as ->.
Qed.

Lemma candidate_sound (channels : list (string * nat)) (z : nat)
    (area : float) (s s' : gmap string pyval) (ac ac' : float) :
  candidate cfg channels A z area (s, ac) = Ok (s', ac') ->
  s' = bump_all (hits cfg ij channels z area) s
  /\ ac' = areaCounter_after cfg ac area.
Proof using HA.
  unfold candidate, hits, areaCounter_after, classify.
  destruct (float_of_Z (tooBigThreshold cfg) <? area)%float.
  { by intros (s1 & ->%incr_Ok_bump & [= <- <-])%bind_Ok. }
  destruct (area <? float_of_Z (tooSmallThreshold cfg))%float.
  { by intros (s1 & ->%incr_Ok_bump & [= <- <-])%bind_Ok. }
  intros (s1 & ->%incr_Ok_bump & H)%bind_Ok.
  apply bind_Ok in H as ([s2 temp] & Hm & H).
  apply count_markers_sound in Hm as [-> ->]. rewrite Z.add_0_l in H.
  apply bind_Ok in H as (s3 & Hneg & H).
  apply bind_Ok in H as (s4 & ->%count_pair_sound & H).
  apply bind_Ok in H as (s5 & ->%count_extended_sound & [= <- <-]).
  split; [|done].
  change ("#nuclei" :: ?l) with (["#nuclei"] ++ l).
  rewrite !bump_all_app. do 2 f_equal.
  destruct (temp_of cfg ij z channels =? 0)%Z.
  - by apply incr_Ok_bump in Hneg.
  - by injection Hneg as <-.
Qed.

Lemma loop_sound (channels : list (string * nat)) (l : list float) (z : nat)
    (s s' : gmap string pyval) (ac ac' : float) :
  for_enumerate (candidate cfg channels A) z l (s, ac) = Ok (s', ac') ->
  s' = bump_all (hits_from cfg ij channels z l) s
  /\ ac' = foldl (areaCounter_after cfg) ac l.
Proof using HA.
  revert z s ac. induction l as [|a l IH]; intros z s ac H.
  - by injection H as <- <-.
  - cbn [for_enumerate] in H. apply bind_Ok in H as ([s1 ac1] & H1 & H).
    apply candidate_sound in H1 as [-> ->]. apply IH in H as [-> ->].
    cbn [hits_from foldl]. by rewrite bump_all_app.
Qed.
End Sound.

Lemma summarise_sound (py_round : float -> Z -> float) (cfg : config)
    (ij : imagej) (channels : list (string * nat))
    (subFolder filename : string) (summary : gmap string pyval)
    (fieldnames : list string) :
  summarise py_round cfg ij channels subFolder filename
  = Ok (summary, fieldnames) ->
  fieldnames
  = (base_fieldnames cfg ++ ["organoid-area"])
    ++ flat_map marker_columns channels ++ colocalization_columns channels
  /\ (forall k,
        k ∈ ["#nuclei"; "all-negative"; too_big_key cfg; too_small_key cfg]
            ++ positive_keys channels ->
        summary !! k
        = Some (PyInt (Z.of_nat
            (occurrences k (hits_from cfg ij channels 0 (areas ij))))))
  /\ summary !! "size-average"
     = Some (let valid := valid_areas cfg ij in
             if (0 <? Z.of_nat (length valid))%Z
             then PyFloat (py_round
                    (foldl PrimFloat.add 0 valid
                     / float_of_Z (Z.of_nat (length valid)))%float 2%Z)
             else PyInt 0)
  /\ summary !! "Name" = None.
Proof.
  unfold summarise. intros H.
  apply bind_Ok in H as ([[im i] b] & _ & H).
  apply bind_Ok in H as (A & HA%measure_areaFractions_faithful & H).
  apply bind_Ok in H as ([ba bn] & _ & H).
  apply bind_Ok in H as ([s0 f] & Hinit & H).
  apply bind_Ok in H as ([s1 ac] & Hloop & H).
  apply bind_Ok in H as (final & Hfinal & [= <- <-]).
  apply init_summary_spec in Hinit as [Hf Hlook].
  pose proof (init_summary_ready cfg channels s0 Hlook) as Hzero.
  apply (loop_sound cfg ij A HA) in Hloop as [-> ->].
  set (all := hits_from cfg ij channels 0 (areas ij)) in *.
  assert (forall k, k ∈ base_counters cfg ++ positive_keys channels ->
            bump_all all s0 !! k = Some (PyInt (Z.of_nat (occurrences k all))))
    as Hs1.
  { intros k Hk. by rewrite (lookup_bump_all all k s0 0) by (by apply Hzero). }
  assert (occurrences "#nuclei" all = length (valid_areas cfg ij)) as Hn.
  { subst all.
    rewrite (occurrences_hits_from cfg ij channels "#nuclei"
               (fun _ a => is_valid cfg a) (occurrences_nuclei cfg ij channels)).
    apply count_from_class. }
  assert (bump_all all s0 !! "Name" = None) as HName.
  { apply lookup_bump_all_None. rewrite Hlook by apply not_value_key_Name.
    rewrite decide_False; [done|]. apply Name_not_counter. }
  unfold size_average, dict_get in Hfinal.
  rewrite (Hs1 "#nuclei"), bind_Ok_l, Hn, foldl_areaCounter_after in Hfinal
    by (apply elem_of_app; left; unfold base_counters; right; by left).
  fold (valid_areas cfg ij) in Hfinal. cbn zeta.
  split_and!; [done|..].
  - intros k Hk.
    assert (k ≠ "size-average") as Hne.
    { intros ->. apply elem_of_app in Hk as [Hk|Hk].
      - repeat (apply elem_of_cons in Hk as [Hk|Hk]);
          [..|by apply elem_of_nil in Hk]; revert Hk; solve_key_neq.
      - apply positive_keys_form in Hk as [w Hw]. revert Hw. solve_key_neq. }
    assert (bump_all all s0 !! k = Some (PyInt (Z.of_nat (occurrences k all))))
      as Hk1.
    { apply Hs1. apply elem_of_app in Hk as [Hk|Hk]; apply elem_of_app.
      - left. unfold base_counters. by right.
      - by right. }
    destruct (0 <? Z.of_nat (length (valid_areas cfg ij)))%Z;
      injection Hfinal as <-; [|done].
    by rewrite lookup_insert_ne.
  - destruct (0 <? Z.of_nat (length (valid_areas cfg ij)))%Z;
      injection Hfinal as <-.
    + by rewrite lookup_insert_eq.
    + rewrite (Hs1 "size-average").
      * subst all. by rewrite occurrences_size_average.
      * apply elem_of_app. left. unfold base_counters. by left.
  - destruct (0 <? Z.of_nat (length (valid_areas cfg ij)))%Z;
      injection Hfinal as <-; [|done].
    by rewrite lookup_insert_ne.
Qed.

(** * Main results *)

Lemma count_class_total (cfg : config) (l : list float) :
  length (filter (fun a => classify cfg a = Valid) l)
  + length (filter (fun a => classify cfg a = TooSmall) l)
  + length (filter (fun a => classify cfg a = TooBig) l)
  = length l.
Proof.
  induction l as [|a l IH]; [done|].
  rewrite !filter_cons. destruct (classify cfg a) eqn:Hc.
  - rewrite decide_True, !decide_False by done. simpl. lia.
  - rewrite decide_False, decide_True, decide_False by done. simpl. lia.
  - rewrite !decide_False, decide_True by done. simpl. lia.
Qed.

(** C5. Every particle falls in exactly one of the size classes valid,
    too-small and too-big ([classify] is a function into the three), and
    whenever the summary of an image is built its entries ['#nuclei'],
    ['too-small-(<..)'] and ['too-big-(>..)'] hold the number of particles
    of each class, so that the three sum to the number of particles. The
    summary is built for every channel list whose subscripts are in range. *)
Theorem size_classes_partition (py_round : float -> Z -> float) (cfg : config)
    (ij : imagej) (channels : list (string * nat))
    (subFolder filename : string) :
  (channels_ok channels -> length (areaFractionThreshold cfg) = 5 ->
   exists r, summarise py_round cfg ij channels subFolder filename = Ok r)
  /\ (forall summary fieldnames,
        summarise py_round cfg ij channels subFolder filename
        = Ok (summary, fieldnames) ->
        summary !! "#nuclei"
        = Some (PyInt (Z.of_nat (count_class cfg Valid ij)))
        /\ summary !! too_small_key cfg
           = Some (PyInt (Z.of_nat (count_class cfg TooSmall ij)))
        /\ summary !! too_big_key cfg
           = Some (PyInt (Z.of_nat (count_class cfg TooBig ij)))
        /\ count_class cfg Valid ij + count_class cfg TooSmall ij
           + count_class cfg TooBig ij = length (areas ij)).
Proof.
  split; [apply summarise_Ok|].
  intros summary fieldnames (_ & Hc & _ & _)%summarise_sound.
  unfold count_class. split_and!.
  - rewrite Hc by (apply elem_of_app; left; by left).
    rewrite (occurrences_hits_from cfg ij channels "#nuclei"
               (fun _ a => is_valid cfg a) (occurrences_nuclei cfg ij channels)).
    unfold is_valid. by rewrite count_from_class.
  - rewrite Hc by (apply elem_of_app; left; do 3 right; by left).
    rewrite (occurrences_hits_from cfg ij channels (too_small_key cfg) _
               (occurrences_too_small cfg ij channels)).
    by rewrite count_from_class.
  - rewrite Hc by (apply elem_of_app; left; do 2 right; by left).
    rewrite (occurrences_hits_from cfg ij channels (too_big_key cfg) _
               (occurrences_too_big cfg ij channels)).
    by rewrite count_from_class.
  - apply count_class_total.
Qed.

Lemma size_classes_partition_witness :
  exists summary fieldnames,
    summarise round_half_away default_config three_particles four_markers
      "plate1" "well_ch00.tif" = Ok (summary, fieldnames)
    /\ summary !! "#nuclei" = Some (PyInt 1)
    /\ summary !! "too-small-(<50)" = Some (PyInt 1)
    /\ summary !! "too-big-(>500)" = Some (PyInt 1).
Proof.
  destruct (size_classes_partition round_half_away default_config
              three_particles four_markers "plate1" "well_ch00.tif")
    as [Hok Hsound].
  destruct Hok as [[summary fieldnames] Hrun];
    [by apply (bool_decide_unpack _); vm_compute|reflexivity|].
  exists summary, fieldnames. split; [exact Hrun|].
  destruct (Hsound summary fieldnames Hrun) as (Hn & Hs & Hb & _).
  split_and!; [exact Hn|exact Hs|exact Hb].
Defined.


(** C6. Whenever the summary of an image is built, ['size-average'] is the
    float sum of the areas of the valid particles, in their order, divided
    by their number and passed to [round(., 2)]; it is the int [0] the
    summary starts with when no particle is valid. The summary is built
    for every channel list whose subscripts are in range. *)
Theorem size_average_of_valid (py_round : float -> Z -> float) (cfg : config)
    (ij : imagej) (channels : list (string * nat))
    (subFolder filename : string) :
  (channels_ok channels -> length (areaFractionThreshold cfg) = 5 ->
   exists r, summarise py_round cfg ij channels subFolder filename = Ok r)
  /\ (forall summary fieldnames,
        summarise py_round cfg ij channels subFolder filename
        = Ok (summary, fieldnames) ->
        summary !! "size-average"
        = Some (match valid_areas cfg ij with
                | [] => PyInt 0
                | valid =>
                    PyFloat (py_round
                      (foldl PrimFloat.add 0 valid
                       / float_of_Z (Z.of_nat (length valid)))%float 2%Z)
                end)).
Proof.
  split; [apply summarise_Ok|].
  intros summary fieldnames (_ & _ & -> & _)%summarise_sound. cbn zeta.
  destruct (valid_areas cfg ij) as [|a valid]; [done|].
  replace (0 <? Z.of_nat (length (a :: valid)))%Z with true; [done|].
  symmetry. apply Z.ltb_lt. simpl. lia.
Qed.

Lemma size_average_of_valid_witness :
  exists summary fieldnames,
    summarise round_half_away default_config three_particles four_markers
      "plate1" "well_ch00.tif" = Ok (summary, fieldnames)
    /\ summary !! "size-average" = Some (PyFloat 200).
Proof.
  destruct (size_average_of_valid round_half_away default_config
              three_particles four_markers "plate1" "well_ch00.tif")
    as [Hok Hsound].
  destruct Hok as [[summary fieldnames] Hrun];
    [by apply (bool_decide_unpack _); vm_compute|reflexivity|].
  exists summary, fieldnames. split; [exact Hrun|].
  exact (Hsound summary fieldnames Hrun).
Defined.


(** A float is not strictly below itself (also when it is a NaN). *)
Lemma float_ltb_irrefl (x : float) : (x <? x)%float = false.
Proof.
  rewrite ltb_spec. unfold SFltb, SFcompare.
  destruct (Prim2SF x) as [sg|sg| |sg m e]; try done.
  - by destruct sg.
  - rewrite Z.compare_refl.
    change (PosDef.Pos.compare_cont Eq m m) with (Pos.compare m m).
    rewrite Pos.compare_refl. by destruct sg.
Qed.

(** C9. A particle whose area equals the too-small threshold or the
    too-big threshold is valid, because both tests are strict: whenever the
    summary is built, the particle is among the valid ones, which
    ['#nuclei'] counts and ['size-average'] averages. The thresholds are
    taken not to cross (the too-big one is not below the too-small one), as
    with the values 50 and 500 of the source. *)
Theorem boundary_areas_are_valid (py_round : float -> Z -> float)
    (cfg : config) (ij : imagej) (channels : list (string * nat))
    (subFolder filename : string) :
  (float_of_Z (tooBigThreshold cfg) <? float_of_Z (tooSmallThreshold cfg))%float
  = false ->
  (channels_ok channels -> length (areaFractionThreshold cfg) = 5 ->
   exists r, summarise py_round cfg ij channels subFolder filename = Ok r)
  /\ (forall summary fieldnames,
        summarise py_round cfg ij channels subFolder filename
        = Ok (summary, fieldnames) ->
        forall area,
          area ∈ areas ij ->
          area = float_of_Z (tooSmallThreshold cfg)
          \/ area = float_of_Z (tooBigThreshold cfg) ->
          classify cfg area = Valid
          /\ area ∈ valid_areas cfg ij
          /\ summary !! "#nuclei"
             = Some (PyInt (Z.of_nat (length (valid_areas cfg ij))))
          /\ summary !! "size-average"
             = Some (PyFloat (py_round
                 (foldl PrimFloat.add 0 (valid_areas cfg ij)
                  / float_of_Z (Z.of_nat (length (valid_areas cfg ij))))%float
                 2%Z))).
Proof.
  intros Hcross. split; [apply summarise_Ok|].
  intros summary fieldnames Hrun area Hin Harea.
  assert (classify cfg area = Valid) as Hvalid.
  { unfold classify. destruct Harea as [-> | ->].
    - by rewrite Hcross, float_ltb_irrefl.
    - by rewrite float_ltb_irrefl, Hcross. }
  assert (area ∈ valid_areas cfg ij) as Hmem.
  { unfold valid_areas. by apply list_elem_of_filter. }
  apply summarise_sound in Hrun as (_ & Hc & Hsize & _).
  split_and!; [done..| |].
  - rewrite Hc by (apply elem_of_app; left; by left).
    rewrite (occurrences_hits_from cfg ij channels "#nuclei"
               (fun _ a => is_valid cfg a) (occurrences_nuclei cfg ij channels)).
    unfold is_valid, valid_areas. by rewrite count_from_class.
  - rewrite Hsize. cbn zeta.
    destruct (valid_areas cfg ij) as [|a valid];
      [by apply elem_of_nil in Hmem|].
    replace (0 <? Z.of_nat (length (a :: valid)))%Z with true; [done|].
    symmetry. apply Z.ltb_lt. simpl. lia.
Qed.

Lemma boundary_areas_are_valid_witness :
  exists summary fieldnames,
    summarise round_half_away default_config boundary_particles four_markers
      "plate1" "well_ch00.tif" = Ok (summary, fieldnames)
    /\ classify default_config 50 = Valid
    /\ classify default_config 500 = Valid
    /\ summary !! "#nuclei" = Some (PyInt 3)
    /\ summary !! "size-average" = Some (PyFloat 275.17).
Proof.
  destruct (boundary_areas_are_valid round_half_away default_config
              boundary_particles four_markers "plate1" "well_ch00.tif")
    as [Hok Hsound]; [reflexivity|].
  destruct Hok as [[summary fieldnames] Hrun];
    [by apply (bool_decide_unpack _); vm_compute|reflexivity|].
  exists summary, fieldnames. split; [exact Hrun|].
  destruct (Hsound summary fieldnames Hrun 50%float) as (H50 & _ & Hn & Hs);
    [apply list_elem_of_here|by left|].
  destruct (Hsound summary fieldnames Hrun 500%float) as (H500 & _);
    [apply list_elem_of_further, list_elem_of_here|by right|].
  split_and!; [exact H50|exact H500|exact Hn|exact Hs].
Defined.


(** ** The rows written to the batch file *)

Lemma process_inv (py_round : float -> Z -> float) (cfg : config)
    (ij : imagej) (channels : list (string * nat))
    (subFolder filename : string) (csvfile file' : list (list pyval)) :
  process py_round cfg ij channels subFolder filename csvfile = Ok file' ->
  exists summary fieldnames,
    summarise py_round cfg ij channels subFolder filename
    = Ok (summary, fieldnames)
    /\ file' = match csvfile with
               | [] => [PyStr <$> fieldnames]
               | _ => csvfile
               end ++ [writerow fieldnames summary].
Proof.
  unfold process. intros ([summary fieldnames] & Hrun & [= <-])%bind_Ok.
  by exists summary, fieldnames.
Qed.

Lemma process_Ok (py_round : float -> Z -> float) (cfg : config)
    (ij : imagej) (channels : list (string * nat))
    (subFolder filename : string) (csvfile : list (list pyval)) :
  channels_ok channels -> length (areaFractionThreshold cfg) = 5 ->
  exists file',
    process py_round cfg ij channels subFolder filename csvfile = Ok file'.
Proof.
  intros Hch Hthr. unfold process.
  destruct (summarise_Ok py_round cfg ij channels subFolder filename Hch Hthr)
    as [[summary fieldnames] ->].
  rewrite bind_Ok_l. by eexists.
Qed.

Lemma length_marker_columns (channels : list (string * nat)) :
  length (flat_map marker_columns channels) = 4 * length channels.
Proof. induction channels as [|c channels IH]; simpl; lia. Qed.

(** C10. Every row appended to the batch file has an empty ['Name'] cell:
    ['Name'] is the first field name, the summary never gets a ['Name']
    key, and [writerow] fills a field without a key with the empty
    string. A row is appended for every channel list whose subscripts are
    in range. *)
Theorem name_column_is_empty (py_round : float -> Z -> float) (cfg : config)
    (ij : imagej) (channels : list (string * nat))
    (subFolder filename : string) (csvfile : list (list pyval)) :
  (channels_ok channels -> length (areaFractionThreshold cfg) = 5 ->
   exists file',
     process py_round cfg ij channels subFolder filename csvfile = Ok file')
  /\ (forall file',
        process py_round cfg ij channels subFolder filename csvfile = Ok file' ->
        exists summary fieldnames row,
          summarise py_round cfg ij channels subFolder filename
          = Ok (summary, fieldnames)
          /\ row = writerow fieldnames summary
          /\ last file' = Some row
          /\ fieldnames !! 0 = Some "Name"
          /\ summary !! "Name" = None
          /\ (forall i, fieldnames !! i = Some "Name" ->
                        row !! i = Some (PyStr ""))).
Proof.
  split; [apply process_Ok|].
  intros file' (summary & fieldnames & Hrun & ->)%process_inv.
  exists summary, fieldnames, (writerow fieldnames summary).
  pose proof (summarise_sound _ _ _ _ _ _ _ _ Hrun) as (-> & _ & _ & HName).
  split_and!; [done..|by rewrite last_snoc|done|done|].
  intros i Hi. unfold writerow. rewrite list_lookup_fmap, Hi. simpl.
  by rewrite HName.
Qed.

Lemma name_column_is_empty_witness :
  exists file' row,
    process round_half_away default_config three_particles four_markers
      "plate1" "well_ch00.tif" [] = Ok file'
    /\ last file' = Some row
    /\ row !! 0 = Some (PyStr "").
Proof.
  destruct (name_column_is_empty round_half_away default_config
              three_particles four_markers "plate1" "well_ch00.tif" [])
    as [Hok Hsound].
  destruct Hok as [file' Hrun];
    [by apply (bool_decide_unpack _); vm_compute|reflexivity|].
  destruct (Hsound file' Hrun)
    as (summary & fieldnames & row & _ & _ & Hlast & H0 & _ & Hrow).
  exists file', row. split_and!; [exact Hrun|exact Hlast|exact (Hrow 0 H0)].
Defined.

(** C8. The header written to an empty batch file always starts with the
    nine base columns, goes on with four columns per configured channel,
    and ends with the colocalization columns: none with fewer than 3
    channels, the marker1-marker2 column alone with exactly 3, and the
    marker1-marker2, marker1-marker3, marker2-marker3 and triple columns with
    4. The header is written for every channel list whose subscripts are in
    range. *)
Theorem header_columns (py_round : float -> Z -> float) (cfg : config)
    (ij : imagej) (channels : list (string * nat))
    (subFolder filename : string) :
  (channels_ok channels -> length (areaFractionThreshold cfg) = 5 ->
   exists file',
     process py_round cfg ij channels subFolder filename [] = Ok file')
  /\ (forall file',
        process py_round cfg ij channels subFolder filename [] = Ok file' ->
        exists fieldnames row,
          file' = [PyStr <$> fieldnames; row]
          /\ take 9 fieldnames
             = ["Name"; "Directory"; "Image"; "size-average"; too_big_key cfg;
                too_small_key cfg; "#nuclei"; "all-negative"; "organoid-area"]
          /\ take (4 * length channels) (drop 9 fieldnames)
             = flat_map marker_columns channels
          /\ drop (9 + 4 * length channels) fieldnames
             = match channels with
               | _ :: (marker1, _) :: (marker2, _) :: rest =>
                   pair_key marker1 marker2 ::
                   match rest with
                   | (marker3, _) :: _ =>
                       [pair_key marker1 marker3; pair_key marker2 marker3;
                        triple_key marker1 marker2 marker3]
                   | [] => []
                   end
               | _ => []
               end).
Proof.
  split; [apply process_Ok|].
  intros file' (summary & fieldnames & Hrun & ->)%process_inv.
  exists fieldnames, (writerow fieldnames summary).
  pose proof (summarise_sound _ _ _ _ _ _ _ _ Hrun) as (-> & _).
  split_and!; [done..| |].
  - change (drop 9 ((base_fieldnames cfg ++ ["organoid-area"]) ++ ?l)) with l.
    rewrite <- length_marker_columns. by rewrite take_app_length.
  - rewrite <- (length_marker_columns channels).
    change (drop (9 + ?n) ((base_fieldnames cfg ++ ["organoid-area"]) ++ ?l))
      with (drop n l).
    by rewrite drop_app_length.
Qed.

Lemma header_columns_witness :
  exists file' fieldnames row,
    process round_half_away default_config three_particles four_markers
      "plate1" "well_ch00.tif" [] = Ok file'
    /\ file' = [PyStr <$> fieldnames; row]
    /\ drop 25 fieldnames
       = ["pSYN-MAP2-positive"; "pSYN-SYN-positive"; "MAP2-SYN-positive";
          "pSYN-MAP2-SYN-positive"].
Proof.
  destruct (header_columns round_half_away default_config
              three_particles four_markers "plate1" "well_ch00.tif")
    as [Hok Hsound].
  destruct Hok as [file' Hrun];
    [by apply (bool_decide_unpack _); vm_compute|reflexivity|].
  destruct (Hsound file' Hrun) as (fieldnames & row & Hfile & _ & _ & Hdrop).
  exists file', fieldnames, row.
  split_and!; [exact Hrun|exact Hfile|exact Hdrop].
Defined.


(** ** Lower-bound thresholds *)

Lemma py_int_raises (s : string) (e : exn) :
  py_int s = Raise e -> e = ValueError.
Proof.
  unfold py_int.
  destruct (match strip s with EmptyString => _ | String c r => _ end);
    [done|]. by intros [= <-].
Qed.

(** C7. When the threshold table holds, for the name of a configured
    channel, a value that [int()] does not read as an integer, resolving
    the lower bounds raises [ValueError]: no list of lower bounds is
    produced, with or without the default of that channel. *)
Theorem malformed_override_raises (thresholds : gmap string string)
    (channels : list (string * nat)) (v : string) (x : nat) (s : string) :
  Forall (fun c => c.2 < 5) channels ->
  (v, x) ∈ channels ->
  thresholds !! v = Some s ->
  py_int s = Raise ValueError ->
  resolve_lowerBounds thresholds channels = Raise ValueError.
Proof.
  intros Hlt Hin Hv Hs. unfold resolve_lowerBounds.
  assert (length [40; 20; 35; 50; 40]%Z = 5) as Hlen by done.
  revert Hlen. generalize [40; 20; 35; 50; 40]%Z as lowerBounds.
  induction Hlt as [|[v' x'] channels Hx' Hlt IH]; intros lowerBounds Hlen.
  - by apply elem_of_nil in Hin.
  - cbn [for_each]. simpl in Hx'.
    destruct (decide ((v', x') = (v, x))) as [[= -> ->]|Hne].
    + by rewrite Hv, Hs.
    + assert ((v, x) ∈ channels) as Hin'
        by (apply elem_of_cons in Hin as [?|?]; [by subst|done]).
      destruct (thresholds !! v') as [s'|]; [|by apply IH].
      destruct (py_int s') as [n|e] eqn:Hs'.
      * rewrite bind_Ok_l, list_set_Ok by lia. rewrite bind_Ok_l.
        apply IH; [done|]. by rewrite length_insert.
      * by apply py_int_raises in Hs' as ->.
Qed.

Lemma malformed_override_raises_witness :
  resolve_lowerBounds malformed_thresholds four_markers = Raise ValueError.
Proof.
  apply (malformed_override_raises malformed_thresholds four_markers
           "pSYN" 1 "high").
  - by apply (bool_decide_unpack _); vm_compute.
  - by apply (bool_decide_unpack _); vm_compute.
  - by vm_compute.
  - reflexivity.
Defined.

(** ** Calibration *)

Lemma read_dimensions_last (py_float : string -> result float)
    (dims : list (gmap string string)) (d : gmap string string)
    (b : Z * float) (bound : option (Z * float)) :
  (forall d', d' ∈ dims ->
     exists b', Calibration.read_dimension py_float d' = Ok b') ->
  Calibration.read_dimension py_float d = Ok b ->
  Calibration.read_dimensions py_float (dims ++ [d]) bound = Ok (Some b).
Proof.
  revert bound. induction dims as [|d0 dims IH]; intros bound Hall Hd.
  - simpl. by rewrite Hd.
  - cbn [app Calibration.read_dimensions].
    destruct (Hall d0) as [b0 ->]; [by left|]. rewrite bind_Ok_l.
    apply IH; [|done]. intros d' Hd'. apply Hall. by right.
Qed.

Lemma read_dimensions_Raise (py_float : string -> result float)
    (dims : list (gmap string string)) (bound : option (Z * float))
    (d : gmap string string) (e : exn) :
  d ∈ dims -> Calibration.read_dimension py_float d = Raise e ->
  exists e', Calibration.read_dimensions py_float dims bound = Raise e'.
Proof.
  revert bound. induction dims as [|d' dims IH]; intros bound Hin Hd.
  - by apply elem_of_nil in Hin.
  - cbn [Calibration.read_dimensions].
    destruct (Calibration.read_dimension py_float d') as [b|e'] eqn:Hd'.
    + rewrite bind_Ok_l. apply IH; [|done].
      apply elem_of_cons in Hin as [->|?]; [congruence|done].
    + by exists e'.
Qed.

Lemma read_dimensions_first_Raise (py_float : string -> result float)
    (dims after : list (gmap string string)) (d : gmap string string)
    (e : exn) (bound : option (Z * float)) :
  (forall d', d' ∈ dims ->
     exists b', Calibration.read_dimension py_float d' = Ok b') ->
  Calibration.read_dimension py_float d = Raise e ->
  Calibration.read_dimensions py_float (dims ++ d :: after) bound = Raise e.
Proof.
  revert bound. induction dims as [|d0 dims IH]; intros bound Hall Hd.
  - simpl. by rewrite Hd.
  - cbn [app Calibration.read_dimensions].
    destruct (Hall d0) as [b0 ->]; [by left|]. rewrite bind_Ok_l.
    apply IH; [|done]. intros d' Hd'. apply Hall. by right.
Qed.

Lemma read_dimension_Ok (py_float : string -> result float)
    (d : gmap string string) (n_s unit l_s : string) (n : Z) (len : float) :
  d !! "NumberOfElements" = Some n_s -> py_int n_s = Ok n ->
  d !! "Unit" = Some unit ->
  d !! "Length" = Some l_s -> py_float l_s = Ok len ->
  Calibration.read_dimension py_float d
  = Ok (n, if String.eqb unit "m" then (len * 1000000)%float else len).
Proof.
  intros Hn Hns Hunit Hl Hls. unfold Calibration.read_dimension, dict_get.
  rewrite Hn, bind_Ok_l, Hns, bind_Ok_l, Hunit, bind_Ok_l, Hl, bind_Ok_l,
    Hls, bind_Ok_l. by destruct (String.eqb unit "m").
Qed.

(** C4, as the code has it. Without a metadata file the pixel length is
    the default 0.877017. With one, the first file decides. When every
    [DimensionDescription] reads well, the result is the length of the
    last one, times 1000000 when its unit is ["m"], divided by its number
    of elements converted to the nearest float. Otherwise an exception is
    raised and the default is never used: [ParseError] for a file that does
    not parse, [NameError] for one without a [DimensionDescription], the
    exception of the first [DimensionDescription] that does not read
    ([KeyError] for a missing attribute, [ValueError] for a number of
    elements that is not an integer, what [float()] raises for a length
    that is not a number), [ZeroDivisionError] for zero elements and
    [OverflowError] for a number of elements beyond the floats. *)
Theorem calibration_cases (py_float : string -> result float) :
  Calibration.pixel_length py_float [] = Ok Calibration.default_pixel_length
  /\ (forall dims d rest n_s n unit l_s len divisor,
        (forall d', d' ∈ dims ->
           exists b, Calibration.read_dimension py_float d' = Ok b) ->
        d !! "NumberOfElements" = Some n_s -> py_int n_s = Ok n -> n ≠ 0%Z ->
        d !! "Unit" = Some unit ->
        d !! "Length" = Some l_s -> py_float l_s = Ok len ->
        float_of_int n = Ok divisor ->
        Calibration.pixel_length py_float (Calibration.Xml (dims ++ [d]) :: rest)
        = Ok ((if String.eqb unit "m" then len * 1000000 else len)
              / divisor)%float)
  /\ (forall rest,
        Calibration.pixel_length py_float (Calibration.NotXml :: rest)
        = Raise ParseError)
  /\ (forall rest,
        Calibration.pixel_length py_float (Calibration.Xml [] :: rest)
        = Raise NameError)
  /\ (forall dims rest d e,
        d ∈ dims -> Calibration.read_dimension py_float d = Raise e ->
        exists e',
          Calibration.pixel_length py_float (Calibration.Xml dims :: rest)
          = Raise e')
  /\ (forall dims d after rest e,
        (forall d', d' ∈ dims ->
           exists b, Calibration.read_dimension py_float d' = Ok b) ->
        Calibration.read_dimension py_float d = Raise e ->
        Calibration.pixel_length py_float
          (Calibration.Xml (dims ++ d :: after) :: rest)
        = Raise e)
  /\ (forall d,
        d !! "NumberOfElements" = None ->
        Calibration.read_dimension py_float d = Raise KeyError)
  /\ (forall d n_s,
        d !! "NumberOfElements" = Some n_s ->
        py_int n_s = Raise ValueError ->
        Calibration.read_dimension py_float d = Raise ValueError)
  /\ (forall d n_s n,
        d !! "NumberOfElements" = Some n_s -> py_int n_s = Ok n ->
        d !! "Unit" = None ->
        Calibration.read_dimension py_float d = Raise KeyError)
  /\ (forall d n_s n unit,
        d !! "NumberOfElements" = Some n_s -> py_int n_s = Ok n ->
        d !! "Unit" = Some unit ->
        d !! "Length" = None ->
        Calibration.read_dimension py_float d = Raise KeyError)
  /\ (forall d n_s n unit l_s e,
        d !! "NumberOfElements" = Some n_s -> py_int n_s = Ok n ->
        d !! "Unit" = Some unit ->
        d !! "Length" = Some l_s -> py_float l_s = Raise e ->
        Calibration.read_dimension py_float d = Raise e)
  /\ (forall d key,
        key ∈ ["NumberOfElements"; "Unit"; "Length"] -> d !! key = None ->
        exists e, Calibration.read_dimension py_float d = Raise e)
  /\ (forall dims d rest n_s unit l_s len,
        (forall d', d' ∈ dims ->
           exists b, Calibration.read_dimension py_float d' = Ok b) ->
        d !! "NumberOfElements" = Some n_s -> py_int n_s = Ok 0%Z ->
        d !! "Unit" = Some unit ->
        d !! "Length" = Some l_s -> py_float l_s = Ok len ->
        Calibration.pixel_length py_float (Calibration.Xml (dims ++ [d]) :: rest)
        = Raise ZeroDivisionError)
  /\ (forall dims d rest n_s n unit l_s len,
        (forall d', d' ∈ dims ->
           exists b, Calibration.read_dimension py_float d' = Ok b) ->
        d !! "NumberOfElements" = Some n_s -> py_int n_s = Ok n -> n ≠ 0%Z ->
        d !! "Unit" = Some unit ->
        d !! "Length" = Some l_s -> py_float l_s = Ok len ->
        float_of_int n = Raise OverflowError ->
        Calibration.pixel_length py_float (Calibration.Xml (dims ++ [d]) :: rest)
        = Raise OverflowError)
  /\ (forall n,
        float_of_int n = Raise OverflowError
        \/ exists divisor,
             float_of_int n = Ok divisor
             /\ PrimFloat.is_infinity divisor = false
             /\ divisor = SF2Prim (binary_normalize prec emax n 0 false)).
Proof.
  split_and!.
  - done.
  - intros dims d rest n_s n unit l_s len divisor Hall Hn Hns Hn0 Hunit Hl Hls
      Hdiv.
    pose proof (read_dimension_Ok py_float d n_s unit l_s n len
                  Hn Hns Hunit Hl Hls) as Hd.
    unfold Calibration.pixel_length.
    rewrite (read_dimensions_last py_float dims d _ None Hall Hd), bind_Ok_l.
    by rewrite (proj2 (Z.eqb_neq n 0) Hn0), Hdiv.
  - done.
  - done.
  - intros dims rest d e Hin Hd. unfold Calibration.pixel_length.
    destruct (read_dimensions_Raise py_float dims None d e Hin Hd) as [e' ->].
    by exists e'.
  - intros dims d after rest e Hall Hd. unfold Calibration.pixel_length.
    by rewrite (read_dimensions_first_Raise py_float dims after d e None
                  Hall Hd).
  - intros d Hn. unfold Calibration.read_dimension, dict_get. by rewrite Hn.
  - intros d n_s Hn Hns. unfold Calibration.read_dimension, dict_get.
    by rewrite Hn, bind_Ok_l, Hns.
  - intros d n_s n Hn Hns Hunit. unfold Calibration.read_dimension, dict_get.
    by rewrite Hn, bind_Ok_l, Hns, bind_Ok_l, Hunit.
  - intros d n_s n unit Hn Hns Hunit Hl.
    unfold Calibration.read_dimension, dict_get.
    by rewrite Hn, bind_Ok_l, Hns, bind_Ok_l, Hunit, bind_Ok_l, Hl.
  - intros d n_s n unit l_s e Hn Hns Hunit Hl Hls.
    unfold Calibration.read_dimension, dict_get.
    by rewrite Hn, bind_Ok_l, Hns, bind_Ok_l, Hunit, bind_Ok_l, Hl, bind_Ok_l,
      Hls.
  - intros d key Hkey Hnone. unfold Calibration.read_dimension, dict_get.
    repeat (apply elem_of_cons in Hkey as [->|Hkey]);
      [..|by apply elem_of_nil in Hkey].
    + rewrite Hnone. by eexists.
    + destruct (d !! "NumberOfElements") as [n_s|]; [|by eexists].
      rewrite bind_Ok_l. destruct (py_int n_s); [|by eexists].
      rewrite bind_Ok_l, Hnone. by eexists.
    + destruct (d !! "NumberOfElements") as [n_s|]; [|by eexists].
      rewrite bind_Ok_l. destruct (py_int n_s); [|by eexists].
      rewrite bind_Ok_l. destruct (d !! "Unit"); [|by eexists].
      rewrite bind_Ok_l, Hnone. by eexists.
  - intros dims d rest n_s unit l_s len Hall Hn Hns Hunit Hl Hls.
    pose proof (read_dimension_Ok py_float d n_s unit l_s 0%Z len
                  Hn Hns Hunit Hl Hls) as Hd.
    unfold Calibration.pixel_length.
    by rewrite (read_dimensions_last py_float dims d _ None Hall Hd), bind_Ok_l.
  - intros dims d rest n_s n unit l_s len Hall Hn Hns Hn0 Hunit Hl Hls Hdiv.
    pose proof (read_dimension_Ok py_float d n_s unit l_s n len
                  Hn Hns Hunit Hl Hls) as Hd.
    unfold Calibration.pixel_length.
    rewrite (read_dimensions_last py_float dims d _ None Hall Hd), bind_Ok_l.
    by rewrite (proj2 (Z.eqb_neq n 0) Hn0), Hdiv.
  - intros n. unfold float_of_int.
    destruct (PrimFloat.is_infinity
                (SF2Prim (binary_normalize prec emax n 0 false))) eqn:Hinf.
    + by left.
    + right. by eexists.
Qed.

Lemma calibration_cases_witness :
  Calibration.pixel_length py_float_sample good_metadata = Ok 0.876953125%float
  /\ Calibration.pixel_length py_float_sample huge_metadata
     = Ok (898 / 18446744073709551616)%float.
Proof.
  pose proof (calibration_cases py_float_sample) as (_ & Hgood & _).
  split.
  - apply (Hgood [] _ [] "1024" 1024%Z "um" "898" 898%float 1024%float).
    + intros d' Hd'. by apply elem_of_nil in Hd'.
    + by vm_compute.
    + reflexivity.
    + done.
    + by vm_compute.
    + by vm_compute.
    + reflexivity.
    + reflexivity.
  - apply (Hgood [] _ [] "18446744073709551616" 18446744073709551616%Z "um"
             "898" 898%float 18446744073709551616%float).
    + intros d' Hd'. by apply elem_of_nil in Hd'.
    + by vm_compute.
    + by vm_compute.
    + done.
    + by vm_compute.
    + by vm_compute.
    + reflexivity.
    + by vm_compute.
Defined.

(** C4 as the specification states it fails: metadata that is present but
    malformed (the number of elements is not a number) makes the resolver
    raise, it does not return the default. *)
Lemma calibration_counterexample :
  Calibration.pixel_length py_float_sample malformed_metadata
  = Raise ValueError
  /\ Calibration.pixel_length py_float_sample malformed_metadata
     ≠ Ok Calibration.default_pixel_length.
Proof. split; [by vm_compute|]. by vm_compute. Qed.


(** ** The counters that end in [-positive] *)

Lemma occurrences_marker_hits_other (cfg : config) (ij : imagej) (z : nat)
    (chans : list (string * nat)) (k : string) :
  k ∉ (fun c => c.1 +:+ "-positive") <$> chans ->
  occurrences k (marker_hits cfg ij z chans) = 0.
Proof.
  intros Hk. apply occurrences_not_in. intros Hin. apply Hk.
  by apply (marker_hits_subset cfg ij z).
Qed.

Lemma occurrences_marker_hits (cfg : config) (ij : imagej) (z : nat)
    (chans : list (string * nat)) (v : string) (x : nat) :
  NoDup ((fun c => c.1 +:+ "-positive") <$> chans) ->
  (v, x) ∈ chans ->
  occurrences (v +:+ "-positive") (marker_hits cfg ij z chans)
  = if positive cfg ij 0 x z then 1 else 0.
Proof.
  induction chans as [|c chans IH]; intros Hnd Hin.
  - by apply elem_of_nil in Hin.
  - rewrite fmap_cons in Hnd. apply NoDup_cons in Hnd as [Hc Hnd].
    rewrite marker_hits_cons, occurrences_app.
    apply elem_of_cons in Hin as [<-|Hin].
    + rewrite (occurrences_marker_hits_other cfg ij z chans) by done.
      unfold marker_hits. cbn [flat_map fst snd]. rewrite app_nil_r.
      destruct (positive cfg ij 0 x z); [|done].
      by rewrite occurrences_single, decide_True.
    + rewrite (IH Hnd Hin).
      assert (c.1 +:+ "-positive" ≠ v +:+ "-positive") as Hne.
      { intros Heq. apply Hc. rewrite Heq.
        apply list_elem_of_fmap. by exists (v, x). }
      unfold marker_hits. cbn [flat_map]. rewrite app_nil_r.
      destruct (positive cfg ij 0 c.2 z); [|done].
      by rewrite occurrences_single, decide_False.
Qed.

Lemma occurrences_marker (cfg : config) (ij : imagej)
    (channels : list (string * nat)) (v : string) (x z : nat) (a : float) :
  NoDup (positive_keys channels) ->
  (v, x) ∈ channels ->
  occurrences (v +:+ "-positive") (hits cfg ij channels z a)
  = if is_valid cfg a && positive cfg ij 0 x z then 1 else 0.
Proof.
  intros Hnd Hin. unfold positive_keys in Hnd.
  apply NoDup_app in Hnd as (Hmarkers & Hdisj & _).
  assert (v +:+ "-positive" ∉ colocalization_columns channels) as Hcol.
  { apply Hdisj. apply list_elem_of_fmap. by exists (v, x). }
  unfold hits, is_valid. destruct (classify cfg a) eqn:Hc.
  - rewrite bool_decide_true by done.
    rewrite occurrences_cons, !occurrences_app.
    rewrite decide_False by solve_key_neq.
    rewrite (occurrences_marker_hits cfg ij z channels v x Hmarkers Hin).
    rewrite (occurrences_not_in _ (pair_hits cfg ij channels z))
      by (intros ?%pair_hits_subset; done).
    rewrite (occurrences_not_in _ (extended_hits cfg ij channels z))
      by (intros ?%extended_hits_subset; done).
    destruct (temp_of cfg ij z channels =? 0)%Z;
      rewrite ?occurrences_single, ?occurrences_nil.
    + rewrite decide_False by solve_key_neq.
      cbn [andb]. by destruct (positive cfg ij 0 x z).
    + cbn [andb]. by destruct (positive cfg ij 0 x z).
  - rewrite bool_decide_false by done. rewrite occurrences_single.
    rewrite decide_False; [done|]. solve_key_neq.
  - rewrite bool_decide_false by done. rewrite occurrences_single.
    rewrite decide_False; [done|]. solve_key_neq.
Qed.

(** C1, as the code has it. For a configured marker whose threshold is
    the one the marker loop compares with, [areaFractionThreshold[0]] (all
    markers under the thresholds of the source), and column names that are
    pairwise distinct: whenever the summary is built, the positive counter
    of the marker is the number of valid particles whose area fraction for
    the marker is strictly above the threshold. Too-small and too-big
    particles are not counted. *)
Theorem positive_counter_counts_valid (py_round : float -> Z -> float)
    (cfg : config) (ij : imagej) (channels : list (string * nat))
    (subFolder filename : string) (v : string) (x : nat) :
  NoDup (positive_keys channels) ->
  (v, x) ∈ channels ->
  threshold cfg x = threshold cfg 0 ->
  (channels_ok channels -> length (areaFractionThreshold cfg) = 5 ->
   exists r, summarise py_round cfg ij channels subFolder filename = Ok r)
  /\ (forall summary fieldnames,
        summarise py_round cfg ij channels subFolder filename
        = Ok (summary, fieldnames) ->
        summary !! (v +:+ "-positive")
        = Some (PyInt (Z.of_nat
            (count_particles
               (fun z a =>
                  is_valid cfg a
                  && (threshold cfg x <? areaFraction ij x z)%float) ij)))).
Proof.
  intros Hnd Hin Hthr. split; [apply summarise_Ok|].
  intros summary fieldnames (_ & Hc & _ & _)%summarise_sound.
  rewrite Hc.
  - rewrite (occurrences_hits_from cfg ij channels (v +:+ "-positive")
               (fun z a => is_valid cfg a && positive cfg ij 0 x z)).
    + unfold count_particles, positive. by rewrite Hthr.
    + intros z a. by apply occurrences_marker.
  - apply elem_of_app. right. unfold positive_keys. apply elem_of_app. left.
    apply list_elem_of_fmap. by exists (v, x).
Qed.

Lemma positive_counter_counts_valid_witness :
  exists summary fieldnames,
    summarise round_half_away default_config three_particles four_markers
      "plate1" "well_ch00.tif" = Ok (summary, fieldnames)
    /\ summary !! "pSYN-positive" = Some (PyInt 1).
Proof.
  destruct (positive_counter_counts_valid round_half_away default_config
              three_particles four_markers "plate1" "well_ch00.tif" "pSYN" 1)
    as [Hok Hsound].
  - by apply (bool_decide_unpack _); vm_compute.
  - by apply (bool_decide_unpack _); vm_compute.
  - reflexivity.
  - destruct Hok as [[summary fieldnames] Hrun];
      [by apply (bool_decide_unpack _); vm_compute|reflexivity|].
    exists summary, fieldnames. split; [exact Hrun|].
    exact (Hsound summary fieldnames Hrun).
Defined.

(** C1 as the specification states it fails: of the two particles of
    [gated_particles], both have an area fraction for pSYN that meets the
    threshold 0.1, one is too big and the other meets the threshold
    exactly; the positive counter of pSYN stays 0. *)
Lemma positive_counter_counterexample :
  exists summary fieldnames,
    summarise round_half_away default_config gated_particles two_markers
      "plate1" "well_ch00.tif" = Ok (summary, fieldnames)
    /\ summary !! "pSYN-positive" = Some (PyInt 0)
    /\ count_particles
         (fun z _ =>
            (threshold default_config 1 <=? areaFraction gated_particles 1 z)%float)
         gated_particles = 2.
Proof.
  assert (match summarise round_half_away default_config gated_particles
                  two_markers "plate1" "well_ch00.tif" with
          | Ok (summary, _) => summary !! "pSYN-positive"
          | Raise _ => None
          end = Some (PyInt 0)) as Hrun by (vm_compute; reflexivity).
  destruct (summarise round_half_away default_config gated_particles
              two_markers "plate1" "well_ch00.tif")
    as [[summary fieldnames]|e]; [|discriminate Hrun].
  exists summary, fieldnames. split_and!; [reflexivity|exact Hrun|].
  vm_compute. reflexivity.
Qed.


Lemma getChannels_all (ch00 ch01 ch02 ch03 : string) :
  ch00 ≠ "" -> ch01 ≠ "" -> ch02 ≠ "" -> ch03 ≠ "" ->
  getChannels ch00 ch01 ch02 ch03
  = [(ch00, 0); (ch01, 1); (ch02, 2); (ch03, 3)].
Proof.
  intros H0 H1 H2 H3. unfold getChannels.
  rewrite !filter_cons, filter_nil. simpl.
  by rewrite !decide_True.
Qed.

Lemma four_channels_ok (m0 m1 m2 m3 : string) :
  channels_ok [(m0, 0); (m1, 1); (m2, 2); (m3, 3)].
Proof.
  split_and!.
  - done.
  - repeat constructor; simpl; lia.
  - intros _. split.
    + apply list_elem_of_further, list_elem_of_here.
    + do 2 apply list_elem_of_further. apply list_elem_of_here.
  - intros _. do 3 apply list_elem_of_further. apply list_elem_of_here.
Qed.

Lemma occurrences_triple (cfg : config) (ij : imagej) (m0 m1 m2 m3 : string)
    (z : nat) (a : float) :
  let channels := [(m0, 0); (m1, 1); (m2, 2); (m3, 3)] in
  NoDup (positive_keys channels) ->
  occurrences (triple_key m1 m2 m3) (hits cfg ij channels z a)
  = if is_valid cfg a
       && (positive cfg ij 2 2 z && positive cfg ij 3 3 z)
       && positive cfg ij 1 1 z
    then 1 else 0.
Proof.
  intros channels Hnd. unfold positive_keys in Hnd.
  apply NoDup_app in Hnd as (_ & Hdisj & Hcol).
  assert (triple_key m1 m2 m3
          ∉ (fun c : string * nat => c.1 +:+ "-positive") <$> channels) as Hm.
  { intros Hin. apply (Hdisj _ Hin). subst channels. simpl.
    do 3 apply list_elem_of_further. apply list_elem_of_here. }
  subst channels. simpl in Hcol.
  apply NoDup_cons in Hcol as [H12 Hcol].
  apply NoDup_cons in Hcol as [H13 Hcol].
  apply NoDup_cons in Hcol as [H23 _].
  assert (pair_key m1 m2 ≠ triple_key m1 m2 m3) as N12
    by (intros Heq; apply H12; rewrite Heq;
        do 2 apply list_elem_of_further; apply list_elem_of_here).
  assert (pair_key m1 m3 ≠ triple_key m1 m2 m3) as N13
    by (intros Heq; apply H13; rewrite Heq;
        apply list_elem_of_further, list_elem_of_here).
  assert (pair_key m2 m3 ≠ triple_key m1 m2 m3) as N23
    by (intros Heq; apply H23; rewrite Heq; apply list_elem_of_here).
  unfold hits, is_valid. destruct (classify cfg a) eqn:Hc.
  - rewrite bool_decide_true by done.
    rewrite occurrences_cons, !occurrences_app.
    rewrite decide_False by solve_key_neq.
    rewrite (occurrences_marker_hits_other cfg ij z _ _ Hm).
    assert (forall t : Z,
              occurrences (triple_key m1 m2 m3)
                (if (t =? 0)%Z then ["all-negative"] else []) = 0) as ->.
    { intros t. destruct (t =? 0)%Z; [|done].
      rewrite occurrences_single, decide_False; [done|]. solve_key_neq. }
    unfold pair_hits, extended_hits.
    destruct (positive cfg ij 1 1 z), (positive cfg ij 2 2 z),
      (positive cfg ij 3 3 z); cbn [andb app];
      rewrite ?occurrences_cons, ?occurrences_nil;
      repeat case_decide; first [ done | congruence ].
  - rewrite bool_decide_false by done. rewrite occurrences_single.
    rewrite decide_False; [done|]. solve_key_neq.
  - rewrite bool_decide_false by done. rewrite occurrences_single.
    rewrite decide_False; [done|]. solve_key_neq.
Qed.

(** C3, as the code has it. With the four channels configured and column
    names that are pairwise distinct: whenever the summary is built, the
    triple counter is the number of valid particles for which marker2 and
    marker3 are positive and then marker1 is positive too, a marker being
    positive when its area fraction is strictly above its own threshold. A
    valid particle with marker1 and marker3 positive and marker2 negative
    is not counted, one with the three positive is; a too-small or too-big
    particle is never counted. *)
Theorem triple_counter_counts_gated (py_round : float -> Z -> float)
    (cfg : config) (ij : imagej) (subFolder filename : string)
    (m0 m1 m2 m3 : string) :
  m0 ≠ "" -> m1 ≠ "" -> m2 ≠ "" -> m3 ≠ "" ->
  NoDup (positive_keys (getChannels m0 m1 m2 m3)) ->
  (length (areaFractionThreshold cfg) = 5 ->
   exists r,
     summarise py_round cfg ij (getChannels m0 m1 m2 m3) subFolder filename
     = Ok r)
  /\ (forall summary fieldnames,
        summarise py_round cfg ij (getChannels m0 m1 m2 m3) subFolder filename
        = Ok (summary, fieldnames) ->
        summary !! triple_key m1 m2 m3
        = Some (PyInt (Z.of_nat
            (count_particles
               (fun z a =>
                  is_valid cfg a
                  && ((threshold cfg 2 <? areaFraction ij 2 z)%float
                      && (threshold cfg 3 <? areaFraction ij 3 z)%float)
                  && (threshold cfg 1 <? areaFraction ij 1 z)%float) ij)))).
Proof.
  intros H0 H1 H2 H3. rewrite (getChannels_all m0 m1 m2 m3 H0 H1 H2 H3).
  intros Hnd. split.
  - apply summarise_Ok, four_channels_ok.
  - intros summary fieldnames (_ & Hc & _ & _)%summarise_sound.
    rewrite Hc.
    + rewrite (occurrences_hits_from cfg ij _ (triple_key m1 m2 m3) _
                 (fun z a => occurrences_triple cfg ij m0 m1 m2 m3 z a Hnd)).
      done.
    + apply elem_of_app. right. unfold positive_keys. apply elem_of_app.
      right. simpl. do 3 apply list_elem_of_further. apply list_elem_of_here.
Qed.

Lemma triple_counter_counts_gated_witness :
  exists summary fieldnames,
    summarise round_half_away default_config asymmetric_particles four_markers
      "plate1" "well_ch00.tif" = Ok (summary, fieldnames)
    /\ summary !! "pSYN-MAP2-SYN-positive" = Some (PyInt 1).
Proof.
  destruct (triple_counter_counts_gated round_half_away default_config
              asymmetric_particles "plate1" "well_ch00.tif"
              "Dapi" "pSYN" "MAP2" "SYN")
    as [Hok Hsound]; [done..| |].
  - by apply (bool_decide_unpack _); vm_compute.
  - destruct Hok as [[summary fieldnames] Hrun]; [reflexivity|].
    exists summary, fieldnames. split; [exact Hrun|].
    exact (Hsound summary fieldnames Hrun).
Defined.

(** C3 as the specification states it fails: the only particle of
    [too_big_particle] has marker1, marker2 and marker3 positive, and the
    triple counter stays 0, because the particle is too big. *)
Lemma triple_counter_counterexample :
  exists summary fieldnames,
    summarise round_half_away default_config too_big_particle four_markers
      "plate1" "well_ch00.tif" = Ok (summary, fieldnames)
    /\ summary !! "pSYN-MAP2-SYN-positive" = Some (PyInt 0)
    /\ positive default_config too_big_particle 1 1 0 = true
    /\ positive default_config too_big_particle 2 2 0 = true
    /\ positive default_config too_big_particle 3 3 0 = true.
Proof.
  assert (match summarise round_half_away default_config too_big_particle
                  four_markers "plate1" "well_ch00.tif" with
          | Ok (summary, _) => summary !! "pSYN-MAP2-SYN-positive"
          | Raise _ => None
          end = Some (PyInt 0)) as Hrun by (vm_compute; reflexivity).
  destruct (summarise round_half_away default_config too_big_particle
              four_markers "plate1" "well_ch00.tif")
    as [[summary fieldnames]|e]; [|discriminate Hrun].
  exists summary, fieldnames.
  split_and!; [reflexivity|exact Hrun|vm_compute; reflexivity..].
Qed.

(** ** One marker of one particle *)

(** C2, as the code has it. In the marker loop, for a particle [z] and a
    marker [(v, x)] whose threshold is the one the loop compares with,
    [areaFractionThreshold[0]] (all markers under the thresholds of the
    source), the marker is marked positive, its counter incremented,
    exactly when the area fraction of the particle for the marker is
    strictly above the threshold; an area fraction equal to the threshold
    is not positive. The step goes through whenever the area fractions of
    the channel were measured. *)
Theorem marker_positive_iff_above (cfg : config) (ij : imagej)
    (A : list (option (list float))) (z : nat) (v : string) (x : nat)
    (s : gmap string pyval) (t : Z) (n : Z) :
  threshold cfg x = threshold cfg 0 ->
  s !! (v +:+ "-positive") = Some (PyInt n) ->
  (measured ij A x -> z < length (areas ij) ->
   length (areaFractionThreshold cfg) = 5 ->
   exists r, count_marker cfg A z (v, x) (s, t) = Ok r)
  /\ (faithful ij A ->
      forall s' t',
        count_marker cfg A z (v, x) (s, t) = Ok (s', t') ->
        s' !! (v +:+ "-positive")
        = Some (PyInt (if (threshold cfg x <? areaFraction ij x z)%float
                       then n + 1 else n))).
Proof.
  intros Hthr Hs. split.
  - intros HA Hz Hlen. eexists.
    apply (count_marker_hits cfg ij [(v, x)] A); [|done..| |by exists n].
    + intros x' ->%list_elem_of_singleton. exact HA.
    + apply list_elem_of_here.
  - intros HA s' t' [-> _]%(count_marker_sound cfg ij A HA).
    rewrite (lookup_bump_all _ _ _ n Hs). do 2 f_equal.
    unfold marker_hits. cbn [flat_map fst snd]. rewrite app_nil_r.
    unfold positive. rewrite <- Hthr.
    destruct (threshold cfg x <? areaFraction ij x z)%float.
    + rewrite occurrences_single, decide_True by done. lia.
    + rewrite occurrences_nil. lia.
Qed.

Lemma marker_positive_iff_above_witness :
  exists A s' t',
    measure_areaFractions three_particles four_markers = Ok A
    /\ count_marker default_config A 1 ("pSYN", 1) (pSYN_counter, 0%Z)
       = Ok (s', t')
    /\ s' !! "pSYN-positive" = Some (PyInt 1).
Proof.
  destruct (measure_areaFractions_spec three_particles four_markers)
    as (A & HA & Hmeasured); [by apply (bool_decide_unpack _); vm_compute|].
  destruct (marker_positive_iff_above default_config three_particles A 1
              "pSYN" 1 pSYN_counter 0%Z 0%Z) as [Hok Hsound];
    [reflexivity|by vm_compute|].
  destruct Hok as [[s' t'] Hstep].
  - apply Hmeasured. by apply (bool_decide_unpack _); vm_compute.
  - simpl. lia.
  - reflexivity.
  - exists A, s', t'. split_and!; [exact HA|exact Hstep|].
    exact (Hsound (measure_areaFractions_faithful _ _ _ HA) s' t' Hstep).
Defined.

(** C2 as the specification states it fails: the second particle of
    [gated_particles] has an area fraction for pSYN equal to the threshold
    0.1 of pSYN, which meets the inclusive test, and the marker loop leaves
    the counter of pSYN as it is. *)
Lemma marker_positive_counterexample :
  exists A,
    measure_areaFractions gated_particles two_markers = Ok A
    /\ (threshold default_config 1 <=? areaFraction gated_particles 1 1)%float
       = true
    /\ count_marker default_config A 1 ("pSYN", 1) (pSYN_counter, 0%Z)
       = Ok (pSYN_counter, 0%Z).
Proof.
  exists [Some [50; 0.1]; Some [50; 0.1]; None; None; None]%float.
  split_and!; vm_compute; reflexivity.
Qed.


(** * Further properties *)

(** ** File names *)

Lemma string_app_nil_r (a : string) : a +:+ EmptyString = a.
Proof. induction a as [|x a IH]; [done|]. by rewrite string_app_cons, IH. Qed.

Lemma string_rev_involutive (s : string) : String.rev (String.rev s) = s.
Proof.
  induction s as [|x s IH]; [done|].
  change (String x s) with (String x EmptyString +:+ s).
  rewrite string_rev_app, string_rev_app. by rewrite IH.
Qed.

Lemma string_length_app (a b : string) :
  String.length (a +:+ b) = String.length a + String.length b.
Proof. induction a as [|x a IH]; [done|]. rewrite string_app_cons. simpl. by rewrite IH. Qed.

Lemma string_length_rev (s : string) :
  String.length (String.rev s) = String.length s.
Proof.
  induction s as [|x s IH]; [done|].
  change (String x s) with (String x EmptyString +:+ s).
  rewrite string_rev_app, !string_length_app, IH. simpl. lia.
Qed.

Lemma string_prefix_app (old b : string) : String.prefix old (old +:+ b) = true.
Proof.
  induction old as [|x old IH]; [by destruct b|].
  rewrite string_app_cons. simpl. by destruct (ascii_dec x x).
Qed.

Lemma string_prefix_true (old s : string) :
  String.prefix old s = true -> exists b, s = old +:+ b.
Proof.
  revert s. induction old as [|x old IH]; intros s H.
  - by exists s.
  - destruct s as [|y s]; [done|]. simpl in H.
    destruct (ascii_dec x y) as [->|]; [|done].
    destruct (IH s H) as [b ->]. by exists b.
Qed.

Lemma string_drop_app (old b : string) :
  string_drop (String.length old) (old +:+ b) = b.
Proof. induction old as [|x old IH]; [by destruct b|]. by rewrite string_app_cons. Qed.

Lemma replace_first_eq (old new s : string) :
  replace_first old new s
  = if String.prefix old s then new +:+ string_drop (String.length old) s
    else match s with
         | EmptyString => EmptyString
         | String c r => String c (replace_first old new r)
         end.
Proof. by destruct s. Qed.

Lemma replace_first_prefix (old new b : string) :
  replace_first old new (old +:+ b) = new +:+ b.
Proof. by rewrite replace_first_eq, string_prefix_app, string_drop_app. Qed.

Lemma replace_first_absent (old new s : string) :
  ¬ occurs old s -> replace_first old new s = s.
Proof.
  induction s as [|c s IH]; intros Hno; rewrite replace_first_eq.
  - destruct (String.prefix old EmptyString) eqn:Hp; [|done].
    apply string_prefix_true in Hp as [b Hb]. destruct Hno.
    by exists EmptyString, b.
  - destruct (String.prefix old (String c s)) eqn:Hp.
    + apply string_prefix_true in Hp as [b Hb]. destruct Hno.
      by exists EmptyString, b.
    + rewrite IH; [done|]. intros (a & b & ->). apply Hno.
      by exists (String c a), b.
Qed.

(** Up to the first occurrence of [old] nothing changes, and that
    occurrence is the one replaced. *)
Lemma replace_first_at (old new p q : string) :
  (forall p1 p2, p = p1 +:+ p2 -> p2 ≠ EmptyString ->
     String.prefix old (p2 +:+ (old +:+ q)) = false) ->
  replace_first old new (p +:+ (old +:+ q)) = p +:+ (new +:+ q).
Proof.
  induction p as [|c p IH]; intros Hfirst.
  - rewrite !string_app_nil. apply replace_first_prefix.
  - pose proof (Hfirst EmptyString (String c p) eq_refl) as Hp.
    rewrite !string_app_cons in *. rewrite replace_first_eq, Hp by done.
    f_equal. apply IH.
    intros p1 p2 -> Hp2. by apply (Hfirst (String c p1) p2).
Qed.

Lemma occurs_rev (old s : string) :
  occurs (String.rev old) (String.rev s) -> occurs old s.
Proof.
  intros (a & b & Hs). exists (String.rev b), (String.rev a).
  rewrite <- (string_rev_involutive s), Hs.
  by rewrite !string_rev_app, string_rev_involutive, string_app_assoc.
Qed.

(** Two ways to cut the same string: the longer first part extends the
    shorter one. *)
Lemma string_app_split (a x c y : string) :
  a +:+ x = c +:+ y -> String.length a <= String.length c ->
  exists a', c = a +:+ a' /\ x = a' +:+ y.
Proof.
  revert c. induction a as [|ch a IH]; intros c Heq Hlen.
  - by exists c.
  - destruct c as [|ch' c]; [simpl in Hlen; lia|].
    rewrite !string_app_cons in Heq. injection Heq as -> Heq.
    destruct (IH c Heq) as (a' & -> & ->); [simpl in Hlen; lia|].
    by exists a'.
Qed.

(** X1. [rreplace] replaces an occurrence of [old] at the end of the
    string: [rreplace(base + old, old, new)] is [base + new]. *)
Theorem rreplace_suffix (base old new : string) :
  rreplace (base +:+ old) old new = base +:+ new.
Proof.
  unfold rreplace.
  rewrite string_rev_app, replace_first_prefix, string_rev_app.
  by rewrite !string_rev_involutive.
Qed.

(** X2. [rreplace] leaves a string in which [old] does not occur as it
    is. *)
Theorem rreplace_absent (s old new : string) :
  ¬ occurs old s -> rreplace s old new = s.
Proof.
  intros Hno. unfold rreplace. rewrite replace_first_absent.
  - apply string_rev_involutive.
  - intros H. by apply Hno, occurs_rev.
Qed.

Lemma rreplace_absent_witness :
  rreplace "ch00.tif" "_ch00.tif" ".tif" = "ch00.tif".
Proof.
  apply rreplace_absent. intros (a & b & H).
  apply (f_equal String.length) in H.
  rewrite !string_length_app in H. simpl in H. lia.
Defined.

(** X3. [rreplace] replaces the last occurrence of [old] and only that
    one: when [old] does not occur again after the position of an
    occurrence, the string before that occurrence and the string after it
    are kept. *)
Theorem rreplace_last (a old b new : string) :
  (forall a' b', a' ≠ EmptyString -> old +:+ b ≠ a' +:+ (old +:+ b')) ->
  rreplace (a +:+ (old +:+ b)) old new = a +:+ (new +:+ b).
Proof.
  intros Hlast. unfold rreplace.
  rewrite !string_rev_app, string_app_assoc.
  rewrite replace_first_at.
  - rewrite !string_rev_app, !string_rev_involutive.
    by rewrite string_app_assoc.
  - intros p1 p2 Hp Hp2.
    destruct (String.prefix (String.rev old)
                (p2 +:+ (String.rev old +:+ String.rev a))) eqn:Hpre; [|done].
    exfalso. apply string_prefix_true in Hpre as [c Hc].
    assert (a +:+ (old +:+ b)
            = String.rev c +:+ (old +:+ String.rev p1)) as Hs.
    { assert (String.rev (a +:+ (old +:+ b))
              = p1 +:+ (String.rev old +:+ c)) as Hr.
      { rewrite !string_rev_app, Hp, !string_app_assoc. by rewrite Hc. }
      apply (f_equal String.rev) in Hr.
      rewrite string_rev_involutive in Hr. rewrite Hr.
      rewrite !string_rev_app, string_rev_involutive.
      by rewrite !string_app_assoc. }
    assert (String.length a < String.length (String.rev c)) as Hlen.
    { apply (f_equal String.length) in Hc.
      rewrite !string_length_app, !string_length_rev in Hc.
      rewrite string_length_rev.
      assert (0 < String.length p2) by (destruct p2; [done|simpl; lia]).
      lia. }
    destruct (string_app_split a (old +:+ b) (String.rev c)
                (old +:+ String.rev p1) Hs) as (a' & Ha' & Hb); [lia|].
    apply (Hlast a' (String.rev p1)); [|done].
    intros ->. rewrite Ha', string_app_nil_r in Hlen. lia.
Qed.

Lemma rreplace_last_witness :
  rreplace "a_ch00.tif_ch00.tif" "_ch00.tif" ".tif" = "a_ch00.tif.tif".
Proof.
  apply (rreplace_last "a_ch00.tif" "_ch00.tif" "" ".tif").
  intros a' b' Ha' H. apply (f_equal String.length) in H.
  rewrite !string_length_app in H. simpl in H.
  destruct a'; [done|simpl in H; lia].
Defined.

Lemma occursb_eq (old s : string) :
  occursb old s
  = String.prefix old s
    || match s with
       | EmptyString => false
       | String _ r => occursb old r
       end.
Proof. by destruct s. Qed.

Lemma occursb_complete (old s : string) : occurs old s -> occursb old s = true.
Proof.
  intros (a & b & ->). induction a as [|c a IH].
  - rewrite string_app_nil, occursb_eq, string_prefix_app. done.
  - rewrite string_app_cons, occursb_eq, IH. apply orb_true_r.
Qed.

(** X4. For an image file named [base + "_ch00.tif"], [process] opens the
    merged image [base + ".tif"] and, for channel [x], the image
    [base + "_ch0" + str(x) + ".tif"]: channel 0 is the file itself and
    two different channels never get the same file. *)
Theorem channel_names_of_split_file (base : string) (x y : nat) :
  merged_name (base +:+ "_ch00.tif") = base +:+ ".tif"
  /\ channel_name (base +:+ "_ch00.tif") x
     = base +:+ (("_ch0" +:+ pretty x) +:+ ".tif")
  /\ channel_name (base +:+ "_ch00.tif") 0 = base +:+ "_ch00.tif"
  /\ (channel_name (base +:+ "_ch00.tif") x
      = channel_name (base +:+ "_ch00.tif") y <-> x = y).
Proof.
  unfold merged_name, channel_name. rewrite !rreplace_suffix.
  split_and!; [done..|].
  split; [|by intros ->].
  intros H. apply String.app_inj in H.
  rewrite !string_app_assoc in H. apply String.app_inj in H.
  apply (f_equal String.rev) in H. rewrite !string_rev_app in H.
  apply String.app_inj in H.
  apply (f_equal String.rev) in H. rewrite !string_rev_involutive in H.
  by apply pretty_nat_inj in H.
Qed.

(** X5. The file names the main loop accepts end in ["ch00.tif"], without
    the underscore. For an accepted name in which ["_ch00.tif"] does not
    occur, [rreplace] changes nothing: the merged image and the image of
    every channel are the file itself. *)
Theorem channel_names_without_underscore (filename : string) (x : nat) :
  occursb "_ch00.tif" filename = false ->
  merged_name filename = filename /\ channel_name filename x = filename.
Proof.
  intros Hno.
  assert (¬ occurs "_ch00.tif" filename) as Hnot.
  { intros H%occursb_complete. congruence. }
  unfold merged_name, channel_name. by rewrite !rreplace_absent.
Qed.

Lemma channel_names_without_underscore_witness :
  endswith "wellch00.tif" "ch00.tif" = true
  /\ merged_name "wellch00.tif" = "wellch00.tif"
  /\ channel_name "wellch00.tif" 2 = "wellch00.tif".
Proof.
  split; [reflexivity|].
  apply (channel_names_without_underscore "wellch00.tif" 2). reflexivity.
Defined.

(** ** The channel list and the lower bounds *)

Lemma getChannels_sublist (ch00 ch01 ch02 ch03 : string) :
  getChannels ch00 ch01 ch02 ch03
  `sublist_of` [(ch00, 0); (ch01, 1); (ch02, 2); (ch03, 3)].
Proof. apply sublist_filter. Qed.

Lemma getChannels_sorted (ch00 ch01 ch02 ch03 : string) :
  StronglySorted lt (getChannels ch00 ch01 ch02 ch03).*2.
Proof.
  unfold getChannels. rewrite !filter_cons, filter_nil.
  repeat case_decide; cbn [fmap list_fmap snd];
    repeat first [ apply SSorted_nil | apply SSorted_cons
                 | apply Forall_nil_2 | apply Forall_cons_2; [lia|] ].
Qed.

Lemma getChannels_lt (ch00 ch01 ch02 ch03 : string) :
  Forall (fun c => c.2 < 4) (getChannels ch00 ch01 ch02 ch03).
Proof.
  apply Forall_forall. intros [v x] [_ Hin]%list_elem_of_filter.
  repeat (apply elem_of_cons in Hin as [[= -> ->]|Hin]; [simpl; lia|]).
  by apply elem_of_nil in Hin.
Qed.

Lemma getChannels_NoDup (ch00 ch01 ch02 ch03 : string) :
  NoDup (getChannels ch00 ch01 ch02 ch03).*2.
Proof.
  unfold getChannels. rewrite !filter_cons, filter_nil.
  repeat case_decide; cbn [fmap list_fmap snd];
    repeat (apply NoDup_cons; split;
      [rewrite ?elem_of_cons, elem_of_nil; lia|]);
    apply NoDup_nil_2.
Qed.

(** X6. The channel list [getChannels] builds from the four names of the
    dialog holds exactly the named channels, each with the index of its
    field: the indexes are strictly ascending (so none occurs twice) and
    below 4, no name is empty, and the list is empty exactly when the four
    names are. *)
Theorem getChannels_invariants (ch00 ch01 ch02 ch03 : string) :
  let channels := getChannels ch00 ch01 ch02 ch03 in
  (forall v x,
     (v, x) ∈ channels
     <-> v ≠ "" /\ (v, x) ∈ [(ch00, 0); (ch01, 1); (ch02, 2); (ch03, 3)])
  /\ StronglySorted lt channels.*2
  /\ Forall (fun c => c.1 ≠ "" /\ c.2 < 4) channels
  /\ length channels <= 4
  /\ (channels = [] <-> ch00 = "" /\ ch01 = "" /\ ch02 = "" /\ ch03 = "").
Proof.
  intros channels. split_and!.
  - intros v x. apply (list_elem_of_filter (fun v => v.1 ≠ "")).
  - apply getChannels_sorted.
  - apply Forall_forall. intros c Hc. split.
    + by apply list_elem_of_filter in Hc as [? _].
    + pose proof (getChannels_lt ch00 ch01 ch02 ch03) as H.
      rewrite Forall_forall in H. by apply H.
  - apply (sublist_length _ _ (getChannels_sublist ch00 ch01 ch02 ch03)).
  - unfold channels, getChannels. rewrite !filter_cons, filter_nil.
    repeat case_decide; simpl in *; split;
      first [ discriminate | done | intros (? & ? & ? & ?); done | idtac ].
    all: try (intros _; repeat match goal with H : ¬ _ ≠ _ |- _ => apply dec_stable in H end; done).
Qed.

Lemma resolve_lowerBounds_from (thresholds : gmap string string)
    (chans : list (string * nat)) (lowerBounds : list Z) :
  length lowerBounds = 5 ->
  Forall (fun c => c.2 < 5) chans ->
  NoDup chans.*2 ->
  (forall v x s, (v, x) ∈ chans -> thresholds !! v = Some s ->
                 exists n, py_int s = Ok n) ->
  exists lb,
    for_each (fun '(v, x) lowerBounds =>
        match thresholds !! v with
        | Some s => n ← py_int s; list_set lowerBounds x n
        | None => Ok lowerBounds
        end) chans lowerBounds = Ok lb
    /\ length lb = 5
    /\ (forall v x s n, (v, x) ∈ chans -> thresholds !! v = Some s ->
                        py_int s = Ok n -> lb !! x = Some n)
    /\ (forall x, (forall v, (v, x) ∈ chans -> thresholds !! v = None) ->
                  lb !! x = lowerBounds !! x).
Proof.
  intros Hlen Hlt. revert lowerBounds Hlen.
  induction Hlt as [|[v0 x0] chans Hx0 Hlt IH]; intros lb0 Hlen Hnd Hparse.
  - exists lb0. split_and!; [done..| |done].
    intros v x s n Hin. by apply elem_of_nil in Hin.
  - simpl in Hx0. rewrite fmap_cons in Hnd. apply NoDup_cons in Hnd as [Hx0' Hnd].
    cbn [for_each].
    assert (forall v, (v, x0) ∉ chans) as Hfresh.
    { intros v Hin. apply Hx0'. apply list_elem_of_fmap. by exists (v, x0). }
    destruct (thresholds !! v0) as [s0|] eqn:Hv0.
    + destruct (Hparse v0 x0 s0 (list_elem_of_here _ _) Hv0) as [n0 Hn0].
      rewrite Hn0, bind_Ok_l, list_set_Ok by lia. rewrite bind_Ok_l.
      destruct (IH (<[x0 := n0]> lb0)) as (lb & Hrun & Hlb & Hover & Hkeep);
        [by rewrite length_insert|done| |].
      { intros v x s Hin. apply (Hparse v x s). by apply list_elem_of_further. }
      exists lb. split_and!; [done..| |].
      * intros v x s n [[= -> ->]|Hin]%elem_of_cons Hv Hs.
        -- rewrite Hkeep by (intros v Hin; by apply Hfresh in Hin).
           rewrite list_lookup_insert_eq by lia. congruence.
        -- by apply (Hover v x s n).
      * intros x Hnone. rewrite Hkeep by (intros v Hin; apply Hnone; by apply list_elem_of_further).
        apply list_lookup_insert_ne. intros ->.
        specialize (Hnone v0 (list_elem_of_here _ _)). congruence.
    + rewrite bind_Ok_l.
      destruct (IH lb0) as (lb & Hrun & Hlb & Hover & Hkeep); [done..| |].
      { intros v x s Hin. apply (Hparse v x s). by apply list_elem_of_further. }
      exists lb. split_and!; [done..| |].
      * intros v x s n [[= -> ->]|Hin]%elem_of_cons Hv Hs; [congruence|].
        by apply (Hover v x s n).
      * intros x Hnone. apply Hkeep. intros v Hin. apply Hnone. by apply list_elem_of_further.
Qed.

(** X7. When every value the threshold table holds for the name of a
    configured channel reads as an integer, the lower bounds are resolved:
    a list of five, with the value of the table at the index of every
    channel whose name the table holds, and the default at every other
    index. Names of the table that are no configured channel are never
    read. *)
Theorem lower_bounds_overrides (thresholds : gmap string string)
    (ch00 ch01 ch02 ch03 : string) :
  let channels := getChannels ch00 ch01 ch02 ch03 in
  (forall v x s, (v, x) ∈ channels -> thresholds !! v = Some s ->
                 exists n, py_int s = Ok n) ->
  exists lowerBounds,
    resolve_lowerBounds thresholds channels = Ok lowerBounds
    /\ length lowerBounds = 5
    /\ (forall v x s n,
          (v, x) ∈ channels -> thresholds !! v = Some s -> py_int s = Ok n ->
          lowerBounds !! x = Some n)
    /\ (forall x,
          (forall v, (v, x) ∈ channels -> thresholds !! v = None) ->
          lowerBounds !! x = [40; 20; 35; 50; 40]%Z !! x).
Proof.
  intros channels Hparse. apply resolve_lowerBounds_from; [done| | |done].
  - eapply Forall_impl; [apply getChannels_lt|]. simpl. lia.
  - apply getChannels_NoDup.
Qed.

Lemma lower_bounds_overrides_witness :
  exists lowerBounds,
    resolve_lowerBounds override_thresholds four_markers = Ok lowerBounds
    /\ lowerBounds !! 0 = Some 45%Z
    /\ lowerBounds !! 1 = Some 20%Z
    /\ lowerBounds !! 2 = Some 60%Z.
Proof.
  destruct (lower_bounds_overrides override_thresholds
              "Dapi" "pSYN" "MAP2" "SYN")
    as (lowerBounds & Hrun & _ & Hover & Hkeep).
  { intros v x s [_ Hin]%list_elem_of_filter Hv.
    repeat (apply elem_of_cons in Hin as [Hin|Hin];
            [injection Hin as -> ->; vm_compute in Hv;
             first [ discriminate Hv
                   | injection Hv as <-; eexists; vm_compute; reflexivity ]|]).
    by apply elem_of_nil in Hin. }
  exists lowerBounds. split_and!.
  - exact Hrun.
  - apply (Hover "Dapi" 0 "45" 45%Z); [|reflexivity..].
    by apply (bool_decide_unpack _); vm_compute.
  - apply (Hkeep 1). intros v [_ Hin]%list_elem_of_filter.
    repeat (apply elem_of_cons in Hin as [Hin|Hin];
            [simplify_eq; reflexivity|]).
    by apply elem_of_nil in Hin.
  - apply (Hover "MAP2" 2 " 60 " 60%Z); [|reflexivity..].
    by apply (bool_decide_unpack _); vm_compute.
Defined.


Lemma resolve_lowerBounds_empty (channels : list (string * nat)) :
  resolve_lowerBounds ∅ channels = Ok [40; 20; 35; 50; 40]%Z.
Proof.
  unfold resolve_lowerBounds. generalize [40; 20; 35; 50; 40]%Z as lb.
  induction channels as [|[v x] channels IH]; intros lb; [done|].
  cbn [for_each]. rewrite lookup_empty, bind_Ok_l. apply IH.
Qed.

(** X8. With the choice of a csv file, the thresholds are the last row
    of the file, whatever the rows before it hold; with a file without
    rows, or with the choice ["default"], there is no override and every
    lower bound is its default. *)
Theorem thresholds_of_choice (rows : list (gmap string string)) (row : gmap string string)
    (channels : list (string * nat)) :
  getThresholds "use threshold csv file" (rows ++ [row]) = row
  /\ resolve_lowerBounds (getThresholds "use threshold csv file" []) channels
     = Ok [40; 20; 35; 50; 40]%Z
  /\ resolve_lowerBounds (getThresholds "default" rows) channels
     = Ok [40; 20; 35; 50; 40]%Z.
Proof.
  split_and!.
  - unfold getThresholds. cbn [String.eqb]. by rewrite foldl_app.
  - apply resolve_lowerBounds_empty.
  - apply resolve_lowerBounds_empty.
Qed.

(** X9. When the last dimension description of the metadata file has a
    pixel count of zero, computing the pixel length raises
    [ZeroDivisionError]. *)
Theorem zero_pixels_raise (py_float : string -> result float)
    (dims : list (gmap string string)) (d : gmap string string)
    (rest : list Calibration.xml_file) (n_s unit l_s : string) (len : float) :
  (forall d', d' ∈ dims ->
     exists b, Calibration.read_dimension py_float d' = Ok b) ->
  d !! "NumberOfElements" = Some n_s -> py_int n_s = Ok 0%Z ->
  d !! "Unit" = Some unit ->
  d !! "Length" = Some l_s -> py_float l_s = Ok len ->
  Calibration.pixel_length py_float (Calibration.Xml (dims ++ [d]) :: rest)
  = Raise ZeroDivisionError.
Proof.
  intros Hdims Hn Hn0 Hu Hl Hlen. unfold Calibration.pixel_length.
  rewrite (read_dimensions_last py_float dims d
             (0%Z, if String.eqb unit "m" then (len * 1000000)%float else len)
             None Hdims).
  - done.
  - unfold Calibration.read_dimension, dict_get.
    rewrite Hn, bind_Ok_l, Hn0, bind_Ok_l, Hu, bind_Ok_l, Hl, bind_Ok_l, Hlen,
      bind_Ok_l.
    by destruct (String.eqb unit "m").
Qed.

Lemma zero_pixels_raise_witness :
  Calibration.pixel_length py_float_sample zero_pixel_metadata
  = Raise ZeroDivisionError.
Proof.
  apply (zero_pixels_raise py_float_sample []
           (<["NumberOfElements" := "0"]>
              (<["Unit" := "um"]> (<["Length" := "898"]> ∅)))
           [] "0" "um" "898" 898%float).
  - intros d' Hd'. by apply elem_of_nil in Hd'.
  - reflexivity.
  - reflexivity.
  - reflexivity.
  - reflexivity.
  - reflexivity.
Defined.

(** ** Runs that raise *)

(** X10. When the four channel names of a sub-folder are left empty,
    its channel list is empty and [process], once the pixel length is
    resolved, raises [NameError] on every image of the sub-folder, at
    [bigAreas[x]]: no row is written. *)
Theorem no_channel_raises (py_round : float -> Z -> float)
    (py_float : string -> result float) (cfg : config)
    (images : string -> string -> float -> list Z -> imagej)
    (lowerBounds : list Z) (d : subfolder) (filename : string)
    (csvfile : list (list pyval)) (pixel_length : float) :
  ch00 d = "" -> ch01 d = "" -> ch02 d = "" -> ch03 d = "" ->
  Calibration.pixel_length py_float (xml_files d) = Ok pixel_length ->
  channels_of d = []
  /\ process_image py_round py_float cfg images lowerBounds d filename csvfile
     = Raise NameError.
Proof.
  intros H0 H1 H2 H3 Hpl.
  assert (channels_of d = []) as Hnil.
  { unfold channels_of. by rewrite H0, H1, H2, H3. }
  split; [done|].
  unfold process_image. rewrite Hpl, bind_Ok_l, Hnil. reflexivity.
Qed.

Lemma no_channel_raises_witness :
  process_image round_half_away py_float_sample default_config sample_images
    [40; 20; 35; 50; 40]%Z unnamed_plate "a_ch00.tif" []
  = Raise NameError.
Proof.
  apply (no_channel_raises round_half_away py_float_sample default_config
           sample_images [40; 20; 35; 50; 40]%Z unnamed_plate "a_ch00.tif" []
           0.876953125%float).
  - reflexivity.
  - reflexivity.
  - reflexivity.
  - reflexivity.
  - vm_compute. reflexivity.
Defined.

(** ** The names and measurements of a row *)

Lemma lookup_bump_ne (k j : string) (s : gmap string pyval) :
  j ≠ k -> bump k s !! j = s !! j.
Proof. intros Hne. unfold bump. by rewrite lookup_alter_ne. Qed.

Lemma lookup_bump_all_not_in (ks : list string) (j : string)
    (s : gmap string pyval) :
  j ∉ ks -> bump_all ks s !! j = s !! j.
Proof.
  revert s. induction ks as [|k ks IH]; intros s Hj; [done|].
  apply not_elem_of_cons in Hj as [Hne Hj]. cbn [bump_all foldl].
  unfold bump_all in IH. rewrite IH by done. by apply lookup_bump_ne.
Qed.

Lemma hits_counter (cfg : config) (ij : imagej)
    (channels : list (string * nat)) (z : nat) (a : float) (k : string) :
  k ∈ hits cfg ij channels z a ->
  k ∈ base_counters cfg ++ positive_keys channels.
Proof.
  unfold hits. intros Hk. apply elem_of_app.
  destruct (classify cfg a).
  - apply elem_of_cons in Hk as [->|Hk].
    { left. unfold base_counters. right. by left. }
    apply elem_of_app in Hk as [Hk|Hk].
    { right. apply positive_part_form with (cfg := cfg) (ij := ij) (z := z).
      apply elem_of_app. by left. }
    apply elem_of_app in Hk as [Hk|Hk].
    { left. destruct (temp_of cfg ij z channels =? 0)%Z;
        [|by apply elem_of_nil in Hk].
      apply list_elem_of_singleton in Hk as ->.
      unfold base_counters. do 2 right. by left. }
    right. apply positive_part_form with (cfg := cfg) (ij := ij) (z := z).
    apply elem_of_app. by right.
  - apply list_elem_of_singleton in Hk as ->. left.
    unfold base_counters. do 4 right. by left.
  - apply list_elem_of_singleton in Hk as ->. left.
    unfold base_counters. do 3 right. by left.
Qed.

Lemma hits_from_counter (cfg : config) (ij : imagej)
    (channels : list (string * nat)) (l : list float) (z : nat) (k : string) :
  k ∈ hits_from cfg ij channels z l ->
  k ∈ base_counters cfg ++ positive_keys channels.
Proof.
  revert z. induction l as [|a l IH]; intros z Hk.
  - by apply elem_of_nil in Hk.
  - cbn [hits_from] in Hk. apply elem_of_app in Hk as [Hk|Hk].
    + by apply hits_counter in Hk.
    + by apply IH in Hk.
Qed.

Lemma value_key_not_counter (cfg : config) (channels : list (string * nat))
    (k : string) :
  value_key k -> k ∉ base_counters cfg ++ positive_keys channels.
Proof.
  intros Hv [Hk|Hk]%elem_of_app.
  - by apply (not_value_key_base cfg) in Hk.
  - apply positive_keys_form in Hk as [w ->].
    by apply not_value_key_positive in Hv.
Qed.

(** The stages of a run that returns, and the entries the particle loop
    and the size average leave as the summary was initialised. *)
Lemma summarise_stages (py_round : float -> Z -> float) (cfg : config)
    (ij : imagej) (channels : list (string * nat))
    (subFolder filename : string) (summary : gmap string pyval)
    (fieldnames : list string) :
  summarise py_round cfg ij channels subFolder filename
  = Ok (summary, fieldnames) ->
  exists images intensities bigAreas blobsarea blobsnuclei s0,
    measure_channels ij channels = Ok (images, intensities, bigAreas)
    /\ measure_blobs ij channels = Ok (blobsarea, blobsnuclei)
    /\ init_summary cfg channels subFolder filename
         intensities bigAreas blobsarea blobsnuclei = Ok (s0, fieldnames)
    /\ forall k, value_key k -> summary !! k = s0 !! k.
Proof.
  unfold summarise. intros H.
  apply bind_Ok in H as ([[im i] b] & Hmc & H).
  apply bind_Ok in H as (A & HA%measure_areaFractions_faithful & H).
  apply bind_Ok in H as ([ba bn] & Hmb & H).
  apply bind_Ok in H as ([s0 f] & Hinit & H).
  apply bind_Ok in H as ([s1 ac] & Hloop & H).
  apply bind_Ok in H as (final & Hfinal & [= <- <-]).
  exists im, i, b, ba, bn, s0. split_and!; [done..|].
  intros k Hk.
  apply (loop_sound cfg ij A HA) in Hloop as [-> ->].
  assert (bump_all (hits_from cfg ij channels 0 (areas ij)) s0 !! k = s0 !! k)
    as Hsame.
  { apply lookup_bump_all_not_in. intros Hin%hits_from_counter.
    by apply (value_key_not_counter cfg channels k). }
  unfold size_average in Hfinal.
  apply bind_Ok in Hfinal as (n & _ & Hfinal).
  destruct n as [|n| |]; try done.
  destruct (0 <? n)%Z; injection Hfinal as <-; [|done].
  rewrite lookup_insert_ne; [done|].
  intros <-. apply (value_key_not_counter cfg channels "size-average" Hk).
  apply elem_of_app. left. unfold base_counters. by left.
Qed.

Lemma elem_of_flat_map_iff {A B : Type} (f : A -> list B) (l : list A) (b : B) :
  b ∈ flat_map f l <-> exists a, a ∈ l /\ b ∈ f a.
Proof.
  rewrite list_elem_of_In, in_flat_map.
  by setoid_rewrite list_elem_of_In.
Qed.

Lemma marker_suffix_inj (v w suffix : string) :
  v +:+ suffix = w +:+ suffix -> v = w.
Proof.
  intros H. apply (f_equal String.rev) in H. rewrite !string_rev_app in H.
  apply String.app_inj in H. apply (f_equal String.rev) in H.
  by rewrite !string_rev_involutive in H.
Qed.

Lemma marker_columns_name (c c' : string * nat) (k : string) :
  k ∈ marker_columns c -> k ∈ marker_columns c' -> c.1 = c'.1.
Proof.
  unfold marker_columns. intros Hk Hk'.
  repeat (apply elem_of_cons in Hk as [->|Hk]);
    [..|by apply elem_of_nil in Hk];
    repeat (apply elem_of_cons in Hk' as [Hk'|Hk']);
    try (by apply elem_of_nil in Hk');
    first [ by apply marker_suffix_inj in Hk'
          | exfalso; revert Hk'; key_neq ].
Qed.

(** The columns of the channels: an entry the loop does not name is left
    alone, and with pairwise distinct channel names the measurement columns
    of a channel hold the entries of the arrays at its index. *)
Lemma add_marker_columns_frame (intensities blobsarea blobsnuclei : list pyval)
    (chans : list (string * nat)) (s s' : gmap string pyval)
    (f f' : list string) (k : string) :
  for_each (add_marker_columns intensities blobsarea blobsnuclei) chans (s, f)
  = Ok (s', f') ->
  k ∉ flat_map marker_columns chans ->
  s' !! k = s !! k.
Proof.
  revert s f. induction chans as [|[v x] chans IH]; intros s f H Hk.
  - by injection H as <- <-.
  - cbn [for_each] in H. apply bind_Ok in H as ([s1 f1] & H1 & H).
    cbn [flat_map] in Hk. apply not_elem_of_app in Hk as [Hk1 Hk].
    rewrite (IH _ _ H Hk).
    unfold add_marker_columns in H1.
    apply bind_Ok in H1 as (i & _ & H1).
    apply bind_Ok in H1 as (a & _ & H1).
    apply bind_Ok in H1 as (n & _ & [= <- <-]).
    unfold marker_columns in Hk1. cbn [fst] in Hk1.
    rewrite !not_elem_of_cons in Hk1. destruct Hk1 as (? & ? & ? & ? & _).
    by rewrite !lookup_insert_ne.
Qed.

Lemma add_marker_columns_values (intensities blobsarea blobsnuclei : list pyval)
    (chans : list (string * nat)) (s s' : gmap string pyval)
    (f f' : list string) (v : string) (x : nat) :
  for_each (add_marker_columns intensities blobsarea blobsnuclei) chans (s, f)
  = Ok (s', f') ->
  NoDup chans.*1 -> (v, x) ∈ chans ->
  s' !! (v +:+ "-intensity") = intensities !! x
  /\ s' !! (v +:+ "-blobsarea") = blobsarea !! x
  /\ s' !! (v +:+ "-blobsnuclei") = blobsnuclei !! x.
Proof.
  revert s f. induction chans as [|[v0 x0] chans IH]; intros s f H Hnd Hin.
  - by apply elem_of_nil in Hin.
  - cbn [for_each] in H. apply bind_Ok in H as ([s1 f1] & H1 & H).
    rewrite fmap_cons in Hnd. apply NoDup_cons in Hnd as [Hv0 Hnd].
    apply elem_of_cons in Hin as [[= -> ->]|Hin]; [|by apply (IH _ _ H)].
    assert (forall k, k ∈ marker_columns (v0, x0) ->
                      k ∉ flat_map marker_columns chans) as Hfresh.
    { intros k Hk (c & Hc & Hkc)%elem_of_flat_map_iff.
      apply Hv0. rewrite (marker_columns_name _ _ _ Hk Hkc).
      apply list_elem_of_fmap. by exists c. }
    rewrite !(add_marker_columns_frame _ _ _ _ _ _ _ _ _ H)
      by (apply Hfresh; unfold marker_columns; cbn [fst];
          rewrite !elem_of_cons; tauto).
    unfold add_marker_columns, list_get in H1.
    destruct (intensities !! x0) as [i|]; [|done]. rewrite bind_Ok_l in H1.
    destruct (blobsarea !! x0) as [a|]; [|done]. rewrite bind_Ok_l in H1.
    destruct (blobsnuclei !! x0) as [n|]; [|done]. rewrite bind_Ok_l in H1.
    injection H1 as <- <-.
    split_and!.
    + rewrite lookup_insert_ne by key_neq. rewrite lookup_insert_ne by key_neq.
      by rewrite lookup_insert_eq.
    + rewrite lookup_insert_ne by key_neq. by rewrite lookup_insert_eq.
    + by rewrite lookup_insert_eq.
Qed.

Lemma list_set_inv {V : Type} (l l' : list V) (i : nat) (v : V) :
  list_set l i v = Ok l' -> i < length l /\ l' = <[i := v]> l.
Proof. unfold list_set. case_decide; [|done]. by intros [= <-]. Qed.

Lemma measure_organoid_sound (x : nat) (rois : list (float * float))
    (i b i' b' : list pyval) :
  for_each (fun '(mean, area) '(intensities, bigAreas) =>
      intensities ← list_set intensities x (PyFloat mean);
      bigAreas ← list_set bigAreas x (PyFloat area);
      Ok (intensities, bigAreas)) rois (i, b) = Ok (i', b') ->
  length i' = length i /\ length b' = length b
  /\ (forall y, y ≠ x -> i' !! y = i !! y /\ b' !! y = b !! y)
  /\ (rois = [] -> i' = i /\ b' = b)
  /\ (rois ≠ [] ->
      i' !! x = Some (last_roi fst rois) /\ b' !! x = Some (last_roi snd rois)).
Proof.
  revert i b. induction rois as [|[mean area] rois IH]; intros i b H.
  - injection H as <- <-. done.
  - cbn [for_each] in H. apply bind_Ok in H as ([i1 b1] & H1 & H).
    apply bind_Ok in H1 as (i1' & [Hi ->]%list_set_inv & H1).
    apply bind_Ok in H1 as (b1' & [Hb ->]%list_set_inv & [= <- <-]).
    apply IH in H as (Hli & Hlb & Hother & Hnil & Hlast).
    rewrite !length_insert in Hli, Hlb.
    split_and!; [done..| | |].
    + intros y Hy. destruct (Hother y Hy) as [-> ->].
      by rewrite !list_lookup_insert_ne.
    + done.
    + intros _. destruct rois as [|r rois].
      * destruct Hnil as [-> ->]; [done|].
        rewrite !list_lookup_insert_eq by done. done.
      * destruct Hlast as [-> ->]; done.
Qed.

Lemma measure_channels_sound_from (ij : imagej) (chans : list (string * nat))
    (im0 im : list (option nat)) (i0 b0 i b : list pyval) :
  for_each (fun '(v, x) '(images, intensities, bigAreas) =>
      images ← list_set images x (Some x);
      '(intensities, bigAreas) ←
        for_each (fun '(mean, area) '(intensities, bigAreas) =>
            intensities ← list_set intensities x (PyFloat mean);
            bigAreas ← list_set bigAreas x (PyFloat area);
            Ok (intensities, bigAreas))
          (organoid ij x) (intensities, bigAreas);
      Ok (images, intensities, bigAreas))
    chans (im0, i0, b0) = Ok (im, i, b) ->
  channel_arrays ij im0 i0 b0 ->
  (forall x, channel_done ij x i0 b0 -> channel_done ij x i b)
  /\ (forall x, x ∈ chans.*2 -> channel_done ij x i b).
Proof.
  revert im0 i0 b0. induction chans as [|[v x] chans IH]; intros im0 i0 b0 H Hinv.
  - injection H as <- <- <-. split; [done|]. intros x Hx.
    by apply elem_of_nil in Hx.
  - cbn [for_each] in H. apply bind_Ok in H as ([[im1 i1] b1] & H1 & H).
    apply bind_Ok in H1 as (im1' & [Hx ->]%list_set_inv & H1).
    apply bind_Ok in H1 as ([i1' b1'] & Hrois & [= Him Hi1 Hb1]).
    subst im1 i1' b1'.
    apply measure_organoid_sound in Hrois
      as (Hli & Hlb & Hother & Hnil & Hlast).
    destruct Hinv as (Hleni & Hlenb & Hinv).
    assert (channel_done ij x i1 b1) as Hdone.
    { destruct (organoid ij x) as [|r rois] eqn:Hr.
      - destruct Hnil as [-> ->]; [done|].
        unfold channel_done. rewrite Hr. unfold last_roi. simpl.
        destruct (Hinv x) as [Hi Hb]. rewrite Hr in Hi, Hb.
        unfold last_roi in Hi, Hb. simpl in Hi, Hb.
        destruct (lookup_lt_is_Some_2 i0 x) as [vi Hvi]; [lia|].
        destruct (lookup_lt_is_Some_2 b0 x) as [vb Hvb]; [lia|].
        rewrite Hvi in Hi |- *. rewrite Hvb in Hb |- *.
        destruct Hi as [Hi|[Hi|Hi]], Hb as [Hb|[Hb|Hb]]; done.
      - unfold channel_done. rewrite Hr. by apply Hlast. }
    assert (forall y, channel_done ij y i0 b0 -> channel_done ij y i1 b1)
      as Hkeep.
    { intros y Hy. destruct (decide (y = x)) as [->|Hne]; [done|].
      unfold channel_done. by destruct (Hother y Hne) as [-> ->]. }
    apply IH in H as [Hkeep' Hall].
    + split; [by intros y Hy; apply Hkeep', Hkeep|].
      intros y [->|Hy]%elem_of_cons; [by apply Hkeep'|by apply Hall].
    + split_and!; [rewrite length_insert; lia..|].
      intros y. destruct (decide (y = x)) as [->|Hne].
      * destruct Hdone as [-> ->]. split; right; by left.
      * destruct (Hother y Hne) as [-> ->]. apply Hinv.
Qed.

Lemma measure_channels_sound (ij : imagej) (channels : list (string * nat))
    (im : list (option nat)) (i b : list pyval) :
  measure_channels ij channels = Ok (im, i, b) ->
  forall x, x ∈ channels.*2 -> channel_done ij x i b.
Proof.
  intros H. apply measure_channels_sound_from in H as [_ H]; [done|].
  split_and!; [done..|]. intros x.
  destruct (decide (x < 5)) as [Hx|Hx].
  - split; left; by apply lookup_replicate_2.
  - split; do 2 right; apply lookup_ge_None_2; rewrite length_replicate; lia.
Qed.

Lemma measure_blobs_sound_from (ij : imagej) (chans : list (string * nat))
    (a0 n0 a n : list pyval) :
  for_each (fun '(v, x) '(blobsarea, blobsnuclei) =>
      blobsarea ← list_set blobsarea x (py_sum (blobs ij x));
      blobsnuclei ←
        list_set blobsnuclei x (PyInt (Z.of_nat (length (blobs ij x))));
      Ok (blobsarea, blobsnuclei))
    chans (a0, n0) = Ok (a, n) ->
  forall x,
    x ∈ chans.*2
    \/ (a0 !! x = Some (py_sum (blobs ij x))
        /\ n0 !! x = Some (PyInt (Z.of_nat (length (blobs ij x))))) ->
    a !! x = Some (py_sum (blobs ij x))
    /\ n !! x = Some (PyInt (Z.of_nat (length (blobs ij x)))).
Proof.
  revert a0 n0. induction chans as [|[v x] chans IH]; intros a0 n0 H y Hy.
  - injection H as <- <-. destruct Hy as [Hy|Hy]; [|done].
    by apply elem_of_nil in Hy.
  - cbn [for_each] in H. apply bind_Ok in H as ([a1 n1] & H1 & H).
    apply bind_Ok in H1 as (a1' & [Ha ->]%list_set_inv & H1).
    apply bind_Ok in H1 as (n1' & [Hn ->]%list_set_inv & [= <- <-]).
    apply (IH _ _ H). destruct (decide (y = x)) as [->|Hne].
    + right. by rewrite !list_lookup_insert_eq.
    + destruct Hy as [[?|Hy]%elem_of_cons|Hy]; [done|by left|].
      right. by rewrite !list_lookup_insert_ne.
Qed.

Lemma measure_blobs_sound (ij : imagej) (channels : list (string * nat))
    (a n : list pyval) :
  measure_blobs ij channels = Ok (a, n) ->
  forall x, x ∈ channels.*2 ->
    a !! x = Some (py_sum (blobs ij x))
    /\ n !! x = Some (PyInt (Z.of_nat (length (blobs ij x)))).
Proof.
  intros H x Hx. apply (measure_blobs_sound_from _ _ _ _ _ _ H). by left.
Qed.

Lemma value_key_not_colocalization (channels : list (string * nat))
    (k : string) :
  value_key k -> k ∉ colocalization_columns channels.
Proof.
  intros Hv Hk.
  assert (k ∈ positive_keys channels) as [w ->]%positive_keys_form
    by (unfold positive_keys; apply elem_of_app; by right).
  by apply not_value_key_positive in Hv.
Qed.

(** The entries of the initial summary that hold a name or a measurement. *)
Lemma init_summary_values (cfg : config) (channels : list (string * nat))
    (subFolder filename : string)
    (intensities bigAreas blobsarea blobsnuclei : list pyval)
    (s0 : gmap string pyval) (fieldnames : list string) :
  init_summary cfg channels subFolder filename
    intensities bigAreas blobsarea blobsnuclei = Ok (s0, fieldnames) ->
  s0 !! "Directory" = Some (PyStr subFolder)
  /\ s0 !! "Image" = Some (PyStr filename)
  /\ (exists v x, last channels = Some (v, x)
                  /\ s0 !! "organoid-area" = bigAreas !! x
                  /\ is_Some (bigAreas !! x))
  /\ (NoDup channels.*1 ->
      forall v x, (v, x) ∈ channels ->
        s0 !! (v +:+ "-intensity") = intensities !! x
        /\ s0 !! (v +:+ "-blobsarea") = blobsarea !! x
        /\ s0 !! (v +:+ "-blobsnuclei") = blobsnuclei !! x).
Proof.
  unfold init_summary. intros H.
  destruct (last channels) as [[v x]|] eqn:Hlast; [|done].
  rewrite bind_Ok_l in H. unfold list_get in H.
  destruct (bigAreas !! x) as [area|] eqn:Harea; [|done].
  rewrite bind_Ok_l in H.
  apply bind_Ok in H as ([s1 f1] & Hcols & H).
  rewrite add_colocalization_columns_eq in H. injection H as <- <-.
  assert (forall k, value_key k ->
            foldl (fun s k' => <[k' := PyInt 0]> s) s1
              (colocalization_columns channels) !! k = s1 !! k) as Hcoloc.
  { intros k Hk. rewrite lookup_insert_zeros, decide_False; [done|].
    by apply value_key_not_colocalization. }
  assert (forall k, (forall w, k ∉ marker_columns (w, 0)) ->
            s1 !! k
            = (<["organoid-area" := area]> (base_summary cfg subFolder filename))
                !! k) as Hframe.
  { intros k Hk. apply (add_marker_columns_frame _ _ _ _ _ _ _ _ _ Hcols).
    intros (c & _ & Hc)%elem_of_flat_map_iff. by apply (Hk c.1). }
  assert (forall k, value_key k -> forall w, k = "Directory" \/ k = "Image"
            \/ k = "organoid-area" -> k ∉ marker_columns (w, 0)) as Hnot.
  { intros k _ w Hk Hin. unfold marker_columns in Hin. cbn [fst] in Hin.
    repeat (apply elem_of_cons in Hin as [Hin|Hin]);
      [..|by apply elem_of_nil in Hin];
      destruct Hk as [-> | [-> | ->]]; revert Hin; key_neq. }
  split_and!.
  - rewrite Hcoloc by (right; by left).
    rewrite Hframe by (intros w; apply Hnot; [right; by left|by left]).
    by rewrite lookup_insert_ne.
  - rewrite Hcoloc by (by left).
    rewrite Hframe by (intros w; apply Hnot; [by left|right; by left]).
    by rewrite lookup_insert_ne.
  - exists v, x. split_and!; [done| |done].
    rewrite Hcoloc by (do 2 right; by left).
    rewrite Hframe
      by (intros w; apply Hnot; [do 2 right; by left|do 2 right; done]).
    by rewrite lookup_insert_eq.
  - intros Hnd w y Hin.
    rewrite !Hcoloc by (do 3 right; exists w; tauto).
    by apply (add_marker_columns_values _ _ _ _ _ _ _ _ _ _ Hcols).
Qed.

Lemma writerow_lookup (fieldnames : list string) (summary : gmap string pyval)
    (i : nat) (f : string) (v : pyval) :
  fieldnames !! i = Some f -> summary !! f = Some v ->
  writerow fieldnames summary !! i = Some v.
Proof.
  intros Hi Hf. unfold writerow. rewrite list_lookup_fmap, Hi. simpl. by rewrite Hf.
Qed.

(** X11. Every row [process] appends has the name of the sub-folder in
    its second cell and the name of the image file in its third; it has 9
    cells, 4 more per channel and one per colocalization column, as many as
    the header written to an empty file. *)
Theorem row_identity_cells (py_round : float -> Z -> float) (cfg : config)
    (ij : imagej) (channels : list (string * nat))
    (subFolder filename : string) (csvfile : list (list pyval)) :
  (channels_ok channels -> length (areaFractionThreshold cfg) = 5 ->
   exists file',
     process py_round cfg ij channels subFolder filename csvfile = Ok file')
  /\ (forall file',
        process py_round cfg ij channels subFolder filename csvfile = Ok file' ->
        exists row,
          last file' = Some row
          /\ row !! 1 = Some (PyStr subFolder)
          /\ row !! 2 = Some (PyStr filename)
          /\ length row
             = 9 + 4 * length channels
               + length (colocalization_columns channels)
          /\ (csvfile = [] ->
              exists header, file' = [header; row]
                             /\ length header = length row)).
Proof.
  split; [apply process_Ok|].
  intros file' (summary & fieldnames & Hrun & ->)%process_inv.
  exists (writerow fieldnames summary).
  pose proof (summarise_sound _ _ _ _ _ _ _ _ Hrun) as (Hf & _).
  apply summarise_stages in Hrun
    as (im & i & b & ba & bn & s0 & _ & _ & Hinit & Hsame).
  apply init_summary_values in Hinit as (Hdir & Himg & _).
  split_and!.
  - by rewrite last_snoc.
  - apply writerow_lookup with (f := "Directory"); [by rewrite Hf|].
    rewrite Hsame; [done|]. right. by left.
  - apply writerow_lookup with (f := "Image"); [by rewrite Hf|].
    rewrite Hsame; [done|]. by left.
  - unfold writerow. rewrite length_fmap, Hf, !length_app, length_marker_columns.
    simpl. lia.
  - intros ->. exists (PyStr <$> fieldnames). split; [done|].
    unfold writerow. by rewrite !length_fmap.
Qed.

Lemma row_identity_cells_witness :
  exists file' row,
    process round_half_away default_config three_particles four_markers
      "plate1" "well_ch00.tif" [] = Ok file'
    /\ last file' = Some row
    /\ row !! 1 = Some (PyStr "plate1")
    /\ row !! 2 = Some (PyStr "well_ch00.tif")
    /\ length row = 29.
Proof.
  destruct (row_identity_cells round_half_away default_config
              three_particles four_markers "plate1" "well_ch00.tif" [])
    as [Hok Hsound].
  destruct Hok as [file' Hrun];
    [by apply (bool_decide_unpack _); vm_compute|reflexivity|].
  destruct (Hsound file' Hrun) as (row & Hlast & Hdir & Himg & Hlen & _).
  exists file', row.
  split_and!; [exact Hrun|exact Hlast|exact Hdir|exact Himg|exact Hlen].
Defined.

(** X12. ['organoid-area'] is the area of the last ROI of the organoid
    as measured in the last channel of the channel list; it is [None] when
    the ROI manager holds no ROI. *)
Theorem organoid_area_of_last_channel (py_round : float -> Z -> float)
    (cfg : config) (ij : imagej) (channels : list (string * nat))
    (subFolder filename : string) :
  (channels_ok channels -> length (areaFractionThreshold cfg) = 5 ->
   exists r, summarise py_round cfg ij channels subFolder filename = Ok r)
  /\ (forall summary fieldnames,
        summarise py_round cfg ij channels subFolder filename
        = Ok (summary, fieldnames) ->
        exists v x,
          last channels = Some (v, x)
          /\ summary !! "organoid-area"
             = Some (match last (organoid ij x) with
                     | Some (_, area) => PyFloat area
                     | None => PyNone
                     end)).
Proof.
  split; [apply summarise_Ok|].
  intros summary fieldnames Hrun.
  apply summarise_stages in Hrun
    as (im & i & b & ba & bn & s0 & Hmc & _ & Hinit & Hsame).
  apply init_summary_values in Hinit as (_ & _ & (v & x & Hlast & Harea & _) & _).
  exists v, x. split; [done|].
  rewrite Hsame by (do 2 right; by left). rewrite Harea.
  destruct (measure_channels_sound ij channels im i b Hmc x) as [_ ->].
  - apply last_Some in Hlast as [l' ->]. rewrite fmap_app.
    apply elem_of_app. right. by left.
  - unfold last_roi. by destruct (last (organoid ij x)) as [[mean area]|].
Qed.

Lemma organoid_area_of_last_channel_witness :
  exists summary fieldnames,
    summarise round_half_away default_config layered_image four_markers
      "plate1" "well_ch00.tif" = Ok (summary, fieldnames)
    /\ summary !! "organoid-area" = Some (PyFloat 90000).
Proof.
  destruct (organoid_area_of_last_channel round_half_away default_config
              layered_image four_markers "plate1" "well_ch00.tif")
    as [Hok Hsound].
  destruct Hok as [[summary fieldnames] Hrun];
    [by apply (bool_decide_unpack _); vm_compute|reflexivity|].
  exists summary, fieldnames. split; [exact Hrun|].
  destruct (Hsound summary fieldnames Hrun) as (v & x & Hlast & Harea).
  injection Hlast as <- <-. exact Harea.
Defined.


(** X13. With pairwise distinct channel names, the measurement columns
    of a channel hold what was measured in that channel: the mean intensity
    over the last ROI of the organoid ([None] without a ROI), the sum of the
    areas of its blobs (the int 0 without a blob) and the number of its
    blobs. *)
Theorem channel_measurement_columns (py_round : float -> Z -> float)
    (cfg : config) (ij : imagej) (channels : list (string * nat))
    (subFolder filename : string) (v : string) (x : nat) :
  NoDup channels.*1 ->
  (v, x) ∈ channels ->
  (channels_ok channels -> length (areaFractionThreshold cfg) = 5 ->
   exists r, summarise py_round cfg ij channels subFolder filename = Ok r)
  /\ (forall summary fieldnames,
        summarise py_round cfg ij channels subFolder filename
        = Ok (summary, fieldnames) ->
        summary !! (v +:+ "-intensity")
        = Some (match last (organoid ij x) with
                | Some (mean, _) => PyFloat mean
                | None => PyNone
                end)
        /\ summary !! (v +:+ "-blobsarea") = Some (py_sum (blobs ij x))
        /\ summary !! (v +:+ "-blobsnuclei")
           = Some (PyInt (Z.of_nat (length (blobs ij x))))).
Proof.
  intros Hnd Hin. split; [apply summarise_Ok|].
  intros summary fieldnames Hrun.
  apply summarise_stages in Hrun
    as (im & i & b & ba & bn & s0 & Hmc & Hmb & Hinit & Hsame).
  apply init_summary_values in Hinit as (_ & _ & _ & Hcols).
  destruct (Hcols Hnd v x Hin) as (Hi & Ha & Hn).
  assert (x ∈ channels.*2) as Hx
    by (apply list_elem_of_fmap; by exists (v, x)).
  destruct (measure_channels_sound ij channels im i b Hmc x Hx) as [Hmean _].
  destruct (measure_blobs_sound ij channels ba bn Hmb x Hx) as [Hba Hbn].
  split_and!.
  - rewrite Hsame by (do 3 right; exists v; tauto). rewrite Hi, Hmean.
    unfold last_roi. by destruct (last (organoid ij x)) as [[mean area]|].
  - rewrite Hsame by (do 3 right; exists v; tauto). by rewrite Ha, Hba.
  - rewrite Hsame by (do 3 right; exists v; tauto). by rewrite Hn, Hbn.
Qed.

Lemma channel_measurement_columns_witness :
  exists summary fieldnames,
    summarise round_half_away default_config layered_image four_markers
      "plate1" "well_ch00.tif" = Ok (summary, fieldnames)
    /\ summary !! "MAP2-intensity" = Some (PyFloat 2.5)
    /\ summary !! "MAP2-blobsarea" = Some (PyInt 0)
    /\ summary !! "MAP2-blobsnuclei" = Some (PyInt 0).
Proof.
  destruct (channel_measurement_columns round_half_away default_config
              layered_image four_markers "plate1" "well_ch00.tif" "MAP2" 2)
    as [Hok Hsound].
  - by apply (bool_decide_unpack _); vm_compute.
  - by apply (bool_decide_unpack _); vm_compute.
  - destruct Hok as [[summary fieldnames] Hrun];
      [by apply (bool_decide_unpack _); vm_compute|reflexivity|].
    exists summary, fieldnames. split; [exact Hrun|].
    exact (Hsound summary fieldnames Hrun).
Defined.

(** ** Channels left blank *)

Lemma measure_areaFractions_unset (ij : imagej)
    (channels : list (string * nat)) (A : list (option (list float)))
    (x : nat) :
  measure_areaFractions ij channels = Ok A ->
  x < 5 -> x ∉ channels.*2 -> A !! x = Some None.
Proof.
  intros H Hx Hnot. revert H. unfold measure_areaFractions.
  apply (for_each_inv (fun A => A !! x = Some None)).
  - intros [v x'] A0 A1 Hin HA0 [_ ->]%list_set_inv.
    rewrite list_lookup_insert_ne; [done|]. intros ->.
    apply Hnot. apply list_elem_of_fmap. by exists (v, x).
  - by apply lookup_replicate_2.
Qed.

Lemma init_summary_in_range (cfg : config) (channels : list (string * nat))
    (subFolder filename : string)
    (intensities bigAreas blobsarea blobsnuclei : list pyval) :
  channels ≠ [] -> Forall (fun c => c.2 < 5) channels ->
  length intensities = 5 -> length bigAreas = 5 ->
  length blobsarea = 5 -> length blobsnuclei = 5 ->
  exists st,
    init_summary cfg channels subFolder filename
      intensities bigAreas blobsarea blobsnuclei = Ok st.
Proof.
  intros Hne Hlt Hi Hb Ha Hn. unfold init_summary.
  destruct (last channels) as [[v x]|] eqn:Hlast;
    [|by apply last_None in Hlast].
  assert (x < 5) as Hx.
  { apply last_Some in Hlast as [l' Hl'].
    assert ((v, x) ∈ channels) as Hin
      by (rewrite Hl'; apply elem_of_app; right; by left).
    by apply (proj1 (Forall_forall _ _) Hlt) in Hin. }
  rewrite bind_Ok_l.
  destruct (list_get_Ok bigAreas x) as [area ->]; [lia|]. rewrite bind_Ok_l.
  destruct (add_marker_columns_Ok intensities blobsarea blobsnuclei channels
              Hi Ha Hn Hlt
              (<["organoid-area" := area]> (base_summary cfg subFolder filename),
               base_fieldnames cfg ++ ["organoid-area"])) as [st' ->].
  rewrite bind_Ok_l. by eexists.
Qed.

Lemma count_pair_blank (cfg : config) (channels : list (string * nat))
    (A : list (option (list float))) (z : nat) (s : gmap string pyval) :
  2 < length channels -> A !! 1 = Some None ->
  count_pair cfg channels A z s = Raise TypeError.
Proof.
  intros Hlen H1. unfold count_pair.
  destruct channels as [|c0 [|[c1 x1] [|[c2 x2] rest]]];
    try (simpl in Hlen; lia).
  unfold exceeds, list_get. by rewrite H1.
Qed.

Lemma candidate_blank (cfg : config) (ij : imagej)
    (channels : list (string * nat)) (A : list (option (list float)))
    (z : nat) (area : float) (s : gmap string pyval) (ac : float) :
  (forall x, x ∈ channels.*2 -> measured ij A x) ->
  length (areaFractionThreshold cfg) = 5 ->
  2 < length channels -> A !! 1 = Some None ->
  z < length (areas ij) -> ready cfg channels s ->
  candidate cfg channels A z area (s, ac)
  = match classify cfg area with
    | Valid => Raise TypeError
    | _ => Ok (bump_all (hits cfg ij channels z area) s, ac)
    end.
Proof.
  intros HA Hthr Hlen H1 Hz Hs. unfold candidate, hits, classify.
  destruct (float_of_Z (tooBigThreshold cfg) <? area)%float.
  { rewrite incr_bump; [done|]. apply (ready_base cfg channels s); [done|].
    unfold base_counters. do 3 right. by left. }
  destruct (area <? float_of_Z (tooSmallThreshold cfg))%float.
  { rewrite incr_bump; [done|]. apply (ready_base cfg channels s); [done|].
    unfold base_counters. do 4 right. by left. }
  rewrite incr_bump, bind_Ok_l
    by (apply (ready_base cfg channels s); [done|];
        unfold base_counters; right; by left).
  unfold count_markers.
  rewrite (count_markers_hits cfg ij channels A HA Hthr); [|done|].
  2:{ intros c Hc. split.
      - apply list_elem_of_fmap. by exists c.
      - apply bump_is_int. by apply (ready_marker cfg channels). }
  rewrite bind_Ok_l, Z.add_0_l.
  set (s1 := bump_all (marker_hits cfg ij z channels) (bump "#nuclei" s)).
  assert (ready cfg channels s1) as Hs1.
  { apply ready_bump_all. by apply (ready_bump_all cfg channels ["#nuclei"]). }
  destruct (temp_of cfg ij z channels =? 0)%Z.
  - rewrite incr_bump, bind_Ok_l
      by (apply (ready_base cfg channels s1); [done|];
          unfold base_counters; do 2 right; by left).
    by rewrite count_pair_blank.
  - by rewrite bind_Ok_l, count_pair_blank.
Qed.

Lemma loop_blank (cfg : config) (ij : imagej)
    (channels : list (string * nat)) (A : list (option (list float)))
    (l : list float) (z : nat) (s : gmap string pyval) (ac : float) :
  (forall x, x ∈ channels.*2 -> measured ij A x) ->
  length (areaFractionThreshold cfg) = 5 ->
  2 < length channels -> A !! 1 = Some None ->
  z + length l <= length (areas ij) -> ready cfg channels s ->
  for_enumerate (candidate cfg channels A) z l (s, ac)
  = match filter (fun a => classify cfg a = Valid) l with
    | [] => Ok (bump_all (hits_from cfg ij channels z l) s, ac)
    | _ => Raise TypeError
    end.
Proof.
  intros HA Hthr Hlen H1. revert z s.
  induction l as [|a l IH]; intros z s Hz Hs; [done|].
  simpl in Hz. cbn [for_enumerate hits_from].
  rewrite (candidate_blank cfg ij channels A z a s ac HA Hthr Hlen H1)
    by (done || lia).
  rewrite filter_cons. destruct (classify cfg a) eqn:Ha.
  - by rewrite decide_True.
  - rewrite decide_False, bind_Ok_l, IH, bump_all_app;
      [done|lia|by apply ready_bump_all|done].
  - rewrite decide_False, bind_Ok_l, IH, bump_all_app;
      [done|lia|by apply ready_bump_all|done].
Qed.

(** X14. With more than two channels configured and none of index 1
    (the name of channel ch01 left empty), the colocalization test reads
    [areaFractionsArray[1]], which is [None]: the summary of an image with a
    valid particle is not built, [TypeError] is raised. An image without a
    valid particle is summarised. *)
Theorem blank_channel1_raises (py_round : float -> Z -> float)
    (cfg : config) (ij : imagej) (channels : list (string * nat))
    (subFolder filename : string) :
  Forall (fun c => c.2 < 5) channels ->
  2 < length channels ->
  1 ∉ channels.*2 ->
  length (areaFractionThreshold cfg) = 5 ->
  (valid_areas cfg ij ≠ [] ->
   summarise py_round cfg ij channels subFolder filename = Raise TypeError)
  /\ (valid_areas cfg ij = [] ->
      exists r, summarise py_round cfg ij channels subFolder filename = Ok r).
Proof.
  intros Hlt Hlen Hnot Hthr.
  assert (channels ≠ []) as Hne by (intros ->; simpl in Hlen; lia).
  destruct (measure_channels_spec ij channels Hlt)
    as (im & i & b & Hmc & Hi & Hb).
  destruct (measure_areaFractions_spec ij channels Hlt) as (A & HA & Hgood).
  destruct (measure_blobs_spec ij channels Hlt) as (ba & bn & Hmb & Hba & Hbn).
  destruct (init_summary_in_range cfg channels subFolder filename i b ba bn
              Hne Hlt Hi Hb Hba Hbn) as ([s0 f] & Hinit).
  destruct (init_summary_spec _ _ _ _ _ _ _ _ _ _ Hinit) as [_ Hlook].
  pose proof (init_summary_ready cfg channels s0 Hlook) as Hzero.
  assert (ready cfg channels s0) as Hready.
  { intros k Hk. exists 0%Z. by apply Hzero. }
  pose proof (measure_areaFractions_unset ij channels A 1 HA ltac:(lia) Hnot)
    as H1.
  unfold summarise. rewrite Hmc, bind_Ok_l, HA, bind_Ok_l, Hmb, bind_Ok_l.
  rewrite Hinit, bind_Ok_l.
  rewrite (loop_blank cfg ij channels A (areas ij) 0 s0 0%float
             Hgood Hthr Hlen H1) by (simpl; done).
  fold (valid_areas cfg ij). split.
  - intros Hvalid. by destruct (valid_areas cfg ij).
  - intros ->. rewrite bind_Ok_l. unfold size_average, dict_get.
    destruct (ready_bump_all cfg channels
                (hits_from cfg ij channels 0 (areas ij)) s0 Hready "#nuclei")
      as [n ->].
    { apply elem_of_app. left. unfold base_counters. right. by left. }
    rewrite bind_Ok_l. destruct (0 <? n)%Z; by eexists.
Qed.

Lemma blank_channel1_raises_witness :
  summarise round_half_away default_config three_particles
    (getChannels "Dapi" "" "MAP2" "SYN") "plate1" "well_ch00.tif"
  = Raise TypeError.
Proof.
  apply (blank_channel1_raises round_half_away default_config three_particles
           (getChannels "Dapi" "" "MAP2" "SYN") "plate1" "well_ch00.tif").
  - by apply (bool_decide_unpack _); vm_compute.
  - vm_compute. lia.
  - by apply (bool_decide_unpack _); vm_compute.
  - reflexivity.
  - by vm_compute.
Defined.

Lemma getChannels_ok (ch00 ch01 ch02 ch03 : string) :
  let channels := getChannels ch00 ch01 ch02 ch03 in
  channels ≠ [] ->
  (2 < length channels -> ch01 ≠ "" /\ ch02 ≠ "") ->
  channels_ok channels.
Proof.
  intros channels Hne H12.
  assert (forall v x, v ≠ "" ->
            (v, x) ∈ [(ch00, 0); (ch01, 1); (ch02, 2); (ch03, 3)] ->
            x ∈ channels.*2) as Hin.
  { intros v x Hv Hx. apply list_elem_of_fmap. exists (v, x). split; [done|].
    by apply list_elem_of_filter. }
  split_and!.
  - done.
  - eapply Forall_impl; [apply getChannels_lt|]. simpl. lia.
  - intros Hlen. destruct (H12 Hlen) as [H1 H2]. split.
    + apply (Hin ch01); [done|]. rewrite !elem_of_cons. auto.
    + apply (Hin ch02); [done|]. rewrite !elem_of_cons. auto.
  - intros Hlen. apply (Hin ch03); [|rewrite !elem_of_cons; auto].
    intros H3. subst channels. unfold getChannels in Hlen.
    rewrite !filter_cons, filter_nil in Hlen.
    rewrite (decide_False (P := (ch03, 3).1 ≠ "")) in Hlen
      by (intros H; by apply H).
    repeat case_decide; simpl in Hlen; lia.
Qed.

(** X25. When at least one channel is named and, with more than two
    named, ch01 and ch02 are among them, every subscript of [process] is in
    range: with the five thresholds of the source the summary of every
    image is built, whatever ImageJ measures. *)
Theorem named_channels_are_summarised (py_round : float -> Z -> float)
    (cfg : config) (ij : imagej) (subFolder filename : string)
    (ch00 ch01 ch02 ch03 : string) :
  let channels := getChannels ch00 ch01 ch02 ch03 in
  channels ≠ [] ->
  (2 < length channels -> ch01 ≠ "" /\ ch02 ≠ "") ->
  length (areaFractionThreshold cfg) = 5 ->
  exists summary fieldnames,
    summarise py_round cfg ij channels subFolder filename
    = Ok (summary, fieldnames).
Proof.
  intros channels Hne H12 Hthr.
  destruct (summarise_Ok py_round cfg ij channels subFolder filename)
    as [[summary fieldnames] Hrun]; [by apply getChannels_ok|done|].
  by exists summary, fieldnames.
Qed.

Lemma named_channels_are_summarised_witness :
  exists summary fieldnames,
    summarise round_half_away default_config three_particles
      (getChannels "" "pSYN" "MAP2" "SYN") "plate1" "well_ch00.tif"
    = Ok (summary, fieldnames).
Proof.
  apply (named_channels_are_summarised round_half_away default_config
           three_particles "plate1" "well_ch00.tif" "" "pSYN" "MAP2" "SYN").
  - discriminate.
  - intros _. split; discriminate.
  - reflexivity.
Defined.

(** ** The counters *)

(** X15. With pairwise distinct column names, the positive counter of
    every configured channel is the number of valid particles whose area
    fraction in that channel is strictly above [areaFractionThreshold[0]],
    the threshold of channel 0, whatever the threshold of the channel
    itself. *)
Theorem marker_counter_uses_first_threshold (py_round : float -> Z -> float)
    (cfg : config) (ij : imagej) (channels : list (string * nat))
    (subFolder filename : string) (v : string) (x : nat) :
  NoDup (positive_keys channels) ->
  (v, x) ∈ channels ->
  (channels_ok channels -> length (areaFractionThreshold cfg) = 5 ->
   exists r, summarise py_round cfg ij channels subFolder filename = Ok r)
  /\ (forall summary fieldnames,
        summarise py_round cfg ij channels subFolder filename
        = Ok (summary, fieldnames) ->
        summary !! (v +:+ "-positive")
        = Some (PyInt (Z.of_nat
            (count_particles
               (fun z a =>
                  is_valid cfg a
                  && (threshold cfg 0 <? areaFraction ij x z)%float) ij)))).
Proof.
  intros Hnd Hin. split; [apply summarise_Ok|].
  intros summary fieldnames (_ & Hc & _ & _)%summarise_sound.
  rewrite Hc.
  - rewrite (occurrences_hits_from cfg ij channels (v +:+ "-positive")
               (fun z a => is_valid cfg a && positive cfg ij 0 x z)); [done|].
    intros z a. by apply occurrences_marker.
  - apply elem_of_app. right. unfold positive_keys. apply elem_of_app. left.
    apply list_elem_of_fmap. by exists (v, x).
Qed.

Lemma marker_counter_uses_first_threshold_witness :
  exists summary fieldnames,
    summarise round_half_away graded_config layered_image four_markers
      "plate1" "well_ch00.tif" = Ok (summary, fieldnames)
    /\ summary !! "pSYN-positive" = Some (PyInt 1)
    /\ positive graded_config layered_image 1 1 0 = false.
Proof.
  destruct (marker_counter_uses_first_threshold round_half_away graded_config
              layered_image four_markers "plate1" "well_ch00.tif" "pSYN" 1)
    as [Hok Hsound].
  - by apply (bool_decide_unpack _); vm_compute.
  - by apply (bool_decide_unpack _); vm_compute.
  - destruct Hok as [[summary fieldnames] Hrun];
      [by apply (bool_decide_unpack _); vm_compute|reflexivity|].
    exists summary, fieldnames. split; [exact Hrun|]. split.
    + exact (Hsound summary fieldnames Hrun).
    + reflexivity.
Defined.


Lemma temp_of_nonneg (cfg : config) (ij : imagej) (z : nat)
    (chans : list (string * nat)) :
  (0 <= temp_of cfg ij z chans)%Z.
Proof.
  induction chans as [|c chans IH]; cbn [temp_of]; [done|].
  destruct (positive cfg ij 0 c.2 z && negb (c.2 =? 0)); lia.
Qed.

Lemma temp_of_zero (cfg : config) (ij : imagej) (z : nat)
    (chans : list (string * nat)) :
  (temp_of cfg ij z chans =? 0)%Z
  = forallb (fun c => (c.2 =? 0) || negb (positive cfg ij 0 c.2 z)) chans.
Proof.
  induction chans as [|c chans IH]; cbn [temp_of forallb]; [done|].
  rewrite <- IH. pose proof (temp_of_nonneg cfg ij z chans) as Hge.
  destruct (positive cfg ij 0 c.2 z), (c.2 =? 0); cbn [andb orb negb];
    rewrite ?Z.add_0_l; try done.
  apply Z.eqb_neq. lia.
Qed.

Lemma occurrences_all_negative (cfg : config) (ij : imagej)
    (channels : list (string * nat)) (z : nat) (a : float) :
  occurrences "all-negative" (hits cfg ij channels z a)
  = if is_valid cfg a
       && forallb (fun c => (c.2 =? 0) || negb (positive cfg ij 0 c.2 z))
            channels
    then 1 else 0.
Proof.
  assert ("all-negative" ∈ base_counters cfg) as Hbase
    by (unfold base_counters; do 2 right; by left).
  destruct (occurrences_positive_part cfg ij channels z "all-negative" Hbase)
    as (Hm & Hp & He).
  unfold hits, is_valid. destruct (classify cfg a) eqn:Hc.
  - rewrite bool_decide_true by done.
    rewrite occurrences_cons, !occurrences_app, Hm, Hp, He.
    rewrite decide_False by done. rewrite <- temp_of_zero.
    destruct (temp_of cfg ij z channels =? 0)%Z; [|done].
    by rewrite occurrences_single, decide_True.
  - rewrite bool_decide_false by done. rewrite occurrences_single.
    rewrite decide_False; [done|]. solve_key_neq.
  - rewrite bool_decide_false by done. rewrite occurrences_single.
    rewrite decide_False; [done|]. solve_key_neq.
Qed.

(** X16. ['all-negative'] is the number of valid particles for which no
    configured channel other than channel 0 has an area fraction strictly
    above [areaFractionThreshold[0]]. *)
Theorem all_negative_counts (py_round : float -> Z -> float) (cfg : config)
    (ij : imagej) (channels : list (string * nat))
    (subFolder filename : string) :
  (channels_ok channels -> length (areaFractionThreshold cfg) = 5 ->
   exists r, summarise py_round cfg ij channels subFolder filename = Ok r)
  /\ (forall summary fieldnames,
        summarise py_round cfg ij channels subFolder filename
        = Ok (summary, fieldnames) ->
        summary !! "all-negative"
        = Some (PyInt (Z.of_nat
            (count_particles
               (fun z a =>
                  is_valid cfg a
                  && forallb
                       (fun c =>
                          (c.2 =? 0)
                          || negb (threshold cfg 0 <? areaFraction ij c.2 z)%float)
                       channels) ij)))).
Proof.
  split; [apply summarise_Ok|].
  intros summary fieldnames (_ & Hc & _ & _)%summarise_sound.
  rewrite Hc by (apply elem_of_app; left; right; by left).
  by rewrite (occurrences_hits_from cfg ij channels "all-negative" _
                (occurrences_all_negative cfg ij channels)).
Qed.

Lemma all_negative_counts_witness :
  exists summary fieldnames,
    summarise round_half_away default_config boundary_particles four_markers
      "plate1" "well_ch00.tif" = Ok (summary, fieldnames)
    /\ summary !! "all-negative" = Some (PyInt 3).
Proof.
  destruct (all_negative_counts round_half_away default_config
              boundary_particles four_markers "plate1" "well_ch00.tif")
    as [Hok Hsound].
  destruct Hok as [[summary fieldnames] Hrun];
    [by apply (bool_decide_unpack _); vm_compute|reflexivity|].
  exists summary, fieldnames. split; [exact Hrun|].
  exact (Hsound summary fieldnames Hrun).
Defined.


Lemma occurrences_colocalization (cfg : config) (ij : imagej)
    (channels : list (string * nat)) (z : nat) (a : float) (k : string) :
  NoDup (positive_keys channels) ->
  k ∈ colocalization_columns channels ->
  occurrences k (hits cfg ij channels z a)
  = if is_valid cfg a
    then occurrences k (pair_hits cfg ij channels z
                        ++ extended_hits cfg ij channels z)
    else 0.
Proof.
  intros Hnd Hk. unfold positive_keys in Hnd.
  apply NoDup_app in Hnd as (_ & Hdisj & _).
  assert (k ∉ (fun c : string * nat => c.1 +:+ "-positive") <$> channels)
    as Hm by (intros Hin; by apply (Hdisj _ Hin)).
  assert (exists w, k = w +:+ "-positive") as [w ->].
  { apply (positive_keys_form channels). unfold positive_keys.
    apply elem_of_app. by right. }
  unfold hits, is_valid. destruct (classify cfg a) eqn:Hc.
  - rewrite bool_decide_true by done.
    rewrite occurrences_cons, !occurrences_app.
    rewrite decide_False by solve_key_neq.
    rewrite (occurrences_marker_hits_other cfg ij z _ _ Hm).
    destruct (temp_of cfg ij z channels =? 0)%Z; [|done].
    rewrite occurrences_single, decide_False; [done|]. solve_key_neq.
  - rewrite bool_decide_false by done. rewrite occurrences_single.
    rewrite decide_False; [done|]. solve_key_neq.
  - rewrite bool_decide_false by done. rewrite occurrences_single.
    rewrite decide_False; [done|]. solve_key_neq.
Qed.

Lemma occurrences_pair12 (cfg : config) (ij : imagej) (c0 : string * nat)
    (m1 m2 : string) (x1 x2 : nat) (rest : list (string * nat))
    (z : nat) (a : float) :
  let channels := c0 :: (m1, x1) :: (m2, x2) :: rest in
  NoDup (positive_keys channels) ->
  occurrences (pair_key m1 m2) (hits cfg ij channels z a)
  = if is_valid cfg a && (positive cfg ij 1 1 z && positive cfg ij 2 2 z)
    then 1 else 0.
Proof.
  intros channels Hnd.
  rewrite (occurrences_colocalization cfg ij channels z a _ Hnd)
    by (subst channels; simpl; apply list_elem_of_here).
  destruct (is_valid cfg a); [|done]. cbn [andb].
  unfold positive_keys in Hnd. apply NoDup_app in Hnd as (_ & _ & Hcol).
  subst channels. unfold pair_hits, extended_hits.
  destruct rest as [|[m3 x3] rest].
  - rewrite app_nil_r.
    destruct (positive cfg ij 1 1 z && positive cfg ij 2 2 z); [|done].
    by rewrite occurrences_single, decide_True.
  - simpl in Hcol.
    apply NoDup_cons in Hcol as [H12 _].
    rewrite !elem_of_cons, elem_of_nil in H12.
    destruct (positive cfg ij 1 1 z), (positive cfg ij 2 2 z),
      (positive cfg ij 3 3 z); cbn [andb app];
      rewrite ?occurrences_cons, ?occurrences_nil;
      repeat case_decide; first [ done | exfalso; apply H12; auto ].
Qed.

Lemma occurrences_extended (cfg : config) (ij : imagej) (c0 : string * nat)
    (m1 m2 m3 : string) (x1 x2 x3 : nat) (rest : list (string * nat))
    (z : nat) (a : float) :
  let channels := c0 :: (m1, x1) :: (m2, x2) :: (m3, x3) :: rest in
  NoDup (positive_keys channels) ->
  occurrences (pair_key m1 m3) (hits cfg ij channels z a)
  = (if is_valid cfg a && (positive cfg ij 1 1 z && positive cfg ij 3 3 z)
     then 1 else 0)
  /\ occurrences (pair_key m2 m3) (hits cfg ij channels z a)
     = (if is_valid cfg a && (positive cfg ij 2 2 z && positive cfg ij 3 3 z)
        then 1 else 0)
  /\ occurrences (triple_key m1 m2 m3) (hits cfg ij channels z a)
     = (if is_valid cfg a
           && (positive cfg ij 2 2 z && positive cfg ij 3 3 z)
           && positive cfg ij 1 1 z
        then 1 else 0).
Proof.
  intros channels Hnd.
  rewrite !(occurrences_colocalization cfg ij channels z a _ Hnd)
    by (subst channels; simpl; rewrite !elem_of_cons; auto).
  unfold positive_keys in Hnd. apply NoDup_app in Hnd as (_ & _ & Hcol).
  subst channels. simpl in Hcol.
  apply NoDup_cons in Hcol as [H12 Hcol].
  apply NoDup_cons in Hcol as [H13 Hcol].
  apply NoDup_cons in Hcol as [H23 _].
  rewrite !elem_of_cons, elem_of_nil in H12.
  rewrite !elem_of_cons, elem_of_nil in H13.
  rewrite !elem_of_cons, elem_of_nil in H23.
  assert (pair_key m1 m2 ≠ pair_key m1 m3) as N1 by tauto.
  assert (pair_key m1 m2 ≠ pair_key m2 m3) as N2 by tauto.
  assert (pair_key m1 m2 ≠ triple_key m1 m2 m3) as N3 by tauto.
  assert (pair_key m1 m3 ≠ pair_key m2 m3) as N4 by tauto.
  assert (pair_key m1 m3 ≠ triple_key m1 m2 m3) as N5 by tauto.
  assert (pair_key m2 m3 ≠ triple_key m1 m2 m3) as N6 by tauto.
  clear H12 H13 H23.
  unfold pair_hits, extended_hits.
  destruct (is_valid cfg a); [|done].
  split_and!;
    destruct (positive cfg ij 1 1 z), (positive cfg ij 2 2 z),
      (positive cfg ij 3 3 z); cbn [andb app];
    rewrite ?occurrences_cons, ?occurrences_nil;
    repeat case_decide; first [ done | congruence ].
Qed.

Lemma colocalization_counter (cfg : config) (ij : imagej)
    (channels : list (string * nat)) (summary : gmap string pyval)
    (k : string) (P : nat -> float -> bool) :
  (forall k,
     k ∈ ["#nuclei"; "all-negative"; too_big_key cfg; too_small_key cfg]
         ++ positive_keys channels ->
     summary !! k
     = Some (PyInt (Z.of_nat
         (occurrences k (hits_from cfg ij channels 0 (areas ij)))))) ->
  k ∈ colocalization_columns channels ->
  (forall z a, occurrences k (hits cfg ij channels z a)
               = if P z a then 1 else 0) ->
  summary !! k = Some (PyInt (Z.of_nat (count_particles P ij))).
Proof.
  intros Hc Hk HP. rewrite Hc.
  - by rewrite (occurrences_hits_from cfg ij channels k P HP).
  - apply elem_of_app. right. unfold positive_keys. apply elem_of_app.
    by right.
Qed.

(** X17. With at least three channels and pairwise distinct column
    names, the counter named after the second and third channel of the list
    is the number of valid particles whose area fractions in channel 1 and
    in channel 2 are strictly above the thresholds of channels 1 and 2:
    the names come from the positions in the list, the measurements from
    the channel indexes 1 and 2. *)
Theorem pair_counter_counts (py_round : float -> Z -> float) (cfg : config)
    (ij : imagej) (subFolder filename : string) (c0 : string * nat)
    (m1 m2 : string) (x1 x2 : nat) (rest : list (string * nat)) :
  let channels := c0 :: (m1, x1) :: (m2, x2) :: rest in
  NoDup (positive_keys channels) ->
  (channels_ok channels -> length (areaFractionThreshold cfg) = 5 ->
   exists r, summarise py_round cfg ij channels subFolder filename = Ok r)
  /\ (forall summary fieldnames,
        summarise py_round cfg ij channels subFolder filename
        = Ok (summary, fieldnames) ->
        summary !! pair_key m1 m2
        = Some (PyInt (Z.of_nat
            (count_particles
               (fun z a =>
                  is_valid cfg a
                  && ((threshold cfg 1 <? areaFraction ij 1 z)%float
                      && (threshold cfg 2 <? areaFraction ij 2 z)%float))
               ij)))).
Proof.
  intros channels Hnd. split; [apply summarise_Ok|].
  intros summary fieldnames (_ & Hc & _ & _)%summarise_sound.
  apply (colocalization_counter cfg ij channels summary _ _ Hc).
  - subst channels. simpl. apply list_elem_of_here.
  - intros z a. by apply occurrences_pair12.
Qed.

Lemma pair_counter_counts_witness :
  exists summary fieldnames,
    summarise round_half_away default_config asymmetric_particles four_markers
      "plate1" "well_ch00.tif" = Ok (summary, fieldnames)
    /\ summary !! "pSYN-MAP2-positive" = Some (PyInt 1).
Proof.
  destruct (pair_counter_counts round_half_away default_config
              asymmetric_particles "plate1" "well_ch00.tif"
              ("Dapi", 0) "pSYN" "MAP2" 1 2 [("SYN", 3)])
    as [Hok Hsound].
  - by apply (bool_decide_unpack _); vm_compute.
  - destruct Hok as [[summary fieldnames] Hrun];
      [by apply (bool_decide_unpack _); vm_compute|reflexivity|].
    exists summary, fieldnames. split; [exact Hrun|].
    exact (Hsound summary fieldnames Hrun).
Defined.


(** X18. With at least four channels and pairwise distinct column
    names, the counters named after the second and fourth, and after the
    third and fourth channel of the list are the numbers of valid particles
    with channels 1 and 3, respectively 2 and 3, strictly above their own
    thresholds. *)
Theorem extended_pair_counters_count (py_round : float -> Z -> float)
    (cfg : config) (ij : imagej) (subFolder filename : string)
    (c0 : string * nat) (m1 m2 m3 : string) (x1 x2 x3 : nat)
    (rest : list (string * nat)) :
  let channels := c0 :: (m1, x1) :: (m2, x2) :: (m3, x3) :: rest in
  NoDup (positive_keys channels) ->
  (channels_ok channels -> length (areaFractionThreshold cfg) = 5 ->
   exists r, summarise py_round cfg ij channels subFolder filename = Ok r)
  /\ (forall summary fieldnames,
        summarise py_round cfg ij channels subFolder filename
        = Ok (summary, fieldnames) ->
        summary !! pair_key m1 m3
        = Some (PyInt (Z.of_nat
            (count_particles
               (fun z a =>
                  is_valid cfg a
                  && ((threshold cfg 1 <? areaFraction ij 1 z)%float
                      && (threshold cfg 3 <? areaFraction ij 3 z)%float))
               ij)))
        /\ summary !! pair_key m2 m3
           = Some (PyInt (Z.of_nat
               (count_particles
                  (fun z a =>
                     is_valid cfg a
                     && ((threshold cfg 2 <? areaFraction ij 2 z)%float
                         && (threshold cfg 3 <? areaFraction ij 3 z)%float))
                  ij)))).
Proof.
  intros channels Hnd. split; [apply summarise_Ok|].
  intros summary fieldnames (_ & Hc & _ & _)%summarise_sound.
  split.
  - apply (colocalization_counter cfg ij channels summary _ _ Hc).
    + subst channels. simpl. rewrite !elem_of_cons. auto.
    + intros z a.
      by destruct (occurrences_extended cfg ij c0 m1 m2 m3 x1 x2 x3 rest z a
                     Hnd) as (? & ? & ?).
  - apply (colocalization_counter cfg ij channels summary _ _ Hc).
    + subst channels. simpl. rewrite !elem_of_cons. auto.
    + intros z a.
      by destruct (occurrences_extended cfg ij c0 m1 m2 m3 x1 x2 x3 rest z a
                     Hnd) as (? & ? & ?).
Qed.

Lemma extended_pair_counters_count_witness :
  exists summary fieldnames,
    summarise round_half_away default_config asymmetric_particles four_markers
      "plate1" "well_ch00.tif" = Ok (summary, fieldnames)
    /\ summary !! "pSYN-SYN-positive" = Some (PyInt 2)
    /\ summary !! "MAP2-SYN-positive" = Some (PyInt 1).
Proof.
  destruct (extended_pair_counters_count round_half_away default_config
              asymmetric_particles "plate1" "well_ch00.tif"
              ("Dapi", 0) "pSYN" "MAP2" "SYN" 1 2 3 [])
    as [Hok Hsound].
  - by apply (bool_decide_unpack _); vm_compute.
  - destruct Hok as [[summary fieldnames] Hrun];
      [by apply (bool_decide_unpack _); vm_compute|reflexivity|].
    exists summary, fieldnames. split; [exact Hrun|].
    exact (Hsound summary fieldnames Hrun).
Defined.


Lemma occurrences_hits_from_le (cfg : config) (ij : imagej)
    (channels : list (string * nat)) (k k' : string) :
  (forall z a, occurrences k (hits cfg ij channels z a)
               <= occurrences k' (hits cfg ij channels z a)) ->
  forall z l,
    occurrences k (hits_from cfg ij channels z l)
    <= occurrences k' (hits_from cfg ij channels z l).
Proof.
  intros Hle z l. revert z. induction l as [|a l IH]; intros z; [done|].
  cbn [hits_from]. rewrite !occurrences_app.
  specialize (Hle z a). specialize (IH (S z)). lia.
Qed.

Lemma occurrences_le_nuclei (cfg : config) (ij : imagej)
    (channels : list (string * nat)) (k : string) (z : nat) (a : float) :
  NoDup (positive_keys channels) ->
  k ∈ "all-negative" :: positive_keys channels ->
  occurrences k (hits cfg ij channels z a)
  <= occurrences "#nuclei" (hits cfg ij channels z a).
Proof.
  intros Hnd Hk. rewrite occurrences_nuclei.
  apply elem_of_cons in Hk as [->|Hk].
  { rewrite occurrences_all_negative. destruct (is_valid cfg a); cbn [andb]; [|lia]. destruct (forallb _ _); lia. }
  unfold positive_keys in Hk. apply elem_of_app in Hk as [Hk|Hk].
  { apply list_elem_of_fmap in Hk as ([v x] & -> & Hin). cbn [fst].
    rewrite (occurrences_marker cfg ij channels v x z a Hnd Hin).
    destruct (is_valid cfg a); cbn [andb]; [|lia].
    destruct (positive cfg ij 0 x z); lia. }
  destruct channels as [|c0 [|[m1 x1] [|[m2 x2] rest]]];
    try (by apply elem_of_nil in Hk).
  destruct rest as [|[m3 x3] rest].
  - apply list_elem_of_singleton in Hk as ->.
    rewrite (occurrences_pair12 cfg ij c0 m1 m2 x1 x2 [] z a Hnd).
    destruct (is_valid cfg a); cbn [andb]; [|lia].
    destruct (_ && _); lia.
  - destruct (occurrences_extended cfg ij c0 m1 m2 m3 x1 x2 x3 rest z a Hnd)
      as (H13 & H23 & H123).
    pose proof (occurrences_pair12 cfg ij c0 m1 m2 x1 x2 ((m3, x3) :: rest)
                  z a Hnd) as H12.
    simpl in Hk. rewrite !elem_of_cons, elem_of_nil in Hk.
    destruct Hk as [-> | [-> | [-> | [-> | []]]]];
      rewrite ?H12, ?H13, ?H23, ?H123;
      (destruct (is_valid cfg a); cbn [andb]; [|lia]);
      repeat match goal with |- context [if ?b then _ else _] =>
               destruct b end; lia.
Qed.

(** X19. With pairwise distinct column names, ['all-negative'] and every
    positive counter, of a channel or of a colocalization, is at most
    ['#nuclei'], which is at most the number of particles of the image. *)
Theorem counters_bounded_by_nuclei (py_round : float -> Z -> float)
    (cfg : config) (ij : imagej) (channels : list (string * nat))
    (subFolder filename : string) (k : string) :
  NoDup (positive_keys channels) ->
  k ∈ "all-negative" :: positive_keys channels ->
  (channels_ok channels -> length (areaFractionThreshold cfg) = 5 ->
   exists r, summarise py_round cfg ij channels subFolder filename = Ok r)
  /\ (forall summary fieldnames,
        summarise py_round cfg ij channels subFolder filename
        = Ok (summary, fieldnames) ->
        exists n nuclei : nat,
          summary !! k = Some (PyInt (Z.of_nat n))
          /\ summary !! "#nuclei" = Some (PyInt (Z.of_nat nuclei))
          /\ n <= nuclei <= length (areas ij)).
Proof.
  intros Hnd Hk. split; [apply summarise_Ok|].
  intros summary fieldnames (_ & Hc & _ & _)%summarise_sound.
  exists (occurrences k (hits_from cfg ij channels 0 (areas ij))),
    (occurrences "#nuclei" (hits_from cfg ij channels 0 (areas ij))).
  split_and!.
  - apply Hc. apply elem_of_cons in Hk as [->|Hk].
    + apply elem_of_app. left. right. by left.
    + apply elem_of_app. by right.
  - apply Hc. apply elem_of_app. left. by left.
  - apply occurrences_hits_from_le. intros z a.
    by apply occurrences_le_nuclei.
  - rewrite (occurrences_hits_from cfg ij channels "#nuclei"
               (fun _ a => is_valid cfg a) (occurrences_nuclei cfg ij channels)).
    unfold is_valid. rewrite count_from_class. apply length_filter.
Qed.

Lemma counters_bounded_by_nuclei_witness :
  exists summary fieldnames (n nuclei : nat),
    summarise round_half_away default_config asymmetric_particles four_markers
      "plate1" "well_ch00.tif" = Ok (summary, fieldnames)
    /\ summary !! "pSYN-MAP2-positive" = Some (PyInt (Z.of_nat n))
    /\ summary !! "#nuclei" = Some (PyInt (Z.of_nat nuclei))
    /\ n <= nuclei <= 2.
Proof.
  destruct (counters_bounded_by_nuclei round_half_away default_config
              asymmetric_particles four_markers "plate1" "well_ch00.tif"
              "pSYN-MAP2-positive")
    as [Hok Hsound].
  - by apply (bool_decide_unpack _); vm_compute.
  - by apply (bool_decide_unpack _); vm_compute.
  - destruct Hok as [[summary fieldnames] Hrun];
      [by apply (bool_decide_unpack _); vm_compute|reflexivity|].
    destruct (Hsound summary fieldnames Hrun) as (n & nuclei & Hn & Hnuc & Hle).
    exists summary, fieldnames, n, nuclei.
    split_and!; [exact Hrun|exact Hn|exact Hnuc|exact (proj1 Hle)|exact (proj2 Hle)].
Defined.


(** X20. With at least four channels and pairwise distinct column
    names, the triple counter is at most each of the three pair
    counters. *)
Theorem triple_bounded_by_pairs (py_round : float -> Z -> float)
    (cfg : config) (ij : imagej) (subFolder filename : string)
    (c0 : string * nat) (m1 m2 m3 : string) (x1 x2 x3 : nat)
    (rest : list (string * nat)) :
  let channels := c0 :: (m1, x1) :: (m2, x2) :: (m3, x3) :: rest in
  NoDup (positive_keys channels) ->
  (channels_ok channels -> length (areaFractionThreshold cfg) = 5 ->
   exists r, summarise py_round cfg ij channels subFolder filename = Ok r)
  /\ (forall summary fieldnames,
        summarise py_round cfg ij channels subFolder filename
        = Ok (summary, fieldnames) ->
        exists n12 n13 n23 n123 : nat,
          summary !! pair_key m1 m2 = Some (PyInt (Z.of_nat n12))
          /\ summary !! pair_key m1 m3 = Some (PyInt (Z.of_nat n13))
          /\ summary !! pair_key m2 m3 = Some (PyInt (Z.of_nat n23))
          /\ summary !! triple_key m1 m2 m3 = Some (PyInt (Z.of_nat n123))
          /\ n123 <= n12 /\ n123 <= n13 /\ n123 <= n23).
Proof.
  intros channels Hnd. split; [apply summarise_Ok|].
  intros summary fieldnames (_ & Hc & _ & _)%summarise_sound.
  assert (forall k, k ∈ colocalization_columns channels ->
            summary !! k
            = Some (PyInt (Z.of_nat
                (occurrences k (hits_from cfg ij channels 0 (areas ij))))))
    as Hcol.
  { intros k Hk. apply Hc. apply elem_of_app. right. unfold positive_keys.
    apply elem_of_app. by right. }
  eexists _, _, _, _.
  split_and!;
    [apply Hcol; subst channels; simpl; rewrite !elem_of_cons; auto..| | |];
    apply occurrences_hits_from_le; intros z a;
    destruct (occurrences_extended cfg ij c0 m1 m2 m3 x1 x2 x3 rest z a Hnd)
      as (H13 & H23 & H123);
    pose proof (occurrences_pair12 cfg ij c0 m1 m2 x1 x2 ((m3, x3) :: rest)
                  z a Hnd) as H12;
    fold channels in H12, H13, H23, H123;
    rewrite ?H12, ?H13, ?H23, ?H123;
    destruct (is_valid cfg a), (positive cfg ij 1 1 z),
      (positive cfg ij 2 2 z), (positive cfg ij 3 3 z); simpl; lia.
Qed.

Lemma triple_bounded_by_pairs_witness :
  exists summary fieldnames (n23 n123 : nat),
    summarise round_half_away default_config asymmetric_particles four_markers
      "plate1" "well_ch00.tif" = Ok (summary, fieldnames)
    /\ summary !! "MAP2-SYN-positive" = Some (PyInt (Z.of_nat n23))
    /\ summary !! "pSYN-MAP2-SYN-positive" = Some (PyInt (Z.of_nat n123))
    /\ n123 <= n23.
Proof.
  destruct (triple_bounded_by_pairs round_half_away default_config
              asymmetric_particles "plate1" "well_ch00.tif"
              ("Dapi", 0) "pSYN" "MAP2" "SYN" 1 2 3 [])
    as [Hok Hsound].
  - by apply (bool_decide_unpack _); vm_compute.
  - destruct Hok as [[summary fieldnames] Hrun];
      [by apply (bool_decide_unpack _); vm_compute|reflexivity|].
    destruct (Hsound summary fieldnames Hrun)
      as (n12 & n13 & n23 & n123 & _ & _ & H23 & H123 & _ & _ & Hle).
    exists summary, fieldnames, n23, n123.
    split_and!; [exact Hrun|exact H23|exact H123|exact Hle].
Defined.


Lemma occurrences_hits_from_add (cfg : config) (ij : imagej)
    (channels : list (string * nat)) (k1 k2 k3 : string) :
  (forall z a, occurrences k1 (hits cfg ij channels z a)
               + occurrences k2 (hits cfg ij channels z a)
               = occurrences k3 (hits cfg ij channels z a)) ->
  forall z l,
    occurrences k1 (hits_from cfg ij channels z l)
    + occurrences k2 (hits_from cfg ij channels z l)
    = occurrences k3 (hits_from cfg ij channels z l).
Proof.
  intros Hadd z l. revert z. induction l as [|a l IH]; intros z; [done|].
  cbn [hits_from]. rewrite !occurrences_app.
  specialize (Hadd z a). specialize (IH (S z)). lia.
Qed.

(** X21. With channel 0 and one marker configured, under different
    names, every valid particle is counted once, as all-negative or as
    positive for the marker: the two counters add up to ['#nuclei']. *)
Theorem single_marker_partition (py_round : float -> Z -> float)
    (cfg : config) (ij : imagej) (subFolder filename : string)
    (m0 m1 : string) (x1 : nat) :
  let channels := [(m0, 0); (m1, x1)] in
  m0 ≠ m1 -> x1 ≠ 0 ->
  (x1 < 5 -> length (areaFractionThreshold cfg) = 5 ->
   exists r, summarise py_round cfg ij channels subFolder filename = Ok r)
  /\ (forall summary fieldnames,
        summarise py_round cfg ij channels subFolder filename
        = Ok (summary, fieldnames) ->
        exists negative positive nuclei : nat,
          summary !! "all-negative" = Some (PyInt (Z.of_nat negative))
          /\ summary !! (m1 +:+ "-positive")
             = Some (PyInt (Z.of_nat positive))
          /\ summary !! "#nuclei" = Some (PyInt (Z.of_nat nuclei))
          /\ negative + positive = nuclei).
Proof.
  intros channels Hne Hx1.
  assert (NoDup (positive_keys channels)) as Hnd.
  { subst channels. unfold positive_keys. simpl.
    apply NoDup_cons. split; [|apply NoDup_singleton].
    intros Heq%list_elem_of_singleton. by apply marker_suffix_inj in Heq. }
  split.
  { intros Hlt Hthr. apply summarise_Ok; [|done]. split_and!.
    - done.
    - subst channels.
      repeat first [apply Forall_nil_2 | apply Forall_cons_2; [simpl; lia|]].
    - simpl. lia.
    - simpl. lia. }
  intros summary fieldnames (_ & Hc & _ & _)%summarise_sound.
  eexists _, _, _. split_and!.
  - apply Hc. apply elem_of_app. left. right. by left.
  - apply Hc. apply elem_of_app. right. subst channels. unfold positive_keys.
    simpl. right. by left.
  - apply Hc. apply elem_of_app. left. by left.
  - apply occurrences_hits_from_add. intros z a.
    rewrite occurrences_all_negative, occurrences_nuclei.
    rewrite (occurrences_marker cfg ij channels m1 x1 z a Hnd)
      by (subst channels; right; by left).
    subst channels. cbn [forallb snd Nat.eqb orb andb].
    apply Nat.eqb_neq in Hx1. rewrite Hx1. cbn [orb].
    destruct (is_valid cfg a), (positive cfg ij 0 x1 z); simpl; lia.
Qed.

Lemma single_marker_partition_witness :
  exists summary fieldnames (negative positive nuclei : nat),
    summarise round_half_away default_config gated_particles two_markers
      "plate1" "well_ch00.tif" = Ok (summary, fieldnames)
    /\ summary !! "all-negative" = Some (PyInt (Z.of_nat negative))
    /\ summary !! "pSYN-positive" = Some (PyInt (Z.of_nat positive))
    /\ summary !! "#nuclei" = Some (PyInt (Z.of_nat nuclei))
    /\ negative + positive = nuclei.
Proof.
  destruct (single_marker_partition round_half_away default_config
              gated_particles "plate1" "well_ch00.tif" "Dapi" "pSYN" 1)
    as [Hok Hsound].
  - discriminate.
  - lia.
  - destruct Hok as [[summary fieldnames] Hrun]; [lia|reflexivity|].
    destruct (Hsound summary fieldnames Hrun)
      as (negative & positive & nuclei & Hneg & Hpos & Hnuc & Hsum).
    exists summary, fieldnames, negative, positive, nuclei.
    split_and!; [exact Hrun|exact Hneg|exact Hpos|exact Hnuc|exact Hsum].
Defined.

(** ** The batch *)

Section BatchFacts.
Variable py_round : float -> Z -> float.
Variable py_float : string -> result float.
Variable cfg : config.
Variable images : string -> string -> float -> list Z -> imagej.

Lemma process_row (ij : imagej) (channels : list (string * nat))
    (subFolder filename : string) (csvfile : list (list pyval)) :
  channels_ok channels -> length (areaFractionThreshold cfg) = 5 ->
  process py_round cfg ij channels subFolder filename csvfile
  = Ok (match csvfile with
        | [] => [header_of cfg channels]
        | _ => csvfile
        end ++ [row_of py_round cfg ij channels subFolder filename]).
Proof using.
  intros Hch Hthr. unfold process, row_of.
  destruct (summarise_Ok py_round cfg ij channels subFolder filename Hch Hthr)
    as [[summary fieldnames] Hrun].
  rewrite Hrun, bind_Ok_l.
  apply summarise_sound in Hrun as (-> & _). done.
Qed.

Lemma run_images_rows (lowerBounds : list Z) (d : subfolder)
    (pixel_length : float) (filenames : list string)
    (files : gmap string (list (list pyval))) :
  Calibration.pixel_length py_float (xml_files d) = Ok pixel_length ->
  channels_ok (channels_of d) -> length (areaFractionThreshold cfg) = 5 ->
  run_images py_round py_float cfg images lowerBounds d filenames files
  = (match matching filenames with
     | [] => files
     | _ =>
         <[outputName d :=
             match default [] (files !! outputName d) with
             | [] => [header_of cfg (channels_of d)]
             | csvfile => csvfile
             end
             ++ ((fun f =>
                    row_of py_round cfg
                      (images (subFolder_name d) f pixel_length lowerBounds)
                      (channels_of d) (subFolder_name d) f)
                 <$> matching filenames)]> files
     end, None).
Proof using.
  intros Hpl Hch Hthr. revert files.
  induction filenames as [|f l IH]; intros files; [done|].
  cbn [run_images]. unfold matching. rewrite filter_cons.
  fold (matching l).
  destruct (endswith f "ch00.tif") eqn:Hf.
  - rewrite decide_True by done.
    unfold process_image. rewrite Hpl, bind_Ok_l.
    rewrite process_row by done. rewrite IH.
    rewrite lookup_insert_eq. cbn [default].
    destruct (default [] (files !! outputName d)) as [|r0 rows0];
      destruct (matching l) as [|g l'] eqn:Hl;
      simpl; rewrite ?insert_insert_eq, <- ?app_assoc; done.
  - rewrite decide_False by done. apply IH.
Qed.

Lemma run_images_file (lowerBounds : list Z) (d : subfolder)
    (filenames : list string) (files : gmap string (list (list pyval))) :
  is_Some (files !! outputName d) ->
  exists csvfile,
    (run_images py_round py_float cfg images lowerBounds d filenames files).1
    = <[outputName d := csvfile]> files.
Proof using.
  revert files. induction filenames as [|f l IH]; intros files [rows Hrows].
  - exists rows. simpl. by rewrite insert_id.
  - cbn [run_images]. destruct (endswith f "ch00.tif"); [|by apply IH].
    destruct (process_image _ _ _ _ _ _ _ _) as [csvfile|e].
    + destruct (IH (<[outputName d := csvfile]> files)) as [csvfile' ->].
      { rewrite lookup_insert_eq. by eexists. }
      exists csvfile'. by rewrite insert_insert_eq.
    + exists rows. simpl. by rewrite insert_id.
Qed.

Lemma run_subfolder_file (thresholds : gmap string string) (d : subfolder)
    (files : gmap string (list (list pyval))) :
  exists csvfile,
    (run_subfolder py_round py_float cfg images thresholds d files).1
    = <[outputName d := csvfile]> files.
Proof using.
  unfold run_subfolder.
  destruct (resolve_lowerBounds thresholds (channels_of d)) as [lb|e].
  - destruct (run_images_file lb d (listing d) (<[outputName d := []]> files))
      as [csvfile ->].
    { rewrite lookup_insert_eq. by eexists. }
    exists csvfile. by rewrite insert_insert_eq.
  - by exists [].
Qed.

(** Whether an image raises does not depend on what the csv file holds. *)
Lemma process_image_Raise (lowerBounds : list Z) (d : subfolder)
    (filename : string) (csvfile csvfile' : list (list pyval)) (e : exn) :
  process_image py_round py_float cfg images lowerBounds d filename csvfile
  = Raise e ->
  process_image py_round py_float cfg images lowerBounds d filename csvfile'
  = Raise e.
Proof using.
  unfold process_image, process.
  destruct (Calibration.pixel_length py_float (xml_files d)) as [pl|e'];
    [|done].
  rewrite !bind_Ok_l.
  by destruct (summarise _ _ _ _ _ _) as [[summary fieldnames]|e'].
Qed.

Lemma run_images_stops (lowerBounds : list Z) (d : subfolder)
    (before after : list string) (f : string)
    (files : gmap string (list (list pyval))) (e : exn) :
  (run_images py_round py_float cfg images lowerBounds d before files).2
  = None ->
  endswith f "ch00.tif" = true ->
  process_image py_round py_float cfg images lowerBounds d f [] = Raise e ->
  run_images py_round py_float cfg images lowerBounds d (before ++ f :: after)
    files
  = ((run_images py_round py_float cfg images lowerBounds d before files).1,
     Some e).
Proof using.
  intros Hbefore Hf He. revert files Hbefore.
  induction before as [|g l IH]; intros files Hbefore.
  - cbn [app run_images].
    by rewrite Hf, (process_image_Raise _ _ _ [] _ e He).
  - cbn [app run_images] in *.
    destruct (endswith g "ch00.tif"); [|by apply IH].
    destruct (process_image py_round py_float cfg images lowerBounds d g _)
      as [csvfile|e']; [by apply IH|done].
Qed.

End BatchFacts.

Lemma summarise_identity (py_round : float -> Z -> float) (cfg : config)
    (ij : imagej) (channels : list (string * nat))
    (subFolder filename : string) (summary : gmap string pyval)
    (fieldnames : list string) :
  summarise py_round cfg ij channels subFolder filename
  = Ok (summary, fieldnames) ->
  writerow fieldnames summary !! 1 = Some (PyStr subFolder)
  /\ writerow fieldnames summary !! 2 = Some (PyStr filename)
  /\ length (writerow fieldnames summary) = length (header_of cfg channels).
Proof.
  intros Hrun.
  pose proof (summarise_sound _ _ _ _ _ _ _ _ Hrun) as (Hf & _).
  apply summarise_stages in Hrun
    as (im & i & b & ba & bn & s0 & _ & _ & Hinit & Hsame).
  apply init_summary_values in Hinit as (Hdir & Himg & _).
  split_and!.
  - apply writerow_lookup with (f := "Directory"); [by rewrite Hf|].
    rewrite Hsame; [done|]. right. by left.
  - apply writerow_lookup with (f := "Image"); [by rewrite Hf|].
    rewrite Hsame; [done|]. by left.
  - unfold writerow, header_of. by rewrite !length_fmap, Hf.
Qed.

(** X22. For a sub-folder whose pixel length and lower bounds are resolved
    and whose channel list has its subscripts in range, the run over the
    sub-folder raises nothing and leaves, under the output name, the header
    followed by one row per listed file that ends in ["ch00.tif"], in the
    order of the listing, whatever the file held before; the file is empty
    when no listed file qualifies. Every other file is left as it was. The
    row of a file names the sub-folder and the file and is as long as the
    header. *)
Theorem subfolder_rows (py_round : float -> Z -> float)
    (py_float : string -> result float) (cfg : config)
    (images : string -> string -> float -> list Z -> imagej)
    (thresholds : gmap string string) (d : subfolder)
    (pixel_length : float) (lowerBounds : list Z)
    (files : gmap string (list (list pyval))) :
  Calibration.pixel_length py_float (xml_files d) = Ok pixel_length ->
  channels_ok (channels_of d) ->
  length (areaFractionThreshold cfg) = 5 ->
  resolve_lowerBounds thresholds (channels_of d) = Ok lowerBounds ->
  let row f :=
    row_of py_round cfg
      (images (subFolder_name d) f pixel_length lowerBounds)
      (channels_of d) (subFolder_name d) f in
  run_subfolder py_round py_float cfg images thresholds d files
  = (<[outputName d :=
         match matching (listing d) with
         | [] => []
         | filenames => header_of cfg (channels_of d) :: (row <$> filenames)
         end]> files, None)
  /\ (forall f, f ∈ matching (listing d) ->
        row f !! 1 = Some (PyStr (subFolder_name d))
        /\ row f !! 2 = Some (PyStr f)
        /\ length (row f) = length (header_of cfg (channels_of d))).
Proof.
  intros Hpl Hch Hthr Hlb row. split.
  - unfold run_subfolder.
    rewrite Hlb, (run_images_rows _ _ _ _ _ _ pixel_length) by done.
    rewrite lookup_insert_eq. cbn [default].
    destruct (matching (listing d)); [done|].
    by rewrite insert_insert_eq.
  - intros f _. subst row. unfold row_of.
    destruct (summarise_Ok py_round cfg
                (images (subFolder_name d) f pixel_length lowerBounds)
                (channels_of d) (subFolder_name d) f Hch Hthr)
      as [[summary fieldnames] Hrun].
    rewrite Hrun. by apply (summarise_identity _ _ _ _ _ _ _ _ Hrun).
Qed.

(** X23. When [process] raises an exception on an image, resolving the
    pixel length or building the summary, the batch ends with that
    exception: the csv file keeps the rows of the images processed before,
    and neither the files listed after the image nor the sub-folders after
    this one are processed. *)
Theorem batch_stops_at_first_exception (py_round : float -> Z -> float)
    (py_float : string -> result float) (cfg : config)
    (images : string -> string -> float -> list Z -> imagej)
    (thresholds : gmap string string) (d : subfolder)
    (rest : list subfolder) (lowerBounds : list Z)
    (before after : list string) (f : string)
    (files : gmap string (list (list pyval))) (e : exn) :
  let written :=
    run_images py_round py_float cfg images lowerBounds d before
      (<[outputName d := []]> files) in
  resolve_lowerBounds thresholds (channels_of d) = Ok lowerBounds ->
  listing d = before ++ f :: after ->
  written.2 = None ->
  endswith f "ch00.tif" = true ->
  process_image py_round py_float cfg images lowerBounds d f [] = Raise e ->
  run_batch py_round py_float cfg images thresholds (d :: rest) files
  = (written.1, Some e).
Proof.
  intros written Hlb Hl Hbefore Hf He. cbn [run_batch].
  unfold run_subfolder. rewrite Hlb, Hl.
  by rewrite (run_images_stops py_round py_float cfg images lowerBounds d
                before after f _ e Hbefore Hf He).
Qed.

(** X24. When two consecutive sub-folders are given the same output
    name, the rows written for the first are lost: the batch ends as if
    the first sub-folder had not been processed. *)
Theorem shared_output_name_overwrites (py_round : float -> Z -> float)
    (py_float : string -> result float) (cfg : config)
    (images : string -> string -> float -> list Z -> imagej)
    (thresholds : gmap string string) (d1 d2 : subfolder)
    (rest : list subfolder) (files : gmap string (list (list pyval))) :
  outputName d1 = outputName d2 ->
  (run_subfolder py_round py_float cfg images thresholds d1 files).2 = None ->
  run_batch py_round py_float cfg images thresholds (d1 :: d2 :: rest) files
  = run_batch py_round py_float cfg images thresholds (d2 :: rest) files.
Proof.
  intros Hname Hfirst. cbn [run_batch].
  destruct (run_subfolder_file py_round py_float cfg images thresholds d1
              files) as [csvfile Hfile].
  destruct (run_subfolder py_round py_float cfg images thresholds d1 files)
    as [files1 [e|]]; [done|].
  simpl in Hfile. subst files1.
  assert (run_subfolder py_round py_float cfg images thresholds d2
            (<[outputName d1 := csvfile]> files)
          = run_subfolder py_round py_float cfg images thresholds d2 files)
    as ->; [|done].
  unfold run_subfolder. by rewrite Hname, insert_insert_eq.
Qed.

Lemma subfolder_rows_witness :
  exists header a b,
    run_subfolder round_half_away py_float_sample default_config
      sample_images ∅ plate1 ∅
    = ({["results" := [header; a; b]]}, None)
    /\ a !! 2 = Some (PyStr "a_ch00.tif")
    /\ b !! 2 = Some (PyStr "b_ch00.tif").
Proof.
  destruct (subfolder_rows round_half_away py_float_sample default_config
              sample_images ∅ plate1 Calibration.default_pixel_length
              [40; 20; 35; 50; 40]%Z ∅) as [Hrun Hrows].
  - reflexivity.
  - by apply (bool_decide_unpack _); vm_compute.
  - reflexivity.
  - reflexivity.
  - eexists _, _, _. split; [exact Hrun|]. split.
    + apply (Hrows "a_ch00.tif").
      apply list_elem_of_here.
    + apply (Hrows "b_ch00.tif").
      apply list_elem_of_further, list_elem_of_here.
Defined.

Lemma batch_stops_at_first_exception_witness :
  run_batch round_half_away py_float_sample default_config sample_images ∅
    [plate2; plate1] ∅
  = ((run_images round_half_away py_float_sample default_config sample_images
        [40; 20; 35; 50; 40]%Z plate2 ["a_ch00.tif"] {["results" := []]}).1,
     Some TypeError).
Proof.
  apply (batch_stops_at_first_exception round_half_away py_float_sample
           default_config sample_images ∅ plate2 [plate1]
           [40; 20; 35; 50; 40]%Z
           ["a_ch00.tif"] ["c_ch00.tif"] "b_ch00.tif" ∅ TypeError).
  - reflexivity.
  - reflexivity.
  - vm_compute. reflexivity.
  - reflexivity.
  - vm_compute. reflexivity.
Defined.

Lemma shared_output_name_overwrites_witness :
  run_batch round_half_away py_float_sample default_config sample_images ∅
    [plate1; plate2] ∅
  = run_batch round_half_away py_float_sample default_config sample_images ∅
      [plate2] ∅.
Proof.
  apply (shared_output_name_overwrites round_half_away py_float_sample
           default_config sample_images ∅ plate1 plate2 [] ∅).
  - reflexivity.
  - vm_compute. reflexivity.
Defined.
